(** * gns3-converter: the topology transformation engine

    A shallow embedding of [gns3converter/converter.py] (class [Converter])
    and the properties of its device typing, section classification and
    processing, node synthesis and link finalisation.

    The converter runs on Python 3 (it imports [ipaddress]).  Python values
    are modelled as follows: [str] is [string] (8-bit characters), [int] is
    [Z], [None] is the [None] of an option, a [dict] is an association
    list in insertion order whose keys are looked up first-match, a raised
    exception is the [Raise] case of [result], and the converter's
    instance attributes ([port_id], [links], [configs]) are threaded as an
    explicit state.  The nodes are Python objects that [generate_links]
    updates in place; here it returns the updated list.

    The tables of [ports.py] ([MODEL_MATRIX], [ADAPTER_MATRIX],
    [PORT_TYPES]) are a parameter ([catalog]), and so are the library
    functions [ipaddress.ip_address] and [int]. *)

From Stdlib Require Import ZArith List String Ascii Bool Lia Arith.
From Stdlib Require Import DecimalString DecimalZ.
Import ListNotations.

Set Implicit Arguments.

Open Scope string_scope.
Open Scope list_scope.

(* ================================================================= *)
(** ** Python builtins used by the converter *)

Module Py.

(** Exceptions the converter can run into. *)
Inductive exn : Type :=
| KeyError
| IndexError
| TypeError
| ValueError
| AttributeError.

Inductive result (A : Type) : Type :=
| Ok (a : A)
| Raise (e : exn).

Arguments Ok {A} a.
Arguments Raise {A} e.

Definition bind {A B} (r : result A) (k : A -> result B) : result B :=
  match r with
  | Ok a => k a
  | Raise e => Raise e
  end.

Definition of_option {A} (e : exn) (o : option A) : result A :=
  match o with
  | Some a => Ok a
  | None => Raise e
  end.

(** [s.startswith(p)] *)
Definition startswith (p s : string) : bool := String.prefix p s.

(** [s.replace(old, new)]: the non-overlapping occurrences of [old], scanned
    from the left, are replaced.  [skip] counts the characters of an
    occurrence that are still to be dropped. *)
Fixpoint replace_from (old new : string) (skip : nat) (s : string) : string :=
  match s with
  | EmptyString => EmptyString
  | String c s' =>
      match skip with
      | S k => replace_from old new k s'
      | O =>
          if String.prefix old s
          then new ++ replace_from old new (String.length old - 1) s'
          else String c (replace_from old new 0 s')
      end
  end.

(** With an empty [old], Python puts [new] before every character and at
    the end. *)
Fixpoint intersperse (new s : string) : string :=
  match s with
  | EmptyString => new
  | String c s' => new ++ String c (intersperse new s')
  end.

Definition replace (old new s : string) : string :=
  match old with
  | EmptyString => intersperse new s
  | _ => replace_from old new 0 s
  end.

(** [s.split(sep)] for a one-character separator. *)
Fixpoint split (sep : ascii) (s : string) : list string :=
  match s with
  | EmptyString => [EmptyString]
  | String c s' =>
      if Ascii.eqb c sep then EmptyString :: split sep s'
      else match split sep s' with
           | h :: t => String c h :: t
           | [] => [String c EmptyString]
           end
  end.

(** [s.index(c)] for a one-character needle; [None] stands for the
    [ValueError] of a missing needle, and [c in s] is [contains]. *)
Fixpoint index (c : ascii) (s : string) : option nat :=
  match s with
  | EmptyString => None
  | String d s' =>
      if Ascii.eqb d c then Some 0
      else option_map S (index c s')
  end.

Definition contains (c : ascii) (s : string) : bool :=
  match index c s with Some _ => true | None => false end.

(** [s[0:n]] *)
Definition slice_to (n : nat) (s : string) : string := String.substring 0 n s.

(** [s[n]] *)
Definition item (n : nat) (s : string) : result ascii :=
  of_option IndexError (String.get n s).

(** [c.upper()] and [c.lower()] on one character. *)
Definition upper_ascii (c : ascii) : ascii :=
  let n := nat_of_ascii c in
  if (97 <=? n)%nat && (n <=? 122)%nat then ascii_of_nat (n - 32) else c.

Definition lower_ascii (c : ascii) : ascii :=
  let n := nat_of_ascii c in
  if (65 <=? n)%nat && (n <=? 90)%nat then ascii_of_nat (n + 32) else c.

Fixpoint upper (s : string) : string :=
  match s with
  | EmptyString => EmptyString
  | String c s' => String (upper_ascii c) (upper s')
  end.

Definition is_digit (c : ascii) : bool :=
  let n := nat_of_ascii c in (48 <=? n)%nat && (n <=? 57)%nat.

(** [str(n)] for an [int]. *)
Definition str_int (z : Z) : string := NilZero.string_of_int (Z.to_int z).

(** [str(x)] for an [int] or [None]. *)
Definition str_opt (o : option Z) : string :=
  match o with
  | Some z => str_int z
  | None => "None"
  end.

(** [sorted(...)] on strings: insertion sort by code point. *)
Fixpoint insert_sorted (x : string) (l : list string) : list string :=
  match l with
  | [] => [x]
  | y :: l' => if String.leb x y then x :: l else y :: insert_sorted x l'
  end.

Fixpoint sorted (l : list string) : list string :=
  match l with
  | [] => []
  | x :: l' => insert_sorted x (sorted l')
  end.

(** A [dict] with string keys. *)
Definition dict (V : Type) : Type := list (string * V).

Fixpoint get {V} (k : string) (d : dict V) : option V :=
  match d with
  | [] => None
  | (k', v) :: d' => if String.eqb k k' then Some v else get k d'
  end.

Definition getitem {V} (k : string) (d : dict V) : result V :=
  of_option KeyError (get k d).

Definition mem {V} (k : string) (d : dict V) : bool :=
  match get k d with Some _ => true | None => false end.

(** [d[k] = v]: an existing key keeps its place. *)
Fixpoint set {V} (k : string) (v : V) (d : dict V) : dict V :=
  match d with
  | [] => [(k, v)]
  | (k', v') :: d' =>
      if String.eqb k k' then (k, v) :: d' else (k', v') :: set k v d'
  end.

Definition keys {V} (d : dict V) : list string := map fst d.

End Py.

Import Py.

Declare Scope py_scope.
Delimit Scope py_scope with py.
Notation "x <- c1 ;; c2" := (Py.bind c1 (fun x => c2))
  (at level 61, c1 at next level, right associativity) : py_scope.
Notation "' pat <- c1 ;; c2" :=
  (Py.bind c1 (fun x => match x with pat => c2 end))
  (at level 61, pat pattern, c1 at next level, right associativity) : py_scope.
Open Scope py_scope.

(* ================================================================= *)
(** ** Device Namer/Typer: [Converter.device_typename] *)

(** The [dev_type] dictionary: keys ['from'], ['desc'] and ['type']. *)
Record dev_type : Type := mk_dev_type {
  dt_from : string;
  dt_desc : string;
  dt_type : string
}.

Definition device_typename_type (item : string) : option dev_type :=
  if startswith "ROUTER" item then
    Some (mk_dev_type "ROUTER" "Router" "Router")
  else if startswith "QEMU" item then
    Some (mk_dev_type "QEMU" "QEMU" "QEMU")
  else if startswith "VBOX" item then
    Some (mk_dev_type "VBOX" "VBOX" "VBOX")
  else if startswith "FRSW" item then
    Some (mk_dev_type "FRSW" "Frame Relay switch" "FrameRelaySwitch")
  else if startswith "ETHSW" item then
    Some (mk_dev_type "ETHSW" "Ethernet switch" "EthernetSwitch")
  else if startswith "Hub" item then
    Some (mk_dev_type "Hub" "Ethernet hub" "EthernetHub")
  else if startswith "ATMSW" item then
    Some (mk_dev_type "ATMSW" "ATM switch" "ATMSwitch")
  else if startswith "ATMBR" item then
    Some (mk_dev_type "ATMBR" "ATMBR" "ATMBR")
  else if startswith "Cloud" item then
    Some (mk_dev_type "Cloud" "Cloud" "Cloud")
  else None.

(** [dev_type['from']] on [None] is a [TypeError]. *)
Definition device_typename (item : string) : result (string * dev_type) :=
  dt <- of_option TypeError (device_typename_type item) ;;
  let name := replace (dt_from dt ++ " ") "" item in
  Ok (name, dt).

(* ================================================================= *)
(** ** Section Classifier: [Converter.get_instances] *)

Section Instances.

(** [ipaddress.ip_address] of the Python standard library, as the test
    "does not raise [ValueError]". *)
Variable ip_address : string -> bool.

Definition is_instance (item : string) : bool :=
  if contains ":" item then
    match Py.index ":" item with
    | Some delim_pos =>
        let addr := slice_to delim_pos item in
        ip_address addr
    | None => false
    end
  else false.

Fixpoint get_instances_loop (items : list string) (instances : list string)
  : list string :=
  match items with
  | [] => instances
  | item :: rest =>
      get_instances_loop rest
        (if is_instance item then instances ++ [item] else instances)
  end.

Definition get_instances {V} (config : dict V) : list string :=
  get_instances_loop (sorted (keys config)) [].

End Instances.

(* ================================================================= *)
(** ** Module globals: the regular expressions *)

(** [p] matched at the start of [s] without regard to case; the rest of
    [s] is returned. *)
Fixpoint strip_prefix_nocase (p s : string) : option string :=
  match p with
  | EmptyString => Some s
  | String a p' =>
      match s with
      | EmptyString => None
      | String b s' =>
          if Ascii.eqb (lower_ascii a) (lower_ascii b)
          then strip_prefix_nocase p' s'
          else None
      end
  end.

Fixpoint skip_digits (s : string) : string :=
  match s with
  | EmptyString => EmptyString
  | String c s' => if is_digit c then skip_digits s' else s
  end.

(** [([0-9]+)/([0-9]+)] at the start of [s]. *)
Definition digits_slash_digits (s : string) : bool :=
  match s with
  | String c _ =>
      is_digit c &&
      match skip_digits s with
      | String "/" (String d _) => is_digit d
      | _ => false
      end
  | EmptyString => false
  end.

Definition newline : string := String (ascii_of_nat 10) EmptyString.

(** The alternatives of [interface_re].  The pattern is written over two
    source lines without [re.VERBOSE], so the line break belongs to the
    alternative that precedes it. *)
Definition interface_prefixes : list string :=
  ["g"; "gi"; "f"; "fa"; "a"; "at"; "s"; "se"; "e"; "et"; "p"; "po"; "i";
   "id"; ("IDS-Sensor" ++ newline)%string; "an"; "Analysis-Module"].

(** [interface_re.search(s)], as "there is a match". *)
Definition interface_re (s : string) : bool :=
  existsb (fun p =>
             match strip_prefix_nocase p s with
             | Some rest => digits_slash_digits rest
             | None => false
             end) interface_prefixes.

(** [ethswint_re.search(s)], as "there is a match". *)
Definition ethswint_re (s : string) : bool :=
  match s with
  | String c _ => is_digit c
  | EmptyString => false
  end.

(* ================================================================= *)
(** ** Data model *)

(** Values found in the device and hypervisor mappings and in a node's
    property bag. *)
Inductive pyval : Type :=
| VInt (z : Z)
| VStr (s : string)
| VStrs (l : list string).

Definition pyval_eqb (a b : pyval) : bool :=
  match a, b with
  | VInt x, VInt y => Z.eqb x y
  | VStr x, VStr y => String.eqb x y
  | VStrs x, VStrs y =>
      if list_eq_dec String.string_dec x y then true else false
  | _, _ => false
  end.

(** [v == 'text'] *)
Definition is_str (v : pyval) (s : string) : bool := pyval_eqb v (VStr s).

(** [str(v)] as the [%s] conversion uses it. *)
Definition str_val (v : pyval) : result string :=
  match v with
  | VInt z => Ok (str_int z)
  | VStr s => Ok s
  | VStrs _ => Raise TypeError
  end.

Definition as_str (e : exn) (v : pyval) : result string :=
  match v with
  | VStr s => Ok s
  | _ => Raise e
  end.

(** The int-valued entries ([node_id], [hv_id]) are the counters
    [process_topology] stores. *)
Definition as_int (e : exn) (v : pyval) : result Z :=
  match v with
  | VInt z => Ok z
  | _ => Raise e
  end.

(** *** Port Catalog ([ports.py]) *)

Record entry : Type := mk_entry {
  e_ports : Z;
  e_type : option string
}.

Record catalog : Type := mk_catalog {
  MODEL_MATRIX : dict (dict entry);
  ADAPTER_MATRIX : dict entry;
  PORT_TYPES : dict string
}.

(** *** Ports, nodes and links *)

Record port : Type := mk_port {
  p_name : string;
  p_id : Z;
  p_port_number : option Z;
  p_slot_number : option pyval;
  p_stub : bool;
  p_type : option string;
  p_vlan : option Z;
  p_link_id : option Z
}.

Record label : Type := mk_label {
  l_text : string;
  l_x : Z;
  l_y : Z
}.

Record node : Type := mk_node {
  n_id : Z;
  n_server_id : Z;
  n_x : pyval;
  n_y : pyval;
  n_router_id : option Z;
  n_ports : option (list port);
  n_description : pyval;
  n_type : pyval;
  n_label : label;
  n_properties : dict pyval
}.

(** A SymbolicLink, as [calc_link] builds it. *)
Record symlink : Type := mk_symlink {
  source_node_id : Z;
  source_port_id : Z;
  dest_dev : string;
  dest_port : string
}.

(** A Link of the finalized list; ['id'] is absent until assigned. *)
Record link : Type := mk_link {
  destination_node_id : option Z;
  destination_port_id : option Z;
  lk_source_port_id : Z;
  lk_source_node_id : Z;
  lk_id : option Z
}.

Record config_pair : Type := mk_config_pair {
  cfg_old : pyval;
  cfg_new : string
}.

(** The converter's instance attributes. *)
Record conv : Type := mk_conv {
  port_id : Z;
  links : list symlink;
  configs : list config_pair
}.

Definition init_conv : conv := mk_conv 1 [] [].

(** Methods of [Converter]: state in, result and state out. *)
Definition M (A : Type) : Type := conv -> result (A * conv).

Definition ret {A} (a : A) : M A := fun s => Ok (a, s).

Definition mbind {A B} (m : M A) (k : A -> M B) : M B :=
  fun s => match m s with
           | Ok (a, s') => k a s'
           | Raise e => Raise e
           end.

Definition lift {A} (r : result A) : M A :=
  fun s => match r with
           | Ok a => Ok (a, s)
           | Raise e => Raise e
           end.

(** [self.port_id], then [self.port_id += 1] *)
Definition next_port_id : M Z :=
  fun s => Ok (port_id s, mk_conv (port_id s + 1) (links s) (configs s)).

Definition append_link (l : symlink) : M unit :=
  fun s => Ok (tt, mk_conv (port_id s) (links s ++ [l]) (configs s)).

Definition append_config (c : config_pair) : M unit :=
  fun s => Ok (tt, mk_conv (port_id s) (links s) (configs s ++ [c])).

Declare Scope conv_scope.
Delimit Scope conv_scope with conv.
Notation "x <~ c1 ;; c2" := (mbind c1 (fun x => c2))
  (at level 61, c1 at next level, right associativity) : conv_scope.
Notation "' pat <~ c1 ;; c2" :=
  (mbind c1 (fun x => match x with pat => c2 end))
  (at level 61, pat pattern, c1 at next level, right associativity) : conv_scope.
Open Scope conv_scope.

(* ================================================================= *)
(** ** Node Synthesizer and Link Resolver *)

(** [for x in xs: acc = body(x, acc)] *)
Fixpoint for_each {A S} (xs : list A) (body : A -> S -> M S) (acc : S) : M S :=
  match xs with
  | [] => ret acc
  | x :: rest => acc' <~ body x acc ;; for_each rest body acc'
  end.

(** [range(n)] *)
Definition range (n : Z) : list Z := map Z.of_nat (seq 0 (Z.to_nat n)).

(** [os.path.basename] (POSIX): what follows the last slash. *)
Fixpoint basename (s : string) : string :=
  match s with
  | EmptyString => EmptyString
  | String _ s' => if contains "/" s then basename s' else s
  end.

(** A dictionary subscripted by a value: only a [str] can hit a key. *)
Definition getitem_val {V} (k : pyval) (d : dict V) : result V :=
  match k with
  | VStr s => getitem s d
  | _ => Raise KeyError
  end.

(** The hypervisor configurations, keyed by the int [hv_id]. *)
Definition hypervisors : Type := list (Z * dict pyval).

Fixpoint get_hv (k : Z) (h : hypervisors) : option (dict pyval) :=
  match h with
  | [] => None
  | (k', v) :: h' => if Z.eqb k k' then Some v else get_hv k h'
  end.

Definition getitem_hv (k : pyval) (h : hypervisors) : result (dict pyval) :=
  match k with
  | VInt z => of_option KeyError (get_hv z h)
  | _ => Raise KeyError
  end.

(** An element of [interfaces]: [{'from': item, 'to': value}]. *)
Record interface : Type := mk_interface {
  if_from : string;
  if_to : pyval
}.

(** [sorted(interfaces)]: the elements are dictionaries, which Python 3
    cannot order; any comparison raises [TypeError], and two elements
    suffice for one. *)
Definition sorted_interfaces (l : list interface) : result (list interface) :=
  match l with
  | _ :: _ :: _ => Raise TypeError
  | _ => Ok l
  end.

(** [Converter.calc_link] *)
Definition calc_link (src_id src_port : Z) (destination : string * string)
  : symlink :=
  mk_symlink src_id src_port (fst destination) (snd destination).

(** The first port whose name is [name]: the scan with [break]. *)
Fixpoint find_port_by_name (name : string) (ports : list port) : option port :=
  match ports with
  | [] => None
  | p :: rest =>
      if String.eqb name (p_name p) then Some p
      else find_port_by_name name rest
  end.

Section Converter.

Variable cat : catalog.

(** [int(text)] of Python, as far as the converter needs it: [None] is
    the [ValueError]. *)
Variable py_int : string -> option Z.

(** [Converter.calc_mb_ports] *)
Definition calc_mb_ports (model device_chassis : pyval) : M (list port) :=
  by_chassis <~ lift (getitem_val model (MODEL_MATRIX cat)) ;;
  e <~ lift (getitem_val device_chassis by_chassis) ;;
  let num_ports := e_ports e in
  if (0 <? num_ports)%Z then
    port_type <~ lift (of_option KeyError (e_type e)) ;;
    for_each (range num_ports)
      (fun i ports =>
         long <~ lift (getitem port_type (PORT_TYPES cat)) ;;
         id <~ next_port_id ;;
         ret (ports ++
              [mk_port (long ++ "0/" ++ str_int i) id (Some i)
                       (Some (VInt 0)) false None None None]))
      []
  else ret [].

(** [Converter.calc_slot_ports] *)
Definition calc_slot_ports (adapter slot : pyval) : M (list port) :=
  e <~ lift (getitem_val adapter (ADAPTER_MATRIX cat)) ;;
  let num_ports := e_ports e in
  port_type <~ lift (of_option KeyError (e_type e)) ;;
  for_each (range num_ports)
    (fun i ports =>
       long <~ lift (getitem port_type (PORT_TYPES cat)) ;;
       slot_text <~ lift (str_val slot) ;;
       let port_name := (long ++ (slot_text ++ "/" ++ str_int i))%string in
       id <~ next_port_id ;;
       ret (ports ++
            [mk_port port_name id (Some i) (Some slot) false None None None]))
    [].

(** [Converter.calc_cloud_connection] *)
Definition calc_cloud_connection (connection : string) : M (port * string) :=
  let fields := split ":" connection in
  f2 <~ lift (of_option IndexError (nth_error fields 2)) ;;
  f3 <~ lift (of_option IndexError (nth_error fields 3)) ;;
  let nio := (f2 ++ ":" ++ f3)%string in
  id <~ next_port_id ;;
  ret (mk_port nio id None None true None None None, nio).

(** [Converter.calc_ethsw_port] *)
Definition calc_ethsw_port (port_num : string) (port_def : pyval)
  : M (port * (string * string)) :=
  text <~ lift (as_str AttributeError port_def) ;;
  let fields := split " " text in
  destination <~ lift
    (if (List.length fields =? 4)%nat then
       d2 <- of_option IndexError (nth_error fields 2) ;;
       d3 <- of_option IndexError (nth_error fields 3) ;;
       Ok (d2, d3)
     else
       d2 <- of_option IndexError (nth_error fields 2) ;;
       Ok ("NIO", d2)) ;;
  number <~ lift (of_option ValueError (py_int port_num)) ;;
  type <~ lift (of_option IndexError (nth_error fields 0)) ;;
  vlan_text <~ lift (of_option IndexError (nth_error fields 1)) ;;
  vlan <~ lift (of_option ValueError (py_int vlan_text)) ;;
  id <~ next_port_id ;;
  ret (mk_port port_num id (Some number) None false (Some type) (Some vlan)
               None,
       destination).

(** The expansion of an interface name in [calc_router_links] and
    [generate_links]: every occurrence of the first character is replaced
    by the long name [PORT_TYPES] has for its upper case. *)
Definition expand_interface (name : string) : result string :=
  int_type <- item 0 name ;;
  let int_type := String int_type EmptyString in
  long <- getitem (upper int_type) (PORT_TYPES cat) ;;
  Ok (replace int_type long name).

(** [Converter.calc_router_links]; of [node_temp] it reads ['id'] and
    ['ports']. *)
Definition calc_router_links (connection : interface)
           (node_id : Z) (node_ports : list port) : result symlink :=
  int_name <- expand_interface (if_from connection) ;;
  let src_port :=
    match find_port_by_name int_name node_ports with
    | Some p => p_id p
    | None => 0%Z
    end in
  to <- as_str AttributeError (if_to connection) ;;
  let dest_temp := split " " to in
  conn_to <-
    (if (List.length dest_temp =? 2)%nat then
       d0 <- of_option IndexError (nth_error dest_temp 0) ;;
       d1 <- of_option IndexError (nth_error dest_temp 1) ;;
       Ok (d0, d1)
     else
       d0 <- of_option IndexError (nth_error dest_temp 0) ;;
       Ok ("NIO", d0)) ;;
  Ok (calc_link node_id src_port conn_to).

(** The local variables of one round of the device loop of
    [generate_nodes] that the item loop writes. *)
Record node_temp : Type := mk_node_temp {
  nt_props : dict pyval;
  nt_router_id : option Z;
  nt_ports : option (list port);
  nt_npe : option pyval;
  nt_chassis : pyval;
  nt_connections : option pyval;
  nt_interfaces : list interface
}.

Definition with_props (f : dict pyval -> dict pyval) (t : node_temp)
  : node_temp :=
  mk_node_temp (f (nt_props t)) (nt_router_id t) (nt_ports t) (nt_npe t)
               (nt_chassis t) (nt_connections t) (nt_interfaces t).

(** [if key in hypervisors[hv_id]: node_temp_props[key] = ...] *)
Definition copy_if_present (key : string) (hv props : dict pyval)
  : dict pyval :=
  match get key hv with
  | Some v => Py.set key v props
  | None => props
  end.

(** The [hv_id] branch of the item loop. *)
Definition item_hv_id (hvs : hypervisors) (hv_id : pyval) (t : node_temp)
  : result node_temp :=
  hv <- getitem_hv hv_id hvs ;;
  image <- getitem "image" hv ;;
  image <- as_str TypeError image ;;
  let props := Py.set "image" (VStr (basename image)) (nt_props t) in
  let props := copy_if_present "idlepc" hv props in
  let props := copy_if_present "ram" hv props in
  let npe := match get "npe" hv with Some v => Some v | None => nt_npe t end in
  let chassis :=
    match get "chassis" hv with Some v => v | None => nt_chassis t end in
  Ok (mk_node_temp props (nt_router_id t) (nt_ports t) npe chassis
                   (nt_connections t) (nt_interfaces t)).

(** One round of [for item in sorted(devices[device])]. *)
Definition item_step (hvs : hypervisors) (dev : dict pyval)
           (node_id : Z) (type model : pyval) (item : string) (t : node_temp)
  : M node_temp :=
  value <~ lift (getitem item dev) ;;
  if String.eqb item "hv_id" && is_str type "Router" then
    lift (item_hv_id hvs value t)
  else if String.eqb item "type" && is_str value "Router" then
    ret (mk_node_temp (nt_props t) (Some node_id) (nt_ports t) (nt_npe t)
                      (nt_chassis t) (nt_connections t) (nt_interfaces t))
  else if String.eqb item "aux" then
    ret (with_props (Py.set "aux" value) t)
  else if String.eqb item "console" then
    ret (with_props (Py.set "console" value) t)
  else if startswith "slot" item then
    if is_str model "c7200" then
      if negb (String.eqb item "slot0")
      then ret (with_props (Py.set item value) t)
      else ret t
    else ret (with_props (Py.set item value) t)
  else if String.eqb item "connections" then
    ret (mk_node_temp (nt_props t) (nt_router_id t) (nt_ports t) (nt_npe t)
                      (nt_chassis t) (Some value) (nt_interfaces t))
  else if interface_re item then
    ret (mk_node_temp (nt_props t) (nt_router_id t) (nt_ports t) (nt_npe t)
                      (nt_chassis t) (nt_connections t)
                      (nt_interfaces t ++ [mk_interface item value]))
  else if ethswint_re item then
    '(port_def, destination) <~ calc_ethsw_port item value ;;
    ports <~ lift (of_option KeyError (nt_ports t)) ;;
    _ <~ append_link (calc_link node_id (p_id port_def) destination) ;;
    ret (mk_node_temp (nt_props t) (nt_router_id t)
                      (Some (ports ++ [port_def])) (nt_npe t)
                      (nt_chassis t) (nt_connections t) (nt_interfaces t))
  else if String.eqb item "cnfg" then
    let new_config := ("i" ++ str_int node_id ++ "_startup-config.cfg")%string in
    _ <~ append_config (mk_config_pair value new_config) ;;
    ret (with_props (Py.set "startup_config" (VStr new_config)) t)
  else ret t.

(** [for item in sorted(node_temp_props): if item.startswith('slot'): ...] *)
Definition slot_step (props : dict pyval) (item : string) (ports : list port)
  : M (list port) :=
  if startswith "slot" item then
    slot <~ lift (Py.item 4 item) ;;
    adapter <~ lift (getitem item props) ;;
    more <~ calc_slot_ports adapter (VStr (String slot EmptyString)) ;;
    ret (ports ++ more)
  else ret ports.

(** The default ports of the 7200 and the 3660: what the [if]/[elif]
    chain after the slot loop does to the port list and the property
    bag. *)
Definition default_ports (model : pyval) (npe : option pyval) (chassis : pyval)
           (ports : list port) (props : dict pyval)
  : M (list port * dict pyval) :=
  if is_str model "c7200" &&
     match npe with Some v => is_str v "npe-g2" | None => false end then
    more <~ calc_slot_ports (VStr "C7200-IO-GE-E") (VInt 0) ;;
    ret (ports ++ more, props)
  else if is_str model "c7200" then
    more <~ calc_slot_ports (VStr "C7200-IO-2FE") (VInt 0) ;;
    ret (ports ++ more, props)
  else if is_str model "c3600" then
    let props := Py.set "chassis" chassis props in
    if is_str chassis "3660"
    then ret (ports, Py.set "slot0" (VStr "Leopard-2FE") props)
    else ret (ports, props)
  else ret (ports, props).

(** The port list of a router: motherboard ports, the ports of the slots
    in the property bag, then the default ports. *)
Definition router_ports (model : pyval) (t : node_temp)
  : M (list port * dict pyval) :=
  mb <~ calc_mb_ports model (nt_chassis t) ;;
  ports <~ for_each (sorted (keys (nt_props t))) (slot_step (nt_props t)) mb ;;
  default_ports model (nt_npe t) (nt_chassis t) ports (nt_props t).

(** [for connection in sorted(interfaces): self.links.append(...)] *)
Definition router_links (node_id : Z) (ports : list port)
           (interfaces : list interface) : M unit :=
  conns <~ lift (sorted_interfaces interfaces) ;;
  for_each conns
    (fun connection _ =>
       l <~ lift (calc_router_links connection node_id ports) ;;
       append_link l)
    tt.

(** The Cloud branch: one stub port and one NIO per connection. *)
Definition cloud_ports (connections : option pyval)
  : M (list port * list string) :=
  connections <~ lift (of_option AttributeError connections) ;;
  connections <~ lift (as_str AttributeError connections) ;;
  for_each (sorted (split " " connections))
    (fun connection acc =>
       '(port, nio) <~ calc_cloud_connection connection ;;
       ret (fst acc ++ [port], snd acc ++ [nio]))
    ([], []).

(** One round of [for device in sorted(devices)]. *)
Definition generate_node (hvs : hypervisors) (device : string)
           (dev : dict pyval) : M node :=
  node_id <~ lift (getitem "node_id" dev) ;;
  node_id <~ lift (as_int TypeError node_id) ;;
  x <~ lift (getitem "x" dev) ;;
  y <~ lift (getitem "y" dev) ;;
  type <~ lift (getitem "type" dev) ;;
  let model := match get "model" dev with Some m => m | None => VStr "" end in
  let t0 := mk_node_temp [("name", VStr device)] None
              (if is_str type "EthernetSwitch" then Some [] else None)
              None (VStr "") None [] in
  t <~ for_each (sorted (keys dev)) (item_step hvs dev node_id type model) t0 ;;
  let node_label := mk_label device 15 (-25) in
  if is_str type "Router" then
    model_text <~ lift (as_str TypeError model) ;;
    let description := VStr ("Router" ++ " " ++ model_text) in
    '(ports, props) <~ router_ports model t ;;
    _ <~ router_links node_id ports (nt_interfaces t) ;;
    ret (mk_node node_id 1 x y (nt_router_id t) (Some ports) description
                 (VStr (upper model_text)) node_label props)
  else if is_str type "Cloud" then
    '(ports, nios) <~ cloud_ports (nt_connections t) ;;
    ret (mk_node node_id 1 x y (nt_router_id t) (Some ports) type type
                 node_label (Py.set "nios" (VStrs nios) (nt_props t)))
  else
    ret (mk_node node_id 1 x y (nt_router_id t) (nt_ports t) type type
                 node_label (nt_props t)).

(** [Converter.generate_nodes] *)
Definition generate_nodes (devices : dict (dict pyval)) (hvs : hypervisors)
  : M (list node) :=
  for_each (sorted (keys devices))
    (fun device nodes =>
       dev <~ lift (getitem device devices) ;;
       n <~ generate_node hvs device dev ;;
       ret (nodes ++ [n]))
    [].

(* ================================================================= *)
(** ** Link Finalizer *)

(** [Converter.convert_destination_to_id], the branch of a named
    destination: the first node of that name, then its first port of that
    name. *)
Fixpoint convert_named (destination_node destination_port : string)
         (nodes : list node) : result (option Z * option Z) :=
  match nodes with
  | [] => Ok (None, None)
  | node :: rest =>
      name <- getitem "name" (n_properties node) ;;
      if is_str name destination_node then
        ports <- of_option KeyError (n_ports node) ;;
        Ok (Some (n_id node),
            option_map p_id (find_port_by_name destination_port ports))
      else convert_named destination_node destination_port rest
  end.

(** The branch of the ["NIO"] destination: the outer [break] leaves the
    scan at the first node of type Cloud. *)
Fixpoint convert_nio (destination_port : string) (nodes : list node)
  : result (option Z * option Z) :=
  match nodes with
  | [] => Ok (None, None)
  | node :: rest =>
      if is_str (n_type node) "Cloud" then
        ports <- of_option KeyError (n_ports node) ;;
        match find_port_by_name destination_port ports with
        | Some p => Ok (Some (n_id node), Some (p_id p))
        | None => Ok (None, None)
        end
      else convert_nio destination_port rest
  end.

Definition convert_destination_to_id (destination_node destination_port : string)
           (nodes : list node) : result (option Z * option Z) :=
  if negb (String.eqb destination_node "NIO")
  then convert_named destination_node destination_port nodes
  else convert_nio destination_port nodes.

(** [port['link_id'] = link_id] on the first port whose id is [pid]. *)
Fixpoint mark_port (pid link_id : Z) (ports : list port) : list port :=
  match ports with
  | [] => []
  | p :: rest =>
      if Z.eqb (p_id p) pid then
        mk_port (p_name p) (p_id p) (p_port_number p) (p_slot_number p)
                (p_stub p) (p_type p) (p_vlan p) (Some link_id) :: rest
      else p :: mark_port pid link_id rest
  end.

Definition with_ports (n : node) (ports : list port) : node :=
  mk_node (n_id n) (n_server_id n) (n_x n) (n_y n) (n_router_id n)
          (Some ports) (n_description n) (n_type n) (n_label n)
          (n_properties n).

(** [port['id'] == link['destination_port_id']] never holds for [None]. *)
Definition mark_port_opt (pid : option Z) (link_id : Z) (ports : list port)
  : list port :=
  match pid with
  | Some pid => mark_port pid link_id ports
  | None => ports
  end.

(** [Converter.add_node_connections]: the nodes are updated in place, so
    the updated list is returned. *)
Fixpoint add_node_connections (l : link) (link_id : Z) (nodes : list node)
  : result (list node) :=
  match nodes with
  | [] => Ok []
  | node :: rest =>
      node' <-
        (if Z.eqb (n_id node) (lk_source_node_id l) then
           ports <- of_option KeyError (n_ports node) ;;
           Ok (with_ports node (mark_port (lk_source_port_id l) link_id ports))
         else if match destination_node_id l with
                 | Some d => Z.eqb (n_id node) d
                 | None => false
                 end then
           ports <- of_option KeyError (n_ports node) ;;
           Ok (with_ports node
                 (mark_port_opt (destination_port_id l) link_id ports))
         else Ok node) ;;
      rest' <- add_node_connections l link_id rest ;;
      Ok (node' :: rest')
  end.

(** "Expand port name if required" *)
Definition expanded_dest_port (l : symlink) : result string :=
  if interface_re (dest_port l)
  then expand_interface (dest_port l)
  else Ok (dest_port l).

(** The first loop of [generate_links]: one unnumbered Link per
    SymbolicLink. *)
Definition resolve_link (nodes : list node) (l : symlink) : result link :=
  dest_port <- expanded_dest_port l ;;
  '(dest_node_id, dest_port_id) <-
    convert_destination_to_id (dest_dev l) dest_port nodes ;;
  Ok (mk_link dest_node_id dest_port_id (source_port_id l) (source_node_id l)
              None).

Fixpoint resolve_links (nodes : list node) (ls : list symlink)
  : result (list link) :=
  match ls with
  | [] => Ok []
  | l :: rest =>
      r <- resolve_link nodes l ;;
      rs <- resolve_links nodes rest ;;
      Ok (r :: rs)
  end.

Definition option_Z_eqb (a b : option Z) : bool :=
  match a, b with
  | Some x, Some y => Z.eqb x y
  | None, None => true
  | _, _ => false
  end.

(** [==] on two Link dictionaries. *)
Definition link_eqb (a b : link) : bool :=
  option_Z_eqb (destination_node_id a) (destination_node_id b) &&
  option_Z_eqb (destination_port_id a) (destination_port_id b) &&
  Z.eqb (lk_source_port_id a) (lk_source_port_id b) &&
  Z.eqb (lk_source_node_id a) (lk_source_node_id b) &&
  option_Z_eqb (lk_id a) (lk_id b).

Definition t_link (l : link) : string :=
  (str_int (lk_source_node_id l) ++ ":" ++ str_int (lk_source_port_id l))%string.

Definition d_link (l : link) : string :=
  (str_opt (destination_node_id l) ++ ":" ++
   str_opt (destination_port_id l))%string.

(** The index of the first element that satisfies [f]. *)
Fixpoint find_index {A} (f : A -> bool) (l : list A) : option nat :=
  match l with
  | [] => None
  | x :: rest => if f x then Some 0%nat else option_map S (find_index f rest)
  end.

Fixpoint remove_at {A} (n : nat) (l : list A) : list A :=
  match l, n with
  | [], _ => []
  | _ :: rest, O => rest
  | x :: rest, S k => x :: remove_at k rest
  end.

Fixpoint set_at {A} (n : nat) (y : A) (l : list A) : list A :=
  match l, n with
  | [], _ => []
  | _ :: rest, O => y :: rest
  | x :: rest, S k => x :: set_at k y rest
  end.

Definition set_id (l : link) (link_id : Z) : link :=
  mk_link (destination_node_id l) (destination_port_id l)
          (lk_source_port_id l) (lk_source_node_id l) (Some link_id).

(** The inner loop of the second loop: the first [link2] whose
    destination text is [t], and [links.remove(link2)], which takes out
    the first element equal to [link2].  Returned with the list is the
    index that was taken out. *)
Definition remove_mirror (t : string) (ls : list link)
  : list link * option nat :=
  match find (fun link2 => String.eqb t (d_link link2)) ls with
  | Some link2 =>
      match find_index (link_eqb link2) ls with
      | Some r => (remove_at r ls, Some r)
      | None => (ls, None)
      end
  | None => (ls, None)
  end.

(** One round of the second loop on the list: [l] is [links[i]], the Link
    being numbered.  It is an object: after the removal it sits one place
    lower when an earlier element went, and is no longer in the list when
    it went itself. *)
Definition dedup_step (i : nat) (link_id : Z) (l : link) (ls : list link)
  : list link :=
  let '(ls1, removed) := remove_mirror (t_link l) ls in
  let where_now :=
    match removed with
    | Some r =>
        if (r <? i)%nat then Some (i - 1)%nat
        else if (r =? i)%nat then None
        else Some i
    | None => Some i
    end in
  match where_now with
  | Some p => set_at p (set_id l link_id) ls1
  | None => ls1
  end.

(** The second loop of [generate_links].  [for link in links] reads
    [links[i]] for i = 0, 1, ... until i reaches the current length, while
    the body shortens the list; [fuel] bounds the number of rounds. *)
Fixpoint dedup_loop (fuel i : nat) (link_id : Z) (ls : list link)
         (nodes : list node) : result (list link * list node) :=
  match fuel with
  | O => Ok (ls, nodes)
  | S fuel' =>
      match nth_error ls i with
      | None => Ok (ls, nodes)
      | Some l =>
          let ls2 := dedup_step i link_id l ls in
          nodes' <- add_node_connections (set_id l link_id) link_id nodes ;;
          dedup_loop fuel' (S i) (link_id + 1) ls2 nodes'
      end
  end.

(** [Converter.generate_links]: the finalized links and the nodes, whose
    ports the method annotates. *)
Definition generate_links (nodes : list node) (self : conv)
  : result (list link * list node) :=
  ls <- resolve_links nodes (links self) ;;
  dedup_loop (List.length ls) 0 1 ls nodes.

End Converter.

(* ================================================================= *)
(** ** A catalog and an [int] to run the converter on *)

(** Modelled from the spec: [ports.py] (the Port Catalog tables
    [MODEL_MATRIX], [ADAPTER_MATRIX] and [PORT_TYPES]) is not among the
    sources.  The entries are those the specification names: the default
    cards "C7200-IO-GE-E", "C7200-IO-2FE" and "Leopard-2FE" with their "GE"
    and "FE" families, the short prefix "f" that expands to
    "FastEthernet", and models with and without motherboard ports; the
    port counts are those the card names carry.  It serves the examples
    and the runs on concrete topologies; the general statements hold for
    every catalog. *)
Definition sample_catalog : catalog :=
  mk_catalog
    [("c7200", [("", mk_entry 0 (Some ""))]);
     ("c3600", [("3620", mk_entry 0 (Some ""));
                ("3640", mk_entry 0 (Some ""));
                ("3660", mk_entry 2 (Some "F"))])]
    [("C7200-IO-GE-E", mk_entry 1 (Some "G"));
     ("C7200-IO-2FE", mk_entry 2 (Some "F"));
     ("Leopard-2FE", mk_entry 2 (Some "F"));
     ("PA-FE-TX", mk_entry 1 (Some "F"));
     ("NM-1FE-TX", mk_entry 1 (Some "F"))]
    [("G", "GigabitEthernet");
     ("F", "FastEthernet");
     ("E", "Ethernet");
     ("S", "Serial");
     ("A", "ATM");
     ("P", "POS")].

Fixpoint digits_value (acc : Z) (s : string) : option Z :=
  match s with
  | EmptyString => Some acc
  | String c s' =>
      if is_digit c
      then digits_value (10 * acc + Z.of_nat (nat_of_ascii c - 48)) s'
      else None
  end.

(** [int] on a plain run of decimal digits; anything else is refused. *)
Definition int_of_digits (s : string) : option Z :=
  match s with
  | EmptyString => None
  | _ => digits_value 0 s
  end.

(** An address check for the examples: four dot-separated runs of one to
    three digits. *)
Definition dotted_quad (s : string) : bool :=
  let parts := split "." s in
  (List.length parts =? 4)%nat &&
  forallb (fun p => match int_of_digits p with
                    | Some v => (String.length p <=? 3)%nat && (v <=? 255)%Z
                    | None => false
                    end) parts.

(* ================================================================= *)
(** ** Vocabulary of the properties *)

(** [old] occurs nowhere in [s]. *)
Fixpoint occurs_nowhere (old s : string) : bool :=
  match s with
  | EmptyString => true
  | String _ s' => negb (String.prefix old s) && occurs_nowhere old s'
  end.

(** The closed set of type tags and the prefix literals. *)
Definition type_tags : list string :=
  ["Router"; "QEMU"; "VBOX"; "FrameRelaySwitch"; "EthernetSwitch";
   "EthernetHub"; "ATMSwitch"; "ATMBR"; "Cloud"].

Definition prefix_literals : list string :=
  ["ROUTER"; "QEMU"; "VBOX"; "FRSW"; "ETHSW"; "Hub"; "ATMSW"; "ATMBR"; "Cloud"].


(* ================================================================= *)
(** ** Example topologies *)

(** The whole run on a device mapping: [generate_nodes], then
    [generate_links] on its nodes and symbolic links. *)
Definition convert (cat : catalog) (devices : dict (dict pyval))
           (hvs : hypervisors) : result (list link * list node) :=
  match generate_nodes cat int_of_digits devices hvs init_conv with
  | Ok (nodes, self) => generate_links cat nodes self
  | Raise e => Raise e
  end.

Definition hv_c7200 : hypervisors :=
  [(0%Z, [("model", VStr "c7200");
          ("image", VStr "/images/c7200-adventerprisek9-mz.124-15.T14.image")])].

Definition hv_c7200_npe_g2 : hypervisors :=
  [(0%Z, [("model", VStr "c7200");
          ("image", VStr "/images/c7200-adventerprisek9-mz.124-15.T14.image");
          ("npe", VStr "npe-g2")])].

Definition hv_c3660 : hypervisors :=
  [(0%Z, [("model", VStr "c3600");
          ("image", VStr "/images/c3660-ik9o3s-mz.124-15.T14.image");
          ("chassis", VStr "3660")])].

(** A router device with one interface key, as [process_topology]
    leaves it. *)
Definition router_device (model : string) (node_id : Z) (key to : string)
  : dict pyval :=
  [("hv_id", VInt 0); ("node_id", VInt node_id); ("type", VStr "Router");
   (key, VStr to); ("x", VStr "-100.0"); ("y", VStr "50.0");
   ("model", VStr model)].

Definition cloud_device (node_id : Z) (connections : string) : dict pyval :=
  [("node_id", VInt node_id); ("type", VStr "Cloud");
   ("x", VStr "0.0"); ("y", VStr "0.0"); ("connections", VStr connections)].

(** Scenario 2: two routers that declare the same cable. *)
Definition two_routers : dict (dict pyval) :=
  [("R1", router_device "c7200" 1 "f0/0" "R2 f0/0");
   ("R2", router_device "c7200" 2 "f0/0" "R1 f0/0")].

(** Three routers: "R1" and "R2" declare one cable, and "R0" claims the
    same interface of "R1". *)
Definition three_routers : dict (dict pyval) :=
  [("R0", router_device "c7200" 1 "f0/0" "R1 f0/0");
   ("R1", router_device "c7200" 2 "f0/0" "R2 f0/0");
   ("R2", router_device "c7200" 3 "f0/0" "R1 f0/0")].

(** A router whose interface names a device that does not exist. *)
Definition dangling_router : dict (dict pyval) :=
  [("R1", router_device "c7200" 1 "f0/0" "R9 f0/0")].

(** Two clouds and a switch with one port into each. *)
Definition two_clouds : dict (dict pyval) :=
  [("C1", cloud_device 1 "SW1:1:nio_gen_eth:eth0");
   ("C2", cloud_device 2 "SW1:2:nio_gen_eth:eth1");
   ("SW1", [("node_id", VInt 3); ("type", VStr "EthernetSwitch");
            ("x", VStr "0.0"); ("y", VStr "0.0");
            ("1", VStr "access 1 nio_gen_eth:eth0");
            ("2", VStr "access 1 nio_gen_eth:eth1")])].

(** A switch with a cable between two of its own ports. *)
Definition looped_switch : dict (dict pyval) :=
  [("SW1", [("node_id", VInt 1); ("type", VStr "EthernetSwitch");
            ("x", VStr "0.0"); ("y", VStr "0.0");
            ("1", VStr "access 1 SW1 2");
            ("2", VStr "access 1 SW1 1")])].

(** A 3660 without slot keys. *)
Definition router_3660 : dict pyval :=
  [("hv_id", VInt 0); ("node_id", VInt 1); ("type", VStr "Router");
   ("x", VStr "0.0"); ("y", VStr "0.0"); ("model", VStr "c3600")].

(** A 7200 with a card in slot 1. *)
Definition router_7200 : dict pyval :=
  [("hv_id", VInt 0); ("node_id", VInt 1); ("type", VStr "Router");
   ("slot1", VStr "PA-FE-TX");
   ("x", VStr "0.0"); ("y", VStr "0.0"); ("model", VStr "c7200")].

Definition plain_port (name : string) (id number : Z) (slot : pyval) : port :=
  mk_port name id (Some number) (Some slot) false None None None.

(** The default card of a 7200, by the NPE of its hypervisor. *)
Definition c7200_default_card (npe : option pyval) : string :=
  if match npe with Some v => is_str v "npe-g2" | None => false end
  then "C7200-IO-GE-E"
  else "C7200-IO-2FE".

(** The NPE value the hypervisor configuration of a device carries, if
    any. *)
Definition device_npe (hvs : hypervisors) (dev : dict pyval) : option pyval :=
  match get "hv_id" dev with
  | Some (VInt h) =>
      match get_hv h hvs with
      | Some hv => get "npe" hv
      | None => None
      end
  | _ => None
  end.

(** The specification's reading of the 3660 rule: the slot-0 property is
    seeded into the property bag ahead of the slot loop, which then
    computes its ports. *)
Definition seed_slot0 (model chassis : pyval) (props : dict pyval)
  : dict pyval :=
  if is_str model "c3600" && is_str chassis "3660"
  then Py.set "slot0" (VStr "Leopard-2FE") props
  else props.

Definition spec_router_ports (cat : catalog) (model : pyval) (t : node_temp)
  : M (list port * dict pyval) :=
  router_ports cat model (with_props (seed_slot0 model (nt_chassis t)) t).

(** The chassis the hypervisor configuration of a device carries, [''] if
    none. *)
Definition device_chassis (hvs : hypervisors) (dev : dict pyval) : pyval :=
  match get "hv_id" dev with
  | Some (VInt h) =>
      match get_hv h hvs with
      | Some hv =>
          match get "chassis" hv with Some v => v | None => VStr "" end
      | None => VStr ""
      end
  | _ => VStr ""
  end.

(** The [i]-th port of a card: its name is the long interface name, the
    slot and the position; its id is the [i]-th after [first_id]. *)
Definition slot_port (long slot_text : string) (slot : pyval) (first_id i : Z)
  : port :=
  mk_port (long ++ (slot_text ++ "/" ++ str_int i)) (first_id + i) (Some i)
          (Some slot) false None None None.

Definition advance_port_id (k : Z) (s : conv) : conv :=
  mk_conv (port_id s + k) (links s) (configs s).

(** The local variables of the round of [router_3660] after its item
    loop. *)
Definition node_temp_3660 : node_temp :=
  mk_node_temp
    [("name", VStr "R1"); ("image", VStr "c3660-ik9o3s-mz.124-15.T14.image")]
    (Some 1%Z) None None (VStr "3660") None [].

(** The two ends of a Link. *)
Definition source_of (l : link) : Z * Z :=
  (lk_source_node_id l, lk_source_port_id l).

Definition destination_of (l : link) : option Z * option Z :=
  (destination_node_id l, destination_port_id l).

Definition ends (l : link) : (Z * Z) * (option Z * option Z) :=
  (source_of l, destination_of l).

(** The test of the inner loop of the duplicate removal. *)
Definition mirrors (t : string) (link2 : link) : bool :=
  String.eqb t (d_link link2).

(** A node that the link finalizer can read: it has a name and a port
    list (routers, Ethernet switches and clouds have one). *)
Definition node_ok (n : node) : Prop :=
  n_ports n <> None /\ get "name" (n_properties n) <> None.

(** No node or port answers to the destination of a SymbolicLink: no node
    of that name, or, for the ["NIO"] sentinel, no Cloud node with a port
    of that name. *)
Definition unmatched (nodes : list node) (dev port_name : string) : Prop :=
  if String.eqb dev "NIO" then
    forall n ports,
      In n nodes -> n_type n = VStr "Cloud" -> n_ports n = Some ports ->
      find_port_by_name port_name ports = None
  else
    forall n, In n nodes -> get "name" (n_properties n) <> Some (VStr dev).

(** A port and a node with the link back-references left out: what the
    link finalizer must not change. *)
Definition without_link_id (p : port) : port :=
  mk_port (p_name p) (p_id p) (p_port_number p) (p_slot_number p)
          (p_stub p) (p_type p) (p_vlan p) None.

Definition node_without_link_ids (n : node) : node :=
  mk_node (n_id n) (n_server_id n) (n_x n) (n_y n) (n_router_id n)
          (option_map (map without_link_id) (n_ports n))
          (n_description n) (n_type n) (n_label n) (n_properties n).

(** The first port of a list that has the id [pid]. *)
Definition port_by_id (pid : Z) (ports : list port) : option port :=
  find (fun p => Z.eqb (p_id p) pid) ports.

(** The destination of a Link as a node and port pair, when both ids are
    there. *)
Definition target (l : link) : option (Z * Z) :=
  match destination_node_id l, destination_port_id l with
  | Some n, Some p => Some (n, p)
  | _, _ => None
  end.

(** [a] is resolved to the source node and port of [b]. *)
Definition points_at (a b : link) : Prop := target a = Some (source_of b).

(** The declarations describe a cabling: a port is the source of at most
    one Link, a Link that points at the source of another is pointed at
    by it in turn (every cable is declared alike from both ends that
    declare it), and no Link points at its own source. *)
Definition consistent (ls : list link) : Prop :=
  NoDup (map source_of ls) /\
  (forall a b, In a ls -> In b ls -> points_at a b -> points_at b a) /\
  (forall a, In a ls -> ~ points_at a a).

(** Nothing in the list points at the source of one of its first [i]
    elements. *)
Definition processed_clear (i : nat) (ls : list link) : Prop :=
  forall k d x,
    (k < i)%nat -> nth_error ls k = Some d -> In x ls -> ~ points_at x d.

(** A Link of the resolved list is still there, or points at the source
    of one of the first [i] elements. *)
Definition covered (i : nat) (ls : list link) (x0 : link) : Prop :=
  (exists x, In x ls /\ ends x = ends x0) \/
  (exists k d, (k < i)%nat /\ nth_error ls k = Some d /\ points_at x0 d).

Definition pair_eqb (a b : Z * Z) : bool :=
  Z.eqb (fst a) (fst b) && Z.eqb (snd a) (snd b).

(** [l] connects the ports [A] and [B], in one direction or the other. *)
Definition connects (A B : Z * Z) (l : link) : bool :=
  match target l with
  | Some T =>
      pair_eqb (source_of l) A && pair_eqb T B ||
      pair_eqb (source_of l) B && pair_eqb T A
  | None => false
  end.

(** The node and port ids name a port of a node of the list. *)
Definition refers_to_port (nodes : list node) (nid pid : option Z) : Prop :=
  exists n ports p,
    In n nodes /\ n_ports n = Some ports /\ In p ports /\
    nid = Some (n_id n) /\ pid = Some (p_id p).

(** Two Links with the same unordered pair of ends. *)
Definition same_cable (a b : link) : Prop :=
  (source_of a = source_of b /\ destination_of a = destination_of b) \/
  (points_at a b /\ points_at b a).

(** The invariant of the Link list as the specification words it. *)
Definition link_invariant (nodes : list node) (ls : list link) : Prop :=
  (forall l, In l ls ->
     refers_to_port nodes (Some (lk_source_node_id l))
                    (Some (lk_source_port_id l)) /\
     refers_to_port nodes (destination_node_id l) (destination_port_id l)) /\
  (forall j k a b,
      j <> k -> nth_error ls j = Some a -> nth_error ls k = Some b ->
      ~ same_cable a b).

(** The source of a SymbolicLink is a node of the list and one of its
    ports, or the port id 0 of an interface that was not found. *)
Definition source_known (nodes : list node) (node_id port_id : Z) : Prop :=
  exists n ports,
    In n nodes /\ n_id n = node_id /\ n_ports n = Some ports /\
    (port_id = 0%Z \/ exists p, In p ports /\ p_id p = port_id).

(** The destination of a Link is null, or a node of the list with a null
    port id, or a node of the list and one of its ports. *)
Definition destination_known (nodes : list node) (nid pid : option Z) : Prop :=
  (nid = None /\ pid = None) \/
  exists n ports,
    In n nodes /\ nid = Some (n_id n) /\ n_ports n = Some ports /\
    (pid = None \/ exists p, In p ports /\ pid = Some (p_id p)).

(** A computation that leaves [self.links] alone. *)
Definition keeps_links {A} (m : M A) : Prop :=
  forall s a s', m s = Ok (a, s') -> links s' = links s.





(** A QEMU host and a router whose interface f0/0 leads to it. *)
Definition router_to_qemu : dict (dict pyval) :=
  [("QEMU1", [("node_id", VInt 1); ("type", VStr "QEMU");
              ("x", VStr "0.0"); ("y", VStr "0.0")]);
   ("R1", router_device "c7200" 2 "f0/0" "QEMU1 e0")].
(* ================================================================= *)
(** ** Section Processor: [Converter.process_topology] *)

(** [self.model_transform], in the order [__init__] fills it. *)
Definition model_transform : dict string :=
  [("2691", "c2691"); ("3725", "c3725"); ("3745", "c3745"); ("7200", "c7200");
   ("1720", "c1700"); ("1721", "c1700"); ("1750", "c1700"); ("1751", "c1700");
   ("1760", "c1700");
   ("2620", "c2600"); ("2621", "c2600"); ("2610XM", "c2600");
   ("2611XM", "c2600"); ("2620XM", "c2600"); ("2621XM", "c2600");
   ("2650XM", "c2600"); ("2651XM", "c2600");
   ("3620", "c3600"); ("3640", "c3600"); ("3660", "c3600")].

(** The topology [read_topology] returns is a ConfigObj: a section maps a
    key to a scalar (a value, or [None] for an entry without one) or to a
    section.  A subsection of a hypervisor section (a chassis or a device)
    holds the scalars [process_topology] copies. *)
Definition block : Type := dict (option pyval).

Inductive section_item : Type :=
| Scalar (v : option pyval)
| Block (b : block).

Inductive top_item : Type :=
| TopScalar (v : option pyval)
| TopSection (s : dict section_item).

Definition topology : Type := dict top_item.

(** [sorted(old_top[instance])] and the subscripts [old_top[instance][item]]
    of the loop over it: a section gives its items; an empty string or
    list gives no round at all; any other scalar cannot be iterated or
    subscripted by a string. *)
Definition section_of (v : top_item) : result (dict section_item) :=
  match v with
  | TopSection s => Ok s
  | TopScalar (Some (VStr EmptyString)) => Ok []
  | TopScalar (Some (VStrs [])) => Ok []
  | TopScalar _ => Raise TypeError
  end.

(** [for s_item in sorted(block): if block[s_item] is not None:
    target[s_item] = block[s_item]] *)
Fixpoint copy_items (s_items : list string) (b : block) (target : dict pyval)
  : result (dict pyval) :=
  match s_items with
  | [] => Ok target
  | s_item :: rest =>
      v <- getitem s_item b ;;
      copy_items rest b
        (match v with
         | Some x => Py.set s_item x target
         | None => target
         end)
  end.

(** [conf[hv_id] = value] *)
Fixpoint set_hv (k : Z) (v : dict pyval) (h : hypervisors) : hypervisors :=
  match h with
  | [] => [(k, v)]
  | (k', v') :: h' =>
      if Z.eqb k k' then (k, v) :: h' else (k', v') :: set_hv k v h'
  end.

(** The local variables [devices], [conf] and [nid]. *)
Record topology_state : Type := mk_topology_state {
  ts_devices : dict (dict pyval);
  ts_conf : hypervisors;
  ts_nid : Z
}.

(** [for x in xs: acc = body(x, acc)] without access to [self]. *)
Fixpoint for_each_r {A S} (xs : list A) (body : A -> S -> result S) (acc : S)
  : result S :=
  match xs with
  | [] => Ok acc
  | x :: rest => acc' <- body x acc ;; for_each_r rest body acc'
  end.

(** The entries a device has before those of its subsection are copied:
    ['hv_id'] (outside the data section), ['node_id'] and ['type']. *)
Definition new_device (instance : string) (hv_id nid : Z)
           (device_type : dev_type) : dict pyval :=
  let d := if negb (String.eqb instance "GNS3-DATA")
           then [("hv_id", VInt hv_id)] else [] in
  let d := Py.set "node_id" (VInt nid) d in
  Py.set "type" (VStr (dt_type device_type)) d.

(** The model of a router outside the data section: that of its
    hypervisor configuration, or its own passed through
    [model_transform]. *)
Definition set_router_model (instance : string) (hv_id : Z)
           (conf : hypervisors) (d : dict pyval) : result (dict pyval) :=
  if negb (String.eqb instance "GNS3-DATA") then
    type <- getitem "type" d ;;
    if is_str type "Router" then
      if negb (mem "model" d) then
        hv <- of_option KeyError (get_hv hv_id conf) ;;
        model <- getitem "model" hv ;;
        Ok (Py.set "model" model d)
      else
        model <- getitem "model" d ;;
        model <- getitem_val model model_transform ;;
        Ok (Py.set "model" (VStr model) d)
    else Ok d
  else Ok d.

(** One round of [for item in sorted(old_top[instance])]. *)
Definition process_item (instance : string) (section : dict section_item)
           (hv_id : Z) (item : string) (st : topology_state)
  : result topology_state :=
  value <- getitem item section ;;
  match value with
  | Scalar _ => Ok st
  | Block b =>
      if mem item model_transform then
        model <- getitem item model_transform ;;
        c <- copy_items (sorted (keys b)) b [("model", VStr model)] ;;
        Ok (mk_topology_state (ts_devices st) (set_hv hv_id c (ts_conf st))
                              (ts_nid st))
      else
        '(device_name, device_type) <- device_typename item ;;
        d <- copy_items (sorted (keys b)) b
               (new_device instance hv_id (ts_nid st) device_type) ;;
        d <- set_router_model instance hv_id (ts_conf st) d ;;
        Ok (mk_topology_state (Py.set device_name d (ts_devices st))
                              (ts_conf st) (ts_nid st + 1))
  end.

(** One round of [for instance in sorted(sections)]. *)
Definition process_instance (old_top : topology) (instance : string)
           (hv_id : Z) (st : topology_state) : result topology_state :=
  entry <- getitem instance old_top ;;
  section <- section_of entry ;;
  for_each_r (sorted (keys section)) (process_item instance section hv_id) st.

Fixpoint process_instances (old_top : topology) (instances : list string)
         (hv_id : Z) (st : topology_state) : result topology_state :=
  match instances with
  | [] => Ok st
  | instance :: rest =>
      st' <- process_instance old_top instance hv_id st ;;
      process_instances old_top rest (hv_id + 1) st'
  end.

(** [Converter.process_topology] *)
Definition process_topology (sections : list string) (old_top : topology)
  : result (dict (dict pyval) * hypervisors) :=
  st <- process_instances old_top (sorted sections) 0
          (mk_topology_state [] [] 1) ;;
  Ok (ts_devices st, ts_conf st).

(* ================================================================= *)
(** ** Lookups by name: [device_id_from_name], [port_id_from_name] *)

(** [Converter.device_id_from_name] *)
Fixpoint device_id_from_name (device_name : string) (nodes : list node)
  : result (option Z) :=
  match nodes with
  | [] => Ok None
  | node :: rest =>
      name <- getitem "name" (n_properties node) ;;
      if is_str name device_name then Ok (Some (n_id node))
      else device_id_from_name device_name rest
  end.

(** [Converter.port_id_from_name]; [device_id] is an id or [None], as
    [device_id_from_name] returns it. *)
Fixpoint port_id_from_name (port_name : string) (device_id : option Z)
         (nodes : list node) : result (option Z) :=
  match nodes with
  | [] => Ok None
  | node :: rest =>
      if match device_id with
         | Some d => Z.eqb d (n_id node)
         | None => false
         end then
        ports <- of_option KeyError (n_ports node) ;;
        Ok (option_map p_id (find_port_by_name port_name ports))
      else port_id_from_name port_name device_id rest
  end.

(* ================================================================= *)
(** ** A legacy topology to run the section processor on *)

(** Two hypervisor sections and the data section: a 3640 with a router
    that names its model and one that does not, a 7200 with one router,
    and a cloud. *)
Definition sample_topology : topology :=
  [("autostart", TopScalar (Some (VStr "False")));
   ("127.0.0.1:7200",
    TopSection
      [("workingdir", Scalar (Some (VStr "/tmp")));
       ("udp", Scalar (Some (VInt 10000)));
       ("3640", Block [("image", Some (VStr "/images/c3640.image"));
                       ("ram", Some (VInt 128));
                       ("idlepc", None);
                       ("chassis", Some (VStr "3640"))]);
       ("ROUTER R1", Block [("model", Some (VStr "3640"));
                            ("console", Some (VInt 2001));
                            ("slot0", Some (VStr "NM-1FE-TX"));
                            ("f0/0", Some (VStr "R2 f0/0"));
                            ("x", Some (VStr "-100.0"));
                            ("y", Some (VStr "50.0"))]);
       ("ROUTER R2", Block [("console", Some (VInt 2002));
                            ("slot0", Some (VStr "NM-1FE-TX"));
                            ("f0/0", Some (VStr "R1 f0/0"));
                            ("x", Some (VStr "100.0"));
                            ("y", Some (VStr "50.0"))])]);
   ("127.0.0.1:7201",
    TopSection
      [("7200", Block [("image", Some (VStr "/images/c7200.image"));
                       ("npe", Some (VStr "npe-400"))]);
       ("ROUTER R3", Block [("x", Some (VStr "0.0"));
                            ("y", Some (VStr "150.0"))])]);
   ("GNS3-DATA",
    TopSection
      [("configs", Scalar (Some (VStr "configs")));
       ("Cloud C1", Block [("connections", Some (VStr "SW1:1:nio_gen_eth:eth0"));
                           ("x", Some (VStr "0.0"));
                           ("y", Some (VStr "0.0"))])])].

(* ================================================================= *)
(** ** Vocabulary of the further properties *)

(** The subsections of the sections of a topology, with their names. *)
Definition blocks_of (old_top : topology) : list (string * block) :=
  flat_map
    (fun e =>
       match snd e with
       | TopSection sec =>
           flat_map (fun i => match snd i with
                              | Block b => [(fst i, b)]
                              | Scalar _ => []
                              end) sec
       | TopScalar _ => []
       end) old_top.

Definition has_value (key : string) (b : block) : bool :=
  match get key b with
  | Some (Some _) => true
  | _ => false
  end.

(** No device subsection has a value under [key]. *)
Definition no_device_entry (key : string) (old_top : topology) : bool :=
  forallb (fun ib => mem (fst ib) model_transform || negb (has_value key (snd ib)))
          (blocks_of old_top).

(** No chassis subsection has a value under [key]. *)
Definition no_chassis_entry (key : string) (old_top : topology) : bool :=
  forallb (fun ib => negb (mem (fst ib) model_transform) ||
                     negb (has_value key (snd ib)))
          (blocks_of old_top).

(** Every device has an integer node id below the counter, and no two
    devices have the same. *)
Definition node_ids_fresh (st : topology_state) : Prop :=
  (1 <= ts_nid st)%Z /\
  (forall name d,
      get name (ts_devices st) = Some d ->
      exists k, get "node_id" d = Some (VInt k) /\ (1 <= k < ts_nid st)%Z) /\
  (forall name1 name2 d1 d2,
      get name1 (ts_devices st) = Some d1 ->
      get name2 (ts_devices st) = Some d2 ->
      get "node_id" d1 = get "node_id" d2 -> name1 = name2).

(** The model codes [model_transform] maps to. *)
Definition canonical_models : list string :=
  ["c1700"; "c2600"; "c2691"; "c3600"; "c3725"; "c3745"; "c7200"].

(** A model code of the table is there. *)
Definition has_canonical_model (d : dict pyval) : Prop :=
  exists m, get "model" d = Some (VStr m) /\ In m canonical_models.

(** Every hypervisor configuration has a model code of the table, and so
    has every device of type Router. *)
Definition models_canonical (st : topology_state) : Prop :=
  (forall h c, get_hv h (ts_conf st) = Some c -> has_canonical_model c) /\
  (forall name d,
      get name (ts_devices st) = Some d ->
      get "type" d = Some (VStr "Router") -> has_canonical_model d).

(** The hypervisor configuration [c] under the key [h] stems from a
    chassis subsection of the [h]-th section in sorted order: it has the
    values of the subsection, and the model code of the chassis unless the
    subsection has a model of its own. *)
Definition from_chassis (old_top : topology) (all : list string)
           (h : Z) (c : dict pyval) : Prop :=
  exists instance sec item b model,
    (0 <= h)%Z /\
    nth_error all (Z.to_nat h) = Some instance /\
    get instance old_top = Some (TopSection sec) /\
    get item sec = Some (Block b) /\
    get item model_transform = Some model /\
    (forall key v, get key b = Some (Some v) -> get key c = Some v) /\
    (has_value "model" b = false -> get "model" c = Some (VStr model)).

(** The ids of the ports of a node list, node by node. *)
Definition ports_of (n : node) : list port :=
  match n_ports n with
  | Some ports => ports
  | None => []
  end.

Definition all_port_ids (nodes : list node) : list Z :=
  flat_map (fun n => map p_id (ports_of n)) nodes.

(** [k] consecutive integers from [first]. *)
Definition consecutive (first : Z) (k : nat) : list Z :=
  map (fun i => (first + Z.of_nat i)%Z) (seq 0 k).

(** The ports carry the ids from [first] on, in order, and the counter
    [self.port_id] is the next one. *)
Definition fresh_from (first : Z) (ports : list port) (s : conv) : Prop :=
  map p_id ports = consecutive first (List.length ports) /\
  port_id s = (first + Z.of_nat (List.length ports))%Z.

(** The node [n] is made from the entry [device] of the device mapping:
    it carries the device's name as its ['name'] property and label text,
    its node id and position, and its type unless it is a router. *)
Definition node_of_device (devices : dict (dict pyval)) (device : string)
           (n : node) : Prop :=
  get "name" (n_properties n) = Some (VStr device) /\
  l_text (n_label n) = device /\
  exists dev,
    get device devices = Some dev /\
    get "node_id" dev = Some (VInt (n_id n)) /\
    get "x" dev = Some (n_x n) /\
    get "y" dev = Some (n_y n) /\
    (get "type" dev = Some (VStr "Router") \/ get "type" dev = Some (n_type n)).

(** A router with two interface keys. *)
Definition two_interface_router : dict pyval :=
  [("hv_id", VInt 0); ("node_id", VInt 1); ("type", VStr "Router");
   ("f0/0", VStr "R2 f0/0"); ("f0/1", VStr "R3 f0/0");
   ("x", VStr "0.0"); ("y", VStr "0.0"); ("model", VStr "c7200")].

(** The stub port of a cloud connection. *)
Definition stub_port (name : string) (id : Z) : port :=
  mk_port name id None None true None None None.

(** The links at the first [i] places carry the ids 1 to [i] in order,
    the others none. *)
Definition numbered (i : nat) (ls : list link) : Prop :=
  forall k d,
    nth_error ls k = Some d ->
    lk_id d = if (k <? i)%nat then Some (Z.of_nat k + 1)%Z else None.

(** The NIO text of a connection token: its third and fourth
    colon-separated fields joined by a colon. *)
Definition nio_of (token nio : string) : Prop :=
  exists kind target,
    nth_error (split ":" token) 2 = Some kind /\
    nth_error (split ":" token) 3 = Some target /\
    nio = (kind ++ ":" ++ target)%string.

(** The port of an Ethernet switch. *)
Definition ethsw_port (name : string) (id number : Z) (type : string)
           (vlan : Z) : port :=
  mk_port name id (Some number) None false (Some type) (Some vlan) None.

(** The source port id [calc_router_links] finds for an interface name. *)
Definition source_port_of (int_name : string) (ports : list port) : Z :=
  match find_port_by_name int_name ports with
  | Some p => p_id p
  | None => 0%Z
  end.

(** The nine [dev_type] dictionaries of [device_typename]. *)
Definition device_types : list dev_type :=
  [mk_dev_type "ROUTER" "Router" "Router";
   mk_dev_type "QEMU" "QEMU" "QEMU";
   mk_dev_type "VBOX" "VBOX" "VBOX";
   mk_dev_type "FRSW" "Frame Relay switch" "FrameRelaySwitch";
   mk_dev_type "ETHSW" "Ethernet switch" "EthernetSwitch";
   mk_dev_type "Hub" "Ethernet hub" "EthernetHub";
   mk_dev_type "ATMSW" "ATM switch" "ATMSwitch";
   mk_dev_type "ATMBR" "ATMBR" "ATMBR";
   mk_dev_type "Cloud" "Cloud" "Cloud"].

(** In every node that has the id of the source node of [l], the port
    that has the id of its source port carries the id of [l]. *)
Definition back_reference (nodes : list node) (l : link) : Prop :=
  forall n ports p,
    In n nodes -> n_id n = lk_source_node_id l ->
    n_ports n = Some ports ->
    port_by_id (lk_source_port_id l) ports = Some p ->
    p_link_id p = lk_id l.
(* ================================================================= *)
(** * Properties *)

Unset Implicit Arguments.

(** ** Strings *)

Lemma substring_all s : String.substring 0 (String.length s) s = s.
Proof.
  induction s as [|c s IH]; cbn; [reflexivity | now rewrite IH].
Qed.

Lemma replace_from_skip old new k s :
  replace_from old new k s =
  replace_from old new 0 (String.substring k (String.length s - k) s).
Proof.
  revert k; induction s as [|c s IH]; intros k.
  - destruct k; reflexivity.
  - destruct k as [|k].
    + now rewrite Nat.sub_0_r, substring_all.
    + cbn [replace_from String.length Nat.sub substring]. apply IH.
Qed.

Lemma substring_drop_append a b :
  String.substring (String.length a) (String.length (a ++ b) - String.length a)
    (a ++ b) = b.
Proof.
  induction a as [|c a IH]; cbn.
  - rewrite Nat.sub_0_r. apply substring_all.
  - exact IH.
Qed.

Lemma prefix_append a b : String.prefix a (a ++ b) = true.
Proof.
  induction a as [|c a IH]; cbn.
  - now destruct b.
  - destruct (ascii_dec c c); [exact IH | congruence].
Qed.

(** An occurrence of [old] at the head is consumed whole. *)
Lemma replace_head c old new rest :
  replace (String c old) new (String c old ++ rest) =
  (new ++ replace (String c old) new rest)%string.
Proof.
  unfold replace.
  change (String c old ++ rest)%string with (String c (old ++ rest)).
  cbn [replace_from].
  change (String c (old ++ rest)) with (String c old ++ rest)%string.
  rewrite prefix_append.
  f_equal.
  rewrite replace_from_skip.
  replace (String.length (String c old) - 1) with (String.length old)
    by (cbn [String.length]; lia).
  now rewrite substring_drop_append.
Qed.

Lemma replace_none c old new s :
  occurs_nowhere (String c old) s = true ->
  replace (String c old) new s = s.
Proof.
  unfold replace. induction s as [|d s IH]; intros H; [reflexivity|].
  cbn [occurs_nowhere] in H. apply andb_true_iff in H as [H1 H2].
  apply negb_true_iff in H1.
  cbn [replace_from]. rewrite H1. f_equal. now apply IH.
Qed.

(** ** C4: the Device Namer/Typer *)

(** The type tag is in the closed set and comes from a prefix literal the
    key starts with. *)
Lemma device_typename_type_closed item dt :
  device_typename_type item = Some dt ->
  In (dt_type dt) type_tags /\ In (dt_from dt) prefix_literals /\
  startswith (dt_from dt) item = true.
Proof.
  unfold device_typename_type.
  repeat match goal with
         | |- context [if startswith ?p item then _ else _] =>
             destruct (startswith p item) eqn:?
         end;
    intros [= <-]; cbn; intuition auto.
Qed.

(** A key that starts with a prefix literal is typed. *)
Lemma device_typename_defined item :
  (exists p, In p prefix_literals /\ startswith p item = true) ->
  exists name dt, device_typename item = Ok (name, dt).
Proof.
  intros (p & Hp & Hs).
  unfold device_typename.
  destruct (device_typename_type item) as [dt|] eqn:E; cbn.
  - eauto.
  - exfalso. unfold device_typename_type in E.
    cbn in Hp.
    repeat match type of E with
           | (if startswith ?q item then _ else _) = None =>
               destruct (startswith q item) eqn:?; [discriminate|]
           end.
    intuition (subst; congruence).
Qed.

(** Where the prefix and its separator open the key and occur nowhere in
    what follows, the display name is what follows. *)
Lemma device_typename_name item dt rest :
  device_typename_type item = Some dt ->
  item = (dt_from dt ++ " " ++ rest)%string ->
  occurs_nowhere (dt_from dt ++ " ") rest = true ->
  device_typename item = Ok (rest, dt).
Proof.
  intros Hty -> Hno.
  unfold device_typename. rewrite Hty. cbn [of_option Py.bind].
  do 2 f_equal.
  destruct (device_typename_type_closed _ _ Hty) as (_ & Hin & _).
  destruct (dt_from dt) as [|c from] eqn:Efrom.
  { cbn in Hin. intuition discriminate. }
  assert (A : forall a b d : string, (a ++ (b ++ d) = (a ++ b) ++ d)%string).
  { induction a; intros; cbn; [reflexivity | now f_equal]. }
  rewrite A.
  change (String c from ++ " ")%string with (String c (from ++ " ")) in *.
  rewrite replace_head.
  now rewrite replace_none.
Qed.

(** C4: the display name is not the key with the matched prefix and one
    separator removed when the same text occurs again inside the key:
    [replace] takes out every occurrence.  The hub named "Hub 1" comes
    out as "1", the router named "A ROUTER B" as "A B". *)
Theorem device_typename_removes_inner_occurrences :
  device_typename "Hub Hub 1" =
    Ok ("1", mk_dev_type "Hub" "Ethernet hub" "EthernetHub") /\
  "Hub Hub 1" = ("Hub" ++ " " ++ "Hub 1")%string /\
  "1" <> "Hub 1" /\
  device_typename "ROUTER A ROUTER B" =
    Ok ("A B", mk_dev_type "ROUTER" "Router" "Router") /\
  "ROUTER A ROUTER B" = ("ROUTER" ++ " " ++ "A ROUTER B")%string /\
  "A B" <> "A ROUTER B".
Proof.
  repeat split; discriminate.
Qed.

(** A prefix that is not followed by a blank is left in the name. *)
Example device_typename_without_separator :
  device_typename "ROUTERR1" =
    Ok ("ROUTERR1", mk_dev_type "ROUTER" "Router" "Router").
Proof. reflexivity. Qed.

Example device_typename_router :
  device_typename "ROUTER R1" =
    Ok ("R1", mk_dev_type "ROUTER" "Router" "Router").
Proof. reflexivity. Qed.

Example device_typename_unknown :
  device_typename "PC 1" = Raise TypeError.
Proof. reflexivity. Qed.

(** ** C9: the Section Classifier *)

Lemma In_insert_sorted x y l : In x (insert_sorted y l) <-> x = y \/ In x l.
Proof.
  induction l as [|z l IH]; cbn.
  - intuition.
  - destruct (String.leb y z); cbn; [intuition | rewrite IH; intuition].
Qed.

Lemma In_sorted x l : In x (sorted l) <-> In x l.
Proof.
  induction l as [|y l IH]; cbn; [reflexivity|].
  rewrite In_insert_sorted, IH. intuition.
Qed.

Lemma index_split c s n :
  Py.index c s = Some n ->
  exists rest, s = (slice_to n s ++ String c rest)%string /\
               contains c (slice_to n s) = false.
Proof.
  revert n; induction s as [|d s IH]; intros n; cbn; [discriminate|].
  destruct (Ascii.eqb d c) eqn:E.
  - intros [= <-]. apply Ascii.eqb_eq in E as ->. exists s. now destruct s.
  - destruct (Py.index c s) as [m|] eqn:Em; cbn; [|discriminate].
    intros [= <-]. destruct (IH m eq_refl) as (rest & H1 & H2).
    exists rest. unfold slice_to in *. cbn [substring]. split.
    + cbn. now rewrite <- H1.
    + unfold contains in *. cbn. rewrite E.
      destruct (Py.index c (substring 0 m s)); [discriminate | reflexivity].
Qed.

Lemma index_append c addr rest :
  contains c addr = false ->
  Py.index c (addr ++ String c rest) = Some (String.length addr) /\
  slice_to (String.length addr) (addr ++ String c rest) = addr.
Proof.
  unfold contains, slice_to.
  induction addr as [|d addr IH]; cbn.
  - rewrite Ascii.eqb_refl. intros _. split; [reflexivity | now destruct rest].
  - destruct (Ascii.eqb d c); [discriminate|].
    destruct (Py.index c addr) eqn:E; [discriminate|].
    intros _. destruct (IH eq_refl) as [H1 H2].
    rewrite H1, H2. now split.
Qed.

Section InstancesFacts.

Variable ip_address : string -> bool.

(** A name is kept exactly when it reads [addr:rest] with no colon in
    [addr] and [addr] an accepted address. *)
Lemma is_instance_iff item :
  is_instance ip_address item = true <->
  exists addr rest,
    item = (addr ++ ":" ++ rest)%string /\
    contains ":" addr = false /\
    ip_address addr = true.
Proof.
  unfold is_instance. split.
  - unfold contains at 1.
    destruct (Py.index ":" item) as [n|] eqn:E; [|discriminate].
    intros H. destruct (index_split _ _ _ E) as (rest & H1 & H2).
    exists (slice_to n item), rest. auto.
  - intros (addr & rest & -> & Hc & Hip).
    destruct (index_append ":" addr rest Hc) as [H1 H2].
    cbn [String.append]. unfold contains at 1. rewrite H1, H2. exact Hip.
Qed.

Lemma In_get_instances_loop item items acc :
  In item (get_instances_loop ip_address items acc) <->
  In item acc \/ (In item items /\ is_instance ip_address item = true).
Proof.
  revert acc; induction items as [|x items IH]; intros acc; cbn.
  - intuition.
  - rewrite IH. destruct (is_instance ip_address x) eqn:E.
    + rewrite in_app_iff. cbn. intuition (subst; auto).
    + intuition (subst; auto; congruence).
Qed.

(** C9: a top-level section name is listed by [get_instances] exactly
    when it has a colon and what precedes its first colon is accepted by
    [ip_address]; every other name is left out. *)
Theorem get_instances_classifies V (config : dict V) item :
  In item (get_instances ip_address config) <->
  In item (keys config) /\
  exists addr rest,
    item = (addr ++ ":" ++ rest)%string /\
    contains ":" addr = false /\
    ip_address addr = true.
Proof.
  unfold get_instances.
  rewrite In_get_instances_loop, In_sorted, is_instance_iff.
  cbn. intuition.
Qed.

End InstancesFacts.

Example get_instances_example :
  get_instances dotted_quad
    [("GNS3-DATA", tt); ("127.0.0.1:7200", tt); ("NOTE 1", tt);
     ("fe80::1:7200", tt); ("10.0.0.1:7201", tt); ("qemu 127.0.0.1:10525", tt)]
  = ["10.0.0.1:7201"; "127.0.0.1:7200"].
Proof. reflexivity. Qed.

(** ** C5: router links *)

Lemma split_nonempty sep s : exists h t, split sep s = h :: t.
Proof.
  induction s as [|c s (h & t & IH)]; cbn; [eauto|].
  destruct (Ascii.eqb c sep); [eauto|]. rewrite IH. eauto.
Qed.

Section RouterLinks.

Variable cat : catalog.

(** The source port is the first port of the node that carries the name
    [expand_interface] computes, and 0 when there is none; the source node
    is the node itself. *)
Lemma calc_router_links_source connection node_id ports l :
  calc_router_links cat connection node_id ports = Ok l ->
  exists int_name,
    expand_interface cat (if_from connection) = Ok int_name /\
    source_node_id l = node_id /\
    source_port_id l =
      match find_port_by_name int_name ports with
      | Some p => p_id p
      | None => 0%Z
      end.
Proof.
  unfold calc_router_links.
  destruct (expand_interface cat (if_from connection)) as [int_name|] eqn:E;
    cbn [Py.bind]; [|discriminate].
  intros H. exists int_name. split; [reflexivity|].
  destruct (as_str AttributeError (if_to connection)); cbn [Py.bind] in H;
    [|discriminate].
  match type of H with
  | Py.bind ?c _ = _ => destruct c as [conn_to|]; cbn [Py.bind] in H
  end; [|discriminate].
  injection H as <-. now cbn.
Qed.

(** With the first letter in [PORT_TYPES] and a text as destination, no
    error is raised, whether or not a port matches. *)
Lemma calc_router_links_total c rest to long node_id ports :
  get (upper (String c EmptyString)) (PORT_TYPES cat) = Some long ->
  exists l,
    calc_router_links cat (mk_interface (String c rest) (VStr to)) node_id ports
    = Ok l.
Proof.
  intros H. unfold calc_router_links, expand_interface, Py.item, getitem.
  cbn [if_from if_to String.get of_option Py.bind as_str].
  rewrite H. cbn [of_option Py.bind].
  destruct (split_nonempty " " to) as (h & t & ->).
  destruct t as [|h2 [|h3 t]]; cbn; eauto.
Qed.

(** For a one-letter prefix that does not occur again in the key, the
    expansion is the long name followed by the rest of the key. *)
Lemma expand_interface_one_letter c rest long :
  get (upper (String c EmptyString)) (PORT_TYPES cat) = Some long ->
  occurs_nowhere (String c EmptyString) rest = true ->
  expand_interface cat (String c rest) = Ok (long ++ rest)%string.
Proof.
  intros H Hno. unfold expand_interface, Py.item, getitem.
  cbn [String.get of_option Py.bind]. rewrite H. cbn [of_option Py.bind].
  f_equal.
  change (String c rest) with (String c EmptyString ++ rest)%string.
  rewrite replace_head. now rewrite replace_none.
Qed.

End RouterLinks.

(** C5: a key with a two-letter prefix matches the interface pattern, but
    only its first letter is expanded: "fa0/0" becomes
    "FastEtherneta0/0", the port "FastEthernet0/0" of the node is not
    found and the source port id is 0. *)
Theorem calc_router_links_two_letter_prefix :
  let ports :=
    [mk_port "FastEthernet0/0" 1 (Some 0%Z) (Some (VInt 0)) false None None None;
     mk_port "FastEthernet0/1" 2 (Some 1%Z) (Some (VInt 0)) false None None None]
  in
  interface_re "fa0/0" = true /\
  expand_interface sample_catalog "fa0/0" = Ok "FastEtherneta0/0" /\
  calc_router_links sample_catalog (mk_interface "fa0/0" (VStr "R2 f0/0"))
                    1 ports
  = Ok (mk_symlink 1 0 "R2" "f0/0") /\
  calc_router_links sample_catalog (mk_interface "f0/0" (VStr "R2 f0/0"))
                    1 ports
  = Ok (mk_symlink 1 1 "R2" "f0/0").
Proof. repeat split. Qed.

(** ** C7: destinations on the ["NIO"] sentinel *)

(** The scan reads the ports of the first Cloud node only. *)
Lemma convert_nio_first_cloud port_name pre c rest ports :
  Forall (fun n => is_str (n_type n) "Cloud" = false) pre ->
  is_str (n_type c) "Cloud" = true ->
  n_ports c = Some ports ->
  convert_nio port_name (pre ++ c :: rest) =
  Ok (match find_port_by_name port_name ports with
      | Some p => (Some (n_id c), Some (p_id p))
      | None => (None, None)
      end).
Proof.
  intros Hpre Hc Hp. induction Hpre as [|n pre Hn _ IH]; cbn.
  - rewrite Hc, Hp. cbn. now destruct (find_port_by_name port_name ports).
  - now rewrite Hn.
Qed.

(** C7: with two Cloud nodes the scan for an ["NIO"] destination ends at
    the first one.  The stub port "nio_gen_eth:eth1" belongs to the second
    cloud (node 2, port 2); the link of switch port 2 that names it is
    finalized with null destination ids. *)
Theorem nio_destination_in_second_cloud :
  exists nodes self,
    generate_nodes sample_catalog int_of_digits two_clouds [] init_conv
    = Ok (nodes, self) /\
    (exists n,
        nth_error nodes 1 = Some n /\ n_id n = 2%Z /\
        n_type n = VStr "Cloud" /\
        n_ports n =
          Some [mk_port "nio_gen_eth:eth1" 2 None None true None None None]) /\
    nth_error (links self) 1 = Some (mk_symlink 3 4 "NIO" "nio_gen_eth:eth1") /\
    convert_destination_to_id "NIO" "nio_gen_eth:eth1" nodes
    = Ok (None, None) /\
    exists ls nodes',
      generate_links sample_catalog nodes self = Ok (ls, nodes') /\
      ls = [mk_link (Some 1%Z) (Some 1%Z) 3 3 (Some 1%Z);
            mk_link None None 4 3 (Some 2%Z)].
Proof.
  eexists; eexists. split; [vm_compute; reflexivity|].
  split; [eexists; repeat split|].
  split; [reflexivity|]. split; [reflexivity|].
  eexists; eexists. split; [vm_compute; reflexivity | reflexivity].
Qed.

(** ** The converter monad *)

Lemma mbind_ok A B (m : M A) (k : A -> M B) s r :
  mbind m k s = Ok r ->
  exists a s1, m s = Ok (a, s1) /\ k a s1 = Ok r.
Proof.
  unfold mbind. destruct (m s) as [[a s1]|]; [eauto | discriminate].
Qed.

Lemma lift_ok A (c : result A) s a s' :
  lift c s = Ok (a, s') -> c = Ok a /\ s' = s.
Proof.
  unfold lift. destruct c; [intros [= -> ->]; auto | discriminate].
Qed.

Lemma ret_ok A (a b : A) s s' : ret a s = Ok (b, s') -> b = a /\ s' = s.
Proof. unfold ret. intros [= -> ->]; auto. Qed.

Lemma bind_ok A B (c : result A) (k : A -> result B) r :
  Py.bind c k = Ok r -> exists a, c = Ok a /\ k a = Ok r.
Proof. destruct c; cbn; [eauto | discriminate]. Qed.

(** Steps through a successful run of monadic code in hypothesis [H]. *)
Ltac run_ok H :=
  repeat
    (let a := fresh "a" in
     let s := fresh "s" in
     let E := fresh "E" in
     first
       [ apply mbind_ok in H as (a & s & E & H)
       | apply bind_ok in H as (a & E & H) ]);
  try (apply ret_ok in H as [? ?]).

Lemma for_each_app A S (xs ys : list A) (body : A -> S -> M S) acc s :
  for_each (xs ++ ys) body acc s =
  match for_each xs body acc s with
  | Ok (acc', s') => for_each ys body acc' s'
  | Raise e => Raise e
  end.
Proof.
  revert acc s; induction xs as [|x xs IH]; intros acc s; cbn; [reflexivity|].
  unfold mbind. destruct (body x acc s) as [[a s1]|]; [apply IH | reflexivity].
Qed.

(** An invariant of the loop body is an invariant of the loop. *)
Lemma for_each_invariant A S (I : S -> conv -> Prop)
      (xs : list A) (body : A -> S -> M S) :
  (forall x acc s acc' s',
      In x xs -> I acc s -> body x acc s = Ok (acc', s') -> I acc' s') ->
  forall acc s acc' s',
    I acc s -> for_each xs body acc s = Ok (acc', s') -> I acc' s'.
Proof.
  induction xs as [|x xs IH]; intros Hbody acc s acc' s' HI H; cbn in H.
  - apply ret_ok in H as [-> ->]. exact HI.
  - apply mbind_ok in H as (a & s1 & E & H).
    eapply IH; [| |exact H].
    + intros; eapply Hbody; eauto. now right.
    + eapply Hbody; eauto. now left.
Qed.

(** ** Dictionaries *)

Lemma get_set V k k' (v : V) d :
  get k (Py.set k' v d) = if String.eqb k k' then Some v else get k d.
Proof.
  induction d as [|[k0 v0] d IH]; cbn.
  - reflexivity.
  - destruct (String.eqb k' k0) eqn:E0; cbn.
    + apply String.eqb_eq in E0 as ->.
      destruct (String.eqb k k0); reflexivity.
    + destruct (String.eqb k k0) eqn:E1.
      * apply String.eqb_eq in E1 as ->.
        rewrite String.eqb_sym, E0. reflexivity.
      * exact IH.
Qed.

Lemma In_keys_set V k k' (v : V) d :
  In k (keys (Py.set k' v d)) <-> k = k' \/ In k (keys d).
Proof.
  unfold keys. induction d as [|[k0 v0] d IH]; cbn.
  - intuition.
  - destruct (String.eqb k' k0) eqn:E0; cbn.
    + apply String.eqb_eq in E0 as ->. intuition.
    + rewrite IH. intuition.
Qed.

Lemma In_keys_get V k (d : dict V) :
  In k (keys d) <-> exists v, get k d = Some v.
Proof.
  unfold keys. induction d as [|[k0 v0] d IH]; cbn.
  - split; [tauto | intros [? [=]]].
  - destruct (String.eqb k k0) eqn:E.
    + apply String.eqb_eq in E as ->. split; eauto.
    + apply String.eqb_neq in E. rewrite <- IH. intuition congruence.
Qed.

Lemma is_str_eq v s : is_str v s = true <-> v = VStr s.
Proof.
  unfold is_str. destruct v; cbn; try (split; [discriminate | intros [=]]).
  rewrite String.eqb_eq. split; [now intros -> | now intros [= ->]].
Qed.

(** ** The item loop of [generate_nodes] *)

Section ItemLoop.

Variable cat : catalog.
Variable py_int : string -> option Z.
Variable hvs : hypervisors.
Variable dev : dict pyval.
Variable node_id : Z.
Variable type model : pyval.

Let step := item_step py_int hvs dev node_id type model.

(** Opens the chain of tests of [item_step] in hypothesis [H]. *)
Ltac item_cases H :=
  unfold step, item_step in H;
  apply mbind_ok in H as (?value & ?s0 & ?Evalue & H);
  apply lift_ok in Evalue as [Evalue ->];
  repeat match type of H with
         | (if ?c then _ else _) _ = Ok _ => destruct c eqn:?
         end.

(** Only the [hv_id] round writes the NPE and the chassis. *)
Lemma item_step_hv_frame item t s t' s' :
  step item t s = Ok (t', s') ->
  String.eqb item "hv_id" && is_str type "Router" = false ->
  nt_npe t' = nt_npe t /\ nt_chassis t' = nt_chassis t.
Proof.
  intros H Hno. item_cases H; try congruence;
    try (apply ret_ok in H as [-> _]; now cbn).
  run_ok H. destruct a as [port_def destination]. run_ok H. subst. now cbn.
Qed.

Lemma item_step_hv item t s t' s' :
  step item t s = Ok (t', s') ->
  String.eqb item "hv_id" && is_str type "Router" = true ->
  exists value,
    get "hv_id" dev = Some value /\ item_hv_id hvs value t = Ok t' /\ s' = s.
Proof.
  intros H Hyes.
  apply andb_true_iff in Hyes as [Hitem Htype].
  apply String.eqb_eq in Hitem as ->.
  unfold step, item_step in H.
  apply mbind_ok in H as (value & s0 & Evalue & H).
  apply lift_ok in Evalue as [Evalue ->].
  rewrite Htype in H. cbn [String.eqb Ascii.eqb Bool.eqb andb] in H.
  apply lift_ok in H as [H ->].
  exists value. unfold getitem in Evalue.
  destruct (get "hv_id" dev); [|discriminate]. injection Evalue as ->. auto.
Qed.

Lemma item_hv_id_slots value t t' :
  item_hv_id hvs value t = Ok t' ->
  forall k, startswith "slot" k = true ->
            get k (nt_props t') = get k (nt_props t).
Proof.
  unfold item_hv_id, copy_if_present. intros H k Hk. run_ok H.
  injection H as <-. cbn [nt_props].
  assert (N : forall key, startswith "slot" key = false ->
                          String.eqb k key = false).
  { intros key Hkey. apply String.eqb_neq. intros ->. congruence. }
  destruct (get "ram" a), (get "idlepc" a);
    repeat rewrite get_set; repeat rewrite N by reflexivity; reflexivity.
Qed.

(** The slot entries of the property bag after one round. *)
Lemma item_step_slots item t s t' s' k :
  step item t s = Ok (t', s') ->
  startswith "slot" k = true ->
  get k (nt_props t') = get k (nt_props t) \/
  (k = item /\ get k (nt_props t') = get k dev).
Proof.
  intros H Hk.
  assert (N : forall key, startswith "slot" key = false ->
                          String.eqb k key = false).
  { intros key Hkey. apply String.eqb_neq. intros ->. congruence. }
  item_cases H;
    try (apply ret_ok in H as [-> _]; cbn [nt_props with_props];
         rewrite ?get_set, ?N by reflexivity; now left).
  - apply lift_ok in H as [H _]. left. eapply item_hv_id_slots; eauto.
  - apply ret_ok in H as [-> _]. cbn [nt_props with_props]. rewrite get_set.
    destruct (String.eqb k item) eqn:E; [|now left].
    apply String.eqb_eq in E as ->. right. split; [reflexivity|].
    unfold getitem in Evalue. now destruct (get item dev); inversion Evalue.
  - apply ret_ok in H as [-> _]. cbn [nt_props with_props]. rewrite get_set.
    destruct (String.eqb k item) eqn:E; [|now left].
    apply String.eqb_eq in E as ->. right. split; [reflexivity|].
    unfold getitem in Evalue. now destruct (get item dev); inversion Evalue.
  - run_ok H. destruct a as [port_def destination]. run_ok H. subst.
    now left.
Qed.

End ItemLoop.

(** ** Port computation *)

Section SlotPorts.

Variable cat : catalog.




End SlotPorts.

Section ItemLoopHypervisor.

Variable py_int : string -> option Z.
Variable hvs : hypervisors.
Variable dev : dict pyval.
Variable node_id : Z.
Variable type model : pyval.

Let step := item_step py_int hvs dev node_id type model.

Lemma item_hv_id_ok value t t' :
  item_hv_id hvs value t = Ok t' ->
  exists h hv,
    value = VInt h /\ get_hv h hvs = Some hv /\
    nt_npe t' =
      match get "npe" hv with Some v => Some v | None => nt_npe t end /\
    nt_chassis t' =
      match get "chassis" hv with Some v => v | None => nt_chassis t end.
Proof.
  unfold item_hv_id. intros H.
  apply bind_ok in H as (hv & E & H).
  apply bind_ok in H as (image & _ & H).
  apply bind_ok in H as (image_text & _ & H).
  destruct value as [h| |]; try discriminate. cbn in E.
  destruct (get_hv h hvs) as [hv'|] eqn:Eh; [|discriminate].
  injection E as ->. injection H as <-. exists h, hv. now cbn.
Qed.

(** After the item loop of a router, the NPE and the chassis are those of
    its hypervisor configuration. *)
Lemma item_loop_hypervisor t0 s t s' :
  is_str type "Router" = true ->
  nt_npe t0 = None ->
  nt_chassis t0 = VStr "" ->
  for_each (sorted (keys dev)) step t0 s = Ok (t, s') ->
  nt_npe t = device_npe hvs dev /\ nt_chassis t = device_chassis hvs dev.
Proof.
  intros Hrouter Hnpe Hch Hloop.
  set (weak := fun (t : node_temp) (_ : conv) =>
                 (nt_npe t = None \/ nt_npe t = device_npe hvs dev) /\
                 (nt_chassis t = VStr "" \/
                  nt_chassis t = device_chassis hvs dev)).
  set (strong := fun (t : node_temp) (_ : conv) =>
                   nt_npe t = device_npe hvs dev /\
                   nt_chassis t = device_chassis hvs dev).
  assert (Hstep : forall x a s1 a' s1',
             step x a s1 = Ok (a', s1') ->
             (weak a s1 -> weak a' s1') /\
             (strong a s1 -> strong a' s1') /\
             (x = "hv_id" -> weak a s1 -> strong a' s1')).
  { intros x a s1 a' s1' Hx.
    destruct (String.eqb x "hv_id" && is_str type "Router") eqn:Ehv.
    - destruct (item_step_hv _ _ _ _ _ _ _ _ _ _ _ Hx Ehv)
        as (value & Hv & Hi & _).
      destruct (item_hv_id_ok _ _ _ Hi) as (h & hv & -> & Hhv & N & C).
      assert (S1 : weak a s1 -> strong a' s1').
      { unfold weak, strong, device_npe, device_chassis.
        rewrite Hv, Hhv, N, C. intros [[W1|W1] [W2|W2]];
          rewrite W1, W2; unfold device_npe, device_chassis;
          rewrite ?Hv, ?Hhv;
          destruct (get "npe" hv), (get "chassis" hv); auto. }
      assert (S2 : strong a s1 -> weak a s1).
      { unfold weak, strong. intuition. }
      assert (S3 : strong a' s1' -> weak a' s1').
      { unfold weak, strong. intuition. }
      auto.
    - destruct (item_step_hv_frame _ _ _ _ _ _ _ _ _ _ _ Hx Ehv) as [N C].
      unfold weak, strong. rewrite N, C. repeat split; try tauto;
        subst x; rewrite Hrouter in Ehv; discriminate. }
  assert (Hweak : forall xs x a s1 a' s1',
             In x xs -> weak a s1 -> step x a s1 = Ok (a', s1') -> weak a' s1').
  { intros xs x a s1 a' s1' _ HI Hb. exact (proj1 (Hstep _ _ _ _ _ Hb) HI). }
  assert (Hstrong : forall xs x a s1 a' s1',
             In x xs -> strong a s1 -> step x a s1 = Ok (a', s1') ->
             strong a' s1').
  { intros xs x a s1 a' s1' _ HI Hb.
    exact (proj1 (proj2 (Hstep _ _ _ _ _ Hb)) HI). }
  destruct (in_dec String.string_dec "hv_id" (sorted (keys dev))) as [Hin|Hout].
  - apply in_split in Hin as (pre & post & Hsplit).
    rewrite Hsplit, for_each_app in Hloop.
    destruct (for_each pre step t0 s) as [[t1 s1]|] eqn:Epre; [|discriminate].
    cbn [for_each] in Hloop.
    apply mbind_ok in Hloop as (t2 & s2 & Ehv & Hpost).
    assert (W1 : weak t1 s1).
    { eapply (@for_each_invariant _ _ weak pre step (Hweak pre));
        [|exact Epre].
      unfold weak. auto. }
    assert (S2 : strong t2 s2).
    { exact (proj2 (proj2 (Hstep _ _ _ _ _ Ehv)) eq_refl W1). }
    exact (@for_each_invariant _ _ strong post step (Hstrong post) _ _ _ _
             S2 Hpost).
  - assert (Hnone : get "hv_id" dev = None).
    { destruct (get "hv_id" dev) eqn:E; [|reflexivity].
      exfalso. apply Hout. apply In_sorted, In_keys_get. eauto. }
    assert (S0 : strong t0 s).
    { unfold strong, device_npe, device_chassis. rewrite Hnone. auto. }
    exact (@for_each_invariant _ _ strong _ step (Hstrong _) _ _ _ _ S0 Hloop).
Qed.

End ItemLoopHypervisor.

(** ** Router nodes *)

Section RouterNodes.

Variable cat : catalog.
Variable py_int : string -> option Z.
Variable hvs : hypervisors.

(** What a successful [generate_node] did for a router: the item loop,
    then the port computation on its outcome. *)
Lemma generate_node_router device dev s n s' :
  get "type" dev = Some (VStr "Router") ->
  generate_node cat py_int hvs device dev s = Ok (n, s') ->
  exists t s1 ports props s2,
    nt_npe t = device_npe hvs dev /\
    nt_chassis t = device_chassis hvs dev /\
    (forall k, startswith "slot" k = true ->
               get k (nt_props t) = None \/ get k (nt_props t) = get k dev) /\
    router_ports cat
      (match get "model" dev with Some m => m | None => VStr "" end) t s1
    = Ok ((ports, props), s2) /\
    n_ports n = Some ports /\
    n_properties n = props.
Proof.
  intros Htype H. unfold generate_node in H.
  apply mbind_ok in H as (nid & s0 & E & H). apply lift_ok in E as [_ ->].
  apply mbind_ok in H as (node_id & s0 & E & H). apply lift_ok in E as [_ ->].
  apply mbind_ok in H as (x & s0 & E & H). apply lift_ok in E as [_ ->].
  apply mbind_ok in H as (y & s0 & E & H). apply lift_ok in E as [_ ->].
  apply mbind_ok in H as (type & s0 & E & H). apply lift_ok in E as [E ->].
  unfold getitem in E. rewrite Htype in E. injection E as <-.
  cbv zeta in H.
  apply mbind_ok in H as (t & s1 & Eloop & H).
  change (is_str (VStr "Router") "Router") with true in H. cbv iota in H.
  apply mbind_ok in H as (model_text & s0 & E & H).
  apply lift_ok in E as [_ ->].
  apply mbind_ok in H as ([ports props] & s2 & Eports & H).
  apply mbind_ok in H as (u & s3 & _ & H).
  apply ret_ok in H as [-> _].
  assert (NC : nt_npe t = device_npe hvs dev /\
               nt_chassis t = device_chassis hvs dev).
  { eapply item_loop_hypervisor; [| | |exact Eloop]; reflexivity. }
  destruct NC as [N C].
  exists t, s1, ports, props, s2. repeat split; auto.
  intros k Hk.
  refine (@for_each_invariant _ _
            (fun (t : node_temp) (_ : conv) =>
               get k (nt_props t) = None \/ get k (nt_props t) = get k dev)
            _ _ _ _ _ _ _ _ Eloop).
  - intros item a s4 a' s4' _ HI Hstep.
    destruct (item_step_slots _ _ _ _ _ _ _ _ _ _ _ k Hstep Hk) as [->|[_ ->]];
      auto.
  - left. cbn. destruct k as [|c k]; [discriminate|].
    destruct (String.eqb (String c k) "name") eqn:E; [|reflexivity].
    apply String.eqb_eq in E. rewrite E in Hk. discriminate.
Qed.

End RouterNodes.

(** ** C2: the default card of a 7200 *)


Section DefaultCard.

Variable cat : catalog.
Variable py_int : string -> option Z.
Variable hvs : hypervisors.




End DefaultCard.





(** The two cases on the sample catalog: with "npe-g2" the router has the
    port "GigabitEthernet0/0" and no "FastEthernet0/0"; without it the
    other way round. *)
Example c7200_npe_g2_ports :
  exists n s',
    generate_node sample_catalog int_of_digits hv_c7200_npe_g2 "R1"
                  router_7200 init_conv = Ok (n, s') /\
    n_ports n = Some [slot_port "FastEthernet" "1" (VStr "1") 1 0;
                      plain_port "GigabitEthernet0/0" 2 0 (VInt 0)].
Proof. eexists. eexists. split; vm_compute; reflexivity. Qed.

Example c7200_other_npe_ports :
  exists n s',
    generate_node sample_catalog int_of_digits hv_c7200 "R1"
                  router_7200 init_conv = Ok (n, s') /\
    n_ports n = Some [slot_port "FastEthernet" "1" (VStr "1") 1 0;
                      plain_port "FastEthernet0/0" 2 0 (VInt 0);
                      plain_port "FastEthernet0/1" 3 1 (VInt 0)].
Proof. eexists. eexists. split; vm_compute; reflexivity. Qed.

(** ** C6: the slot-0 property of a 3660 *)

(** C6, as stated, fails on a 3660 without slot keys: its ports are the two
    motherboard ports only.  With "Leopard-2FE" seeded as slot 0 ahead of
    the slot loop, the loop would add the card's two ports (ids 3 and 4);
    they are not in the node's port list. *)
Lemma c3660_slot0_not_seeded :
  exists n s',
    generate_node sample_catalog int_of_digits hv_c3660 "R1" router_3660
                  init_conv = Ok (n, s') /\
    get "slot0" (n_properties n) = Some (VStr "Leopard-2FE") /\
    n_ports n = Some [plain_port "FastEthernet0/0" 1 0 (VInt 0);
                      plain_port "FastEthernet0/1" 2 1 (VInt 0)] /\
    router_ports sample_catalog (VStr "c3600") node_temp_3660 init_conv
    = Ok ([plain_port "FastEthernet0/0" 1 0 (VInt 0);
           plain_port "FastEthernet0/1" 2 1 (VInt 0)],
          n_properties n, s') /\
    (exists props s'',
        spec_router_ports sample_catalog (VStr "c3600") node_temp_3660
                          init_conv
        = Ok ([plain_port "FastEthernet0/0" 1 0 (VInt 0);
               plain_port "FastEthernet0/1" 2 1 (VInt 0);
               slot_port "FastEthernet" "0" (VStr "0") 3 0;
               slot_port "FastEthernet" "0" (VStr "0") 3 1],
              props, s'')) /\
    ~ (forall p ports,
          n_ports n = Some ports ->
          In p [slot_port "FastEthernet" "0" (VStr "0") 3 0;
                slot_port "FastEthernet" "0" (VStr "0") 3 1] ->
          In p ports).
Proof.
  eexists. eexists. split; [vm_compute; reflexivity|].
  split; [reflexivity|]. split; [reflexivity|].
  split; [vm_compute; reflexivity|].
  split; [eexists; eexists; vm_compute; reflexivity|].
  intros H.
  specialize (H (slot_port "FastEthernet" "0" (VStr "0") 3 0) _ eq_refl
                (or_introl eq_refl)).
  cbn in H. intuition discriminate.
Qed.

(** C6, amended: for a router of model "c3600" with chassis "3660" and no
    slot0 of its own, the property "slot0" = "Leopard-2FE" is put into the
    property bag after the slot loop.  The port list is the motherboard
    ports of the model table for ("c3600", "3660") followed by what the
    slot loop computes on a property bag without slot0. *)
Theorem c3660_slot0_after_slot_loop cat py_int hvs device dev s n s' :
  get "type" dev = Some (VStr "Router") ->
  get "model" dev = Some (VStr "c3600") ->
  device_chassis hvs dev = VStr "3660" ->
  get "slot0" dev = None ->
  generate_node cat py_int hvs device dev s = Ok (n, s') ->
  exists props mb ports s1 s2 s3,
    get "slot0" props = None /\
    calc_mb_ports cat (VStr "c3600") (VStr "3660") s1 = Ok (mb, s2) /\
    for_each (sorted (keys props)) (slot_step cat props) mb s2
    = Ok (ports, s3) /\
    n_ports n = Some ports /\
    n_properties n =
      Py.set "slot0" (VStr "Leopard-2FE")
             (Py.set "chassis" (VStr "3660") props) /\
    get "slot0" (n_properties n) = Some (VStr "Leopard-2FE").
Proof.
  intros Htype Hmodel Hchassis Hslot0 H.
  destruct (generate_node_router _ _ _ _ _ _ _ _ Htype H)
    as (t & s1 & ports & props & s2 & _ & C & Hslots & Eports & Hp & Hprops).
  rewrite Hmodel in Eports. unfold router_ports in Eports.
  rewrite C, Hchassis in Eports.
  apply mbind_ok in Eports as (mb & s3 & Emb & Eports).
  apply mbind_ok in Eports as (ports1 & s4 & Eslots & Edef).
  unfold default_ports in Edef.
  change (is_str (VStr "c3600") "c7200") with false in Edef.
  change (is_str (VStr "c3600") "c3600") with true in Edef.
  change (is_str (VStr "3660") "3660") with true in Edef.
  cbn [andb] in Edef. apply ret_ok in Edef as [[= -> ->] ->].
  exists (nt_props t), mb, ports1, s1, s3, s4.
  assert (Hno : get "slot0" (nt_props t) = None).
  { destruct (Hslots "slot0" eq_refl) as [E|E]; [exact E | congruence]. }
  repeat split; auto.
  rewrite Hprops, get_set. reflexivity.
Qed.

Lemma c3660_slot0_after_slot_loop_witness :
  exists n s',
    generate_node sample_catalog int_of_digits hv_c3660 "R1" router_3660
                  init_conv = Ok (n, s') /\
    exists props mb ports s1 s2 s3,
      get "slot0" props = None /\
      calc_mb_ports sample_catalog (VStr "c3600") (VStr "3660") s1
      = Ok (mb, s2) /\
      for_each (sorted (keys props)) (slot_step sample_catalog props) mb s2
      = Ok (ports, s3) /\
      n_ports n = Some ports /\
      n_properties n =
        Py.set "slot0" (VStr "Leopard-2FE")
               (Py.set "chassis" (VStr "3660") props) /\
      get "slot0" (n_properties n) = Some (VStr "Leopard-2FE").
Proof.
  eexists. eexists. split.
  - vm_compute. reflexivity.
  - eapply (c3660_slot0_after_slot_loop sample_catalog int_of_digits hv_c3660
              "R1" router_3660 init_conv).
    + reflexivity.
    + reflexivity.
    + reflexivity.
    + reflexivity.
    + vm_compute. reflexivity.
Defined.

(** ** The texts compared by the duplicate removal *)

Lemma to_int_proper z : Z.to_int z <> Decimal.Pos Decimal.Nil /\
                        Z.to_int z <> Decimal.Neg Decimal.Nil.
Proof.
  destruct z as [|p|p]; cbn; split; try discriminate;
    intros [= E]; now apply DecimalPos.Unsigned.to_uint_nonnil in E.
Qed.

Lemma str_int_parses z :
  NilZero.int_of_string (str_int z) = Some (Z.to_int z).
Proof.
  unfold str_int. destruct (to_int_proper z). now apply NilZero.isi.
Qed.

Lemma str_int_inj a b : str_int a = str_int b -> a = b.
Proof.
  intros E.
  assert (H : Some (Z.to_int a) = Some (Z.to_int b)).
  { now rewrite <- !str_int_parses, E. }
  injection H as H.
  now rewrite <- (DecimalZ.of_to a), <- (DecimalZ.of_to b), H.
Qed.

Lemma str_int_not_None z : str_int z <> "None".
Proof.
  intros E. pose proof (str_int_parses z) as H. rewrite E in H. discriminate.
Qed.

Lemma uint_no_colon d : contains ":" (NilEmpty.string_of_uint d) = false.
Proof.
  unfold contains.
  induction d; cbn; try reflexivity;
    destruct (Py.index ":" (NilEmpty.string_of_uint d)); (discriminate || reflexivity).
Qed.

Lemma str_int_no_colon z : contains ":" (str_int z) = false.
Proof.
  unfold str_int.
  assert (U : forall d, contains ":" (NilZero.string_of_uint d) = false).
  { intros d. destruct d; try apply (uint_no_colon (_ d)); reflexivity. }
  destruct (Z.to_int z) as [d|d]; cbn [NilZero.string_of_int].
  - apply U.
  - specialize (U d). unfold contains in *. cbn.
    destruct (Py.index ":" (NilZero.string_of_uint d)); (discriminate || reflexivity).
Qed.

Lemma str_opt_no_colon o : contains ":" (str_opt o) = false.
Proof. destruct o; [apply str_int_no_colon | reflexivity]. Qed.

Lemma str_opt_inj z o : str_int z = str_opt o -> o = Some z.
Proof.
  destruct o as [y|]; cbn.
  - intros E. now rewrite (str_int_inj _ _ E).
  - intros E. now apply str_int_not_None in E.
Qed.

Lemma append_colon_inj a b c d :
  contains ":" a = false -> contains ":" c = false ->
  (a ++ ":" ++ b = c ++ ":" ++ d)%string -> a = c /\ b = d.
Proof.
  intros Ha Hc E.
  destruct (index_append ":" a b Ha) as [I1 S1].
  destruct (index_append ":" c d Hc) as [I2 S2].
  cbn [String.append] in E. rewrite E in I1, S1.
  rewrite I2 in I1. injection I1 as I1. rewrite <- I1, S2 in S1. subst c.
  split; [reflexivity|].
  clear - E. induction a as [|x a IH]; cbn in E.
  - now injection E.
  - injection E as E. auto.
Qed.

(** The source text of [l] equals the destination text of [l2] exactly
    when [l2] is resolved to the source node and port of [l]. *)
Lemma t_link_eq_d_link l l2 :
  String.eqb (t_link l) (d_link l2) = true <->
  destination_node_id l2 = Some (lk_source_node_id l) /\
  destination_port_id l2 = Some (lk_source_port_id l).
Proof.
  rewrite String.eqb_eq. unfold t_link, d_link. split.
  - intros E. apply append_colon_inj in E as [E1 E2].
    + split; now apply str_opt_inj.
    + apply str_int_no_colon.
    + apply str_opt_no_colon.
  - intros [-> ->]. reflexivity.
Qed.

(** ** Lists edited in place *)

Lemma nth_error_remove_at_le A (l : list A) r j :
  (r <= j)%nat -> nth_error (remove_at r l) j = nth_error l (S j).
Proof.
  revert r j; induction l as [|x l IH]; intros r j H.
  - destruct r, j; reflexivity.
  - destruct r as [|r]; [reflexivity|].
    destruct j as [|j]; [lia|]. cbn. apply IH. lia.
Qed.

Lemma nth_error_remove_at_lt A (l : list A) r i :
  (r < i)%nat -> nth_error (remove_at r l) (i - 1) = nth_error l i.
Proof.
  intros H. destruct i as [|i]; [lia|].
  cbn [Nat.sub]. rewrite Nat.sub_0_r. apply nth_error_remove_at_le. lia.
Qed.

Lemma nth_error_remove_at_gt A (l : list A) r i :
  (i < r)%nat -> nth_error (remove_at r l) i = nth_error l i.
Proof.
  revert r i; induction l as [|x l IH]; intros r i H.
  - destruct r, i; reflexivity.
  - destruct r as [|r]; [lia|]. destruct i as [|i]; cbn; [reflexivity|].
    apply IH. lia.
Qed.

Lemma In_remove_at A (l : list A) r x :
  In x (remove_at r l) -> In x l.
Proof.
  revert r; induction l as [|y l IH]; intros r; [now destruct r|].
  destruct r as [|r]; cbn; [auto|]. intros [->|H]; eauto.
Qed.

Lemma In_remove_at_other A (l : list A) r e x :
  nth_error l r = Some e -> In x l -> x <> e -> In x (remove_at r l).
Proof.
  revert r; induction l as [|y l IH]; intros r Hr Hin Hne; [now destruct r|].
  destruct r as [|r]; cbn in *.
  - injection Hr as ->. destruct Hin; congruence.
  - destruct Hin as [->|Hin]; eauto.
Qed.

Lemma length_remove_at A (l : list A) r :
  (List.length (remove_at r l) <= List.length l)%nat.
Proof.
  revert r; induction l as [|y l IH]; intros r; [now destruct r|].
  destruct r as [|r]; cbn; [lia|]. specialize (IH r). lia.
Qed.

Lemma length_set_at A (l : list A) p y :
  List.length (set_at p y l) = List.length l.
Proof.
  revert p; induction l as [|x l IH]; intros p; [now destruct p|].
  destruct p; cbn; auto.
Qed.

Lemma In_set_at A (l : list A) p y x :
  In x (set_at p y l) -> x = y \/ In x l.
Proof.
  revert p; induction l as [|z l IH]; intros p; [now destruct p|].
  destruct p as [|p]; cbn.
  - intros [<-|H]; auto.
  - intros [<-|H]; auto. destruct (IH _ H); auto.
Qed.

(** Writing over position [p] keeps every other element and puts [y]
    where [x0] was. *)
Lemma In_set_at_keep A (l : list A) p x0 y x :
  nth_error l p = Some x0 -> In x l -> x = x0 \/ In x (set_at p y l).
Proof.
  revert p; induction l as [|z l IH]; intros p Hp Hin; [now destruct p|].
  destruct p as [|p]; cbn in *.
  - injection Hp as ->. destruct Hin; auto.
  - destruct Hin as [->|Hin]; auto. destruct (IH _ Hp Hin); auto.
Qed.

Lemma In_set_at_new A (l : list A) p x0 y :
  nth_error l p = Some x0 -> In y (set_at p y l).
Proof.
  revert p; induction l as [|z l IH]; intros p Hp; [now destruct p|].
  destruct p as [|p]; cbn in *; eauto.
Qed.

Lemma find_index_Some A (f : A -> bool) l r :
  find_index f l = Some r ->
  exists e, nth_error l r = Some e /\ f e = true.
Proof.
  revert r; induction l as [|x l IH]; intros r; cbn; [discriminate|].
  destruct (f x) eqn:E.
  - intros [= <-]. exists x. auto.
  - destruct (find_index f l) as [k|]; cbn; [|discriminate].
    intros [= <-]. apply IH. reflexivity.
Qed.

Lemma find_index_None A (f : A -> bool) l x :
  find_index f l = None -> In x l -> f x = false.
Proof.
  induction l as [|y l IH]; cbn; [tauto|].
  destruct (f y) eqn:E; [discriminate|].
  destruct (find_index f l); [discriminate|].
  intros _ [<-|H]; auto.
Qed.

(** Before the first hit there is none. *)
Lemma find_index_first A (f : A -> bool) l r k x :
  find_index f l = Some r -> (k < r)%nat -> nth_error l k = Some x ->
  f x = false.
Proof.
  revert r k; induction l as [|y l IH]; intros r k; cbn; [discriminate|].
  destruct (f y) eqn:E.
  - intros [= <-]. lia.
  - destruct (find_index f l) as [j|] eqn:Ej; cbn; [|discriminate].
    intros [= <-] Hk. destruct k as [|k]; cbn.
    + now intros [= <-].
    + apply (IH j); [reflexivity | lia].
Qed.

Lemma option_Z_eqb_eq a b : option_Z_eqb a b = true <-> a = b.
Proof.
  destruct a, b; cbn; try (split; congruence).
  rewrite Z.eqb_eq. split; congruence.
Qed.

Lemma link_eqb_eq a b : link_eqb a b = true <-> a = b.
Proof.
  unfold link_eqb. rewrite !andb_true_iff, !option_Z_eqb_eq, !Z.eqb_eq.
  destruct a, b; cbn. split; [intuition congruence | intros [= -> -> -> -> ->]; auto].
Qed.

(** [links.remove(link2)] takes out the element the inner loop stopped
    at: an earlier element equal to it would have stopped the loop. *)
Lemma remove_mirror_first t ls :
  remove_mirror t ls =
  match find_index (mirrors t) ls with
  | Some r => (remove_at r ls, Some r)
  | None => (ls, None)
  end.
Proof.
  unfold remove_mirror. fold (mirrors t).
  assert (H : forall link2,
             find (mirrors t) ls = Some link2 ->
             find_index (link_eqb link2) ls = find_index (mirrors t) ls).
  { induction ls as [|x ls IH]; intros link2; cbn; [discriminate|].
    destruct (mirrors t x) eqn:E.
    - intros [= <-]. now rewrite (proj2 (link_eqb_eq x x) eq_refl).
    - intros Hf. destruct (link_eqb link2 x) eqn:Ex.
      + apply link_eqb_eq in Ex as ->. apply find_some in Hf as [_ Hf].
        congruence.
      + now rewrite (IH _ Hf). }
  destruct (find (mirrors t) ls) as [link2|] eqn:Ef.
  - now rewrite (H _ eq_refl).
  - destruct (find_index (mirrors t) ls) as [r|] eqn:Er; [|reflexivity].
    apply find_index_Some in Er as (e & He & Hm).
    apply nth_error_In in He.
    now rewrite (find_none _ _ Ef _ He) in Hm.
Qed.

(** ** One round of the duplicate removal *)

Lemma dedup_step_cases i id l ls :
  dedup_step i id l ls =
  match find_index (mirrors (t_link l)) ls with
  | None => set_at i (set_id l id) ls
  | Some r =>
      if (r <? i)%nat then set_at (i - 1) (set_id l id) (remove_at r ls)
      else if (r =? i)%nat then remove_at r ls
      else set_at i (set_id l id) (remove_at r ls)
  end.
Proof.
  unfold dedup_step. rewrite remove_mirror_first.
  destruct (find_index (mirrors (t_link l)) ls) as [r|]; [|reflexivity].
  destruct (r <? i)%nat; [reflexivity|]. now destruct (r =? i)%nat.
Qed.

Lemma ends_set_id l id : ends (set_id l id) = ends l.
Proof. reflexivity. Qed.

(** Every Link after a round has the ends of a Link before it. *)
Lemma dedup_step_origin i id l ls x :
  nth_error ls i = Some l ->
  In x (dedup_step i id l ls) ->
  exists y, In y ls /\ ends x = ends y.
Proof.
  intros Hl. apply nth_error_In in Hl. rewrite dedup_step_cases.
  assert (S : forall p l1, (forall z, In z l1 -> In z ls) ->
                           In x (set_at p (set_id l id) l1) ->
                           exists y, In y ls /\ ends x = ends y).
  { intros p l1 Hsub H. apply In_set_at in H as [->|H]; eauto. }
  destruct (find_index (mirrors (t_link l)) ls) as [r|].
  - destruct (r <? i)%nat; [|destruct (r =? i)%nat].
    + apply S. intros z. apply In_remove_at.
    + intros H. apply In_remove_at in H. eauto.
    + apply S. intros z. apply In_remove_at.
  - apply S. auto.
Qed.

(** A Link whose destination port id is null is not taken out. *)
Lemma dedup_step_keeps_null i id l ls x :
  nth_error ls i = Some l ->
  In x ls -> destination_port_id x = None ->
  exists x', In x' (dedup_step i id l ls) /\ ends x' = ends x.
Proof.
  intros Hl Hx Hnull. rewrite dedup_step_cases.
  assert (S : forall p l1, nth_error l1 p = Some l -> In x l1 ->
                           exists x', In x' (set_at p (set_id l id) l1) /\
                                      ends x' = ends x).
  { intros p l1 Hp H.
    destruct (In_set_at_keep _ l1 p l (set_id l id) x Hp H) as [->|H'].
    - exists (set_id l id). split; [eapply In_set_at_new; eauto | reflexivity].
    - eauto. }
  destruct (find_index (mirrors (t_link l)) ls) as [r|] eqn:Er.
  - destruct (find_index_Some _ _ _ _ Er) as (e & He & Hm).
    apply t_link_eq_d_link in Hm as [_ Hm].
    assert (Hin : In x (remove_at r ls)).
    { eapply In_remove_at_other; eauto. intros ->. congruence. }
    destruct (r <? i)%nat eqn:E1; [|destruct (r =? i)%nat eqn:E2].
    + apply Nat.ltb_lt in E1. apply S; auto.
      now rewrite nth_error_remove_at_lt.
    + eauto.
    + apply Nat.ltb_ge in E1. apply Nat.eqb_neq in E2. apply S; auto.
      rewrite nth_error_remove_at_gt; [auto | lia].
  - apply S; auto.
Qed.

(** ** Back-references *)

Lemma mark_port_frame pid id ports :
  map without_link_id (mark_port pid id ports) = map without_link_id ports.
Proof.
  induction ports as [|p ports IH]; cbn; [reflexivity|].
  destruct (Z.eqb (p_id p) pid); cbn; [reflexivity | now rewrite IH].
Qed.

Lemma mark_port_marks pid id ports p :
  port_by_id pid ports = Some p ->
  port_by_id pid (mark_port pid id ports) =
  Some (mk_port (p_name p) (p_id p) (p_port_number p) (p_slot_number p)
                (p_stub p) (p_type p) (p_vlan p) (Some id)).
Proof.
  unfold port_by_id. induction ports as [|q ports IH]; cbn; [discriminate|].
  destruct (Z.eqb (p_id q) pid) eqn:E; cbn.
  - intros [= <-]. now rewrite E.
  - rewrite E. exact IH.
Qed.

Lemma mark_port_absent pid id ports :
  port_by_id pid ports = None -> mark_port pid id ports = ports.
Proof.
  unfold port_by_id. induction ports as [|q ports IH]; cbn; [reflexivity|].
  destruct (Z.eqb (p_id q) pid); [discriminate|].
  intros H. now rewrite IH.
Qed.

(** [add_node_connections] writes link back-references and nothing
    else. *)
Lemma add_node_connections_frame l id nodes nodes' :
  add_node_connections l id nodes = Ok nodes' ->
  map node_without_link_ids nodes' = map node_without_link_ids nodes.
Proof.
  revert nodes'; induction nodes as [|n nodes IH]; intros nodes' H; cbn in H.
  - now injection H as <-.
  - apply bind_ok in H as (n' & En & H).
    apply bind_ok in H as (rest' & Er & H). injection H as <-.
    cbn. rewrite (IH _ Er). f_equal.
    destruct (Z.eqb (n_id n) (lk_source_node_id l)).
    + apply bind_ok in En as (ports & Ep & En). injection En as <-.
      destruct (n_ports n) as [ps|] eqn:E; [|discriminate].
      injection Ep as <-.
      unfold node_without_link_ids, with_ports. cbn. rewrite E. cbn.
      now rewrite mark_port_frame.
    + destruct (match destination_node_id l with
                | Some d => Z.eqb (n_id n) d
                | None => false
                end).
      * apply bind_ok in En as (ports & Ep & En). injection En as <-.
        destruct (n_ports n) as [ps|] eqn:E; [|discriminate].
        injection Ep as <-.
        unfold node_without_link_ids, with_ports. cbn. rewrite E. cbn.
        destruct (destination_port_id l); cbn;
          [now rewrite mark_port_frame | reflexivity].
      * now injection En as <-.
Qed.

Lemma add_node_connections_total l id nodes :
  Forall (fun n => n_ports n <> None) nodes ->
  exists nodes',
    add_node_connections l id nodes = Ok nodes' /\
    Forall (fun n => n_ports n <> None) nodes'.
Proof.
  induction 1 as [|n nodes Hn _ (rest' & IH & Hrest)]; cbn.
  - exists []. auto.
  - rewrite IH. cbn.
    destruct (n_ports n) as [ps|] eqn:E; [|congruence]. cbn.
    destruct (Z.eqb (n_id n) (lk_source_node_id l)); cbn.
    + eexists. split; [reflexivity|]. constructor; [discriminate | auto].
    + destruct (match destination_node_id l with
                | Some d => Z.eqb (n_id n) d
                | None => false
                end); cbn.
      * eexists. split; [reflexivity|]. constructor; [discriminate | auto].
      * eexists. split; [reflexivity|]. constructor; [congruence | auto].
Qed.

(** ** The loop of the duplicate removal *)

Lemma dedup_loop_total fuel i id ls nodes :
  Forall (fun n => n_ports n <> None) nodes ->
  exists fin nodes', dedup_loop fuel i id ls nodes = Ok (fin, nodes').
Proof.
  revert i id ls nodes; induction fuel as [|fuel IH]; intros i id ls nodes H;
    cbn; [eauto|].
  destruct (nth_error ls i) as [l|]; [|eauto].
  destruct (add_node_connections_total (set_id l id) id nodes H)
    as (nodes1 & -> & H1).
  cbn. apply IH. exact H1.
Qed.

Lemma dedup_loop_origin fuel i id ls nodes fin nodes' x :
  dedup_loop fuel i id ls nodes = Ok (fin, nodes') ->
  In x fin -> exists y, In y ls /\ ends x = ends y.
Proof.
  revert i id ls nodes; induction fuel as [|fuel IH]; intros i id ls nodes H Hx;
    cbn in H.
  - injection H as <- <-. eauto.
  - destruct (nth_error ls i) as [l|] eqn:El.
    + apply bind_ok in H as (nodes1 & _ & H).
      destruct (IH _ _ _ _ H Hx) as (y & Hy & E).
      destruct (dedup_step_origin _ _ _ _ _ El Hy) as (z & Hz & E').
      exists z. split; [exact Hz | congruence].
    + injection H as <- <-. eauto.
Qed.

Lemma dedup_loop_keeps_null fuel i id ls nodes fin nodes' x :
  dedup_loop fuel i id ls nodes = Ok (fin, nodes') ->
  In x ls -> destination_port_id x = None ->
  exists x', In x' fin /\ ends x' = ends x.
Proof.
  revert i id ls nodes x; induction fuel as [|fuel IH];
    intros i id ls nodes x H Hx Hnull; cbn in H.
  - injection H as <- <-. eauto.
  - destruct (nth_error ls i) as [l|] eqn:El.
    + apply bind_ok in H as (nodes1 & _ & H).
      destruct (dedup_step_keeps_null _ id _ _ _ El Hx Hnull)
        as (x1 & Hx1 & E1).
      assert (Hnull1 : destination_port_id x1 = None).
      { unfold ends, destination_of in E1. injection E1 as _ _ _ E1.
        congruence. }
      destruct (IH _ _ _ _ _ H Hx1 Hnull1) as (x2 & Hx2 & E2).
      exists x2. split; [exact Hx2 | congruence].
    + injection H as <- <-. eauto.
Qed.

Lemma dedup_loop_frame fuel i id ls nodes fin nodes' :
  dedup_loop fuel i id ls nodes = Ok (fin, nodes') ->
  map node_without_link_ids nodes' = map node_without_link_ids nodes.
Proof.
  revert i id ls nodes; induction fuel as [|fuel IH]; intros i id ls nodes H;
    cbn in H.
  - now injection H as _ <-.
  - destruct (nth_error ls i) as [l|] eqn:El.
    + apply bind_ok in H as (nodes1 & E1 & H).
      rewrite (IH _ _ _ _ H). eapply add_node_connections_frame; eauto.
    + now injection H as _ <-.
Qed.

(** ** Resolution of destinations *)

Section Resolution.

Variable cat : catalog.

Lemma convert_destination_total dev port_name nodes :
  Forall node_ok nodes ->
  exists ids, convert_destination_to_id dev port_name nodes = Ok ids.
Proof.
  intros H. unfold convert_destination_to_id.
  destruct (negb (String.eqb dev "NIO")).
  - induction H as [|n nodes [Hp Hn] _ IH]; cbn; [eauto|].
    unfold getitem. destruct (get "name" (n_properties n)); [|congruence].
    cbn. destruct (is_str p dev); [|exact IH].
    destruct (n_ports n); [|congruence]. cbn. eauto.
  - induction H as [|n nodes [Hp Hn] _ IH]; cbn; [eauto|].
    destruct (is_str (n_type n) "Cloud"); [|exact IH].
    destruct (n_ports n); [|congruence]. cbn.
    destruct (find_port_by_name port_name l); eauto.
Qed.

(** A destination that no node or port answers to gets null ids. *)
Lemma convert_destination_unmatched dev port_name nodes :
  Forall node_ok nodes ->
  unmatched nodes dev port_name ->
  convert_destination_to_id dev port_name nodes = Ok (None, None).
Proof.
  intros H. unfold unmatched, convert_destination_to_id.
  destruct (String.eqb dev "NIO"); cbn [negb]; intros Hu.
  - induction H as [|n nodes [Hp Hn] _ IH]; cbn; [reflexivity|].
    destruct (is_str (n_type n) "Cloud") eqn:Ec.
    + destruct (n_ports n) as [ports|] eqn:Ep; [|congruence]. cbn.
      apply is_str_eq in Ec.
      now rewrite (Hu n ports (or_introl eq_refl) Ec Ep).
    + apply IH. intros m ports Hm. apply Hu. now right.
  - induction H as [|n nodes [Hp Hn] _ IH]; cbn; [reflexivity|].
    unfold getitem.
    destruct (get "name" (n_properties n)) as [name|] eqn:En; [|congruence].
    cbn. destruct (is_str name dev) eqn:Es.
    + apply is_str_eq in Es as ->. exfalso. exact (Hu n (or_introl eq_refl) En).
    + apply IH. intros m Hm. apply Hu. now right.
Qed.

(** What resolution returns refers to what exists: a node id is the id of
    a node of the list, a port id that of one of its ports. *)
Lemma convert_destination_exists dev port_name nodes dn dp :
  convert_destination_to_id dev port_name nodes = Ok (dn, dp) ->
  (dn = None /\ dp = None) \/
  exists n ports,
    In n nodes /\ dn = Some (n_id n) /\ n_ports n = Some ports /\
    (dp = None \/
     exists p, In p ports /\ p_name p = port_name /\ dp = Some (p_id p)).
Proof.
  assert (F : forall ports p,
             find_port_by_name port_name ports = Some p ->
             In p ports /\ p_name p = port_name).
  { induction ports as [|q ports IH]; intros p; cbn; [discriminate|].
    destruct (String.eqb port_name (p_name q)) eqn:E.
    - intros [= <-]. apply String.eqb_eq in E. auto.
    - intros H. destruct (IH _ H). auto. }
  unfold convert_destination_to_id. revert dn dp.
  destruct (negb (String.eqb dev "NIO")).
  - induction nodes as [|n nodes IH]; intros dn dp; cbn.
    + intros [= <- <-]. auto.
    + intros H. apply bind_ok in H as (name & _ & H).
      destruct (is_str name dev).
      * apply bind_ok in H as (ports & Ep & H). injection H as <- <-.
        destruct (n_ports n) as [ps|] eqn:Epn; [|discriminate].
        injection Ep as ->.
        right. exists n, ports. split; [now left|]. split; [reflexivity|].
        split; [exact Epn|].
        destruct (find_port_by_name port_name ports) as [p|] eqn:Ef; cbn.
        -- right. exists p. destruct (F _ _ Ef). auto.
        -- now left.
      * destruct (IH _ _ H) as [?|(m & ports & Hm & R)]; [now left|].
        right. exists m, ports. split; [now right | exact R].
  - induction nodes as [|n nodes IH]; intros dn dp; cbn.
    + intros [= <- <-]. auto.
    + destruct (is_str (n_type n) "Cloud").
      * intros H. apply bind_ok in H as (ports & Ep & H).
        destruct (n_ports n) as [ps|] eqn:Epn; [|discriminate].
        injection Ep as ->.
        destruct (find_port_by_name port_name ports) as [p|] eqn:Ef.
        -- injection H as <- <-. right. exists n, ports.
           split; [now left|]. split; [reflexivity|]. split; [exact Epn|].
           right. exists p. destruct (F _ _ Ef). auto.
        -- injection H as <- <-. now left.
      * intros H. destruct (IH _ _ H) as [?|(m & ports & Hm & R)]; [now left|].
        right. exists m, ports. split; [now right | exact R].
Qed.

Lemma resolve_links_total nodes ls :
  Forall node_ok nodes ->
  Forall (fun l => exists p, expanded_dest_port cat l = Ok p) ls ->
  exists rs, resolve_links cat nodes ls = Ok rs.
Proof.
  intros Hn H. induction H as [|l ls [p Hp] _ [rs IH]]; cbn; [eauto|].
  unfold resolve_link. rewrite Hp. cbn.
  destruct (convert_destination_total (dest_dev l) p nodes Hn) as [[dn dp] ->].
  cbn. rewrite IH. cbn. eauto.
Qed.

Lemma resolve_links_In nodes ls rs l :
  resolve_links cat nodes ls = Ok rs -> In l ls ->
  exists r, In r rs /\ resolve_link cat nodes l = Ok r.
Proof.
  revert rs; induction ls as [|x ls IH]; intros rs H Hl; [destruct Hl|].
  cbn in H. apply bind_ok in H as (r & Er & H).
  apply bind_ok in H as (rs' & Ers & H). injection H as <-.
  destruct Hl as [->|Hl].
  - exists r. split; [now left | exact Er].
  - destruct (IH _ Ers Hl) as (r' & Hr' & E). exists r'. split; [now right | exact E].
Qed.

Lemma resolve_links_origin nodes ls rs r :
  resolve_links cat nodes ls = Ok rs -> In r rs ->
  exists l, In l ls /\ resolve_link cat nodes l = Ok r.
Proof.
  revert rs; induction ls as [|x ls IH]; intros rs H Hr; cbn in H.
  - injection H as <-. destruct Hr.
  - apply bind_ok in H as (r0 & Er & H).
    apply bind_ok in H as (rs' & Ers & H). injection H as <-.
    destruct Hr as [<-|Hr].
    + exists x. split; [now left | exact Er].
    + destruct (IH _ Ers Hr) as (l & Hl & E). exists l. split; [now right | exact E].
Qed.

End Resolution.

(** ** C8: unresolvable destinations *)

(** Whatever the nodes are, when [generate_links] returns, a SymbolicLink
    that was resolved with a null port id has its Link in the finalized
    list. *)
Lemma null_port_link_is_kept cat nodes self ls nodes' l r0 :
  generate_links cat nodes self = Ok (ls, nodes') ->
  In l (links self) ->
  resolve_link cat nodes l = Ok r0 ->
  destination_port_id r0 = None ->
  exists r, In r ls /\ ends r = ends r0.
Proof.
  unfold generate_links. intros H Hl Hr Hnull.
  apply bind_ok in H as (rs & Hrs & Hloop).
  destruct (resolve_links_In cat nodes _ _ l Hrs Hl) as (r1 & Hr1 & Er1).
  rewrite Hr in Er1. injection Er1 as <-.
  eapply dedup_loop_keeps_null; eauto.
Qed.

(** On nodes that all have a name and a port list, and with the
    interface letters of the destinations in [PORT_TYPES], [generate_links]
    returns; a SymbolicLink whose destination names no node (or, for
    ["NIO"], no port of the first cloud) is resolved to null ids, and its
    Link, with these null ids, is in the finalized list. *)
Lemma unmatched_destination_on_ported_nodes cat nodes self :
  Forall node_ok nodes ->
  Forall (fun l => exists p, expanded_dest_port cat l = Ok p) (links self) ->
  exists ls nodes',
    generate_links cat nodes self = Ok (ls, nodes') /\
    forall l p,
      In l (links self) ->
      expanded_dest_port cat l = Ok p ->
      unmatched nodes (dest_dev l) p ->
      convert_destination_to_id (dest_dev l) p nodes = Ok (None, None) /\
      exists r,
        In r ls /\
        lk_source_node_id r = source_node_id l /\
        lk_source_port_id r = source_port_id l /\
        destination_node_id r = None /\
        destination_port_id r = None.
Proof.
  intros Hnodes Hexp. unfold generate_links.
  destruct (resolve_links_total cat nodes (links self) Hnodes Hexp)
    as [rs Hrs].
  rewrite Hrs. cbn [Py.bind].
  assert (Hports : Forall (fun n => n_ports n <> None) nodes).
  { eapply Forall_impl; [|exact Hnodes]. now intros n [Hp _]. }
  destruct (dedup_loop_total (List.length rs) 0 1 rs nodes Hports)
    as (fin & nodes' & Hloop).
  exists fin, nodes'. split; [exact Hloop|].
  intros l p Hl Hp Hu.
  pose proof (convert_destination_unmatched _ _ _ Hnodes Hu) as Hc.
  split; [exact Hc|].
  destruct (resolve_links_In cat nodes _ _ l Hrs Hl) as (r0 & Hr0 & Er0).
  unfold resolve_link in Er0. rewrite Hp in Er0. cbn [Py.bind] in Er0.
  rewrite Hc in Er0. cbn in Er0. injection Er0 as <-.
  destruct (dedup_loop_keeps_null _ _ _ _ _ _ _ _ Hloop Hr0 eq_refl)
    as (r & Hr & E).
  exists r. split; [exact Hr|].
  unfold ends, source_of, destination_of in E. cbn in E.
  injection E as -> -> -> ->. auto.
Qed.

(** C8: a destination that names a node without a port list is not a
    soft failure.  The router "R1" declares [f0/0 = QEMU1 e0]; the node of
    the QEMU host is found by its name, it has no ['ports'], and reading
    them raises [KeyError], in [convert_destination_to_id] and so in
    [generate_links]: no Link is emitted.  For a device name that no node
    has, the same call returns null ids. *)
Theorem portless_destination_aborts :
  exists nodes self q r,
    generate_nodes sample_catalog int_of_digits router_to_qemu hv_c7200
                   init_conv = Ok (nodes, self) /\
    nodes = [q; r] /\
    links self = [mk_symlink 2 1 "QEMU1" "e0"] /\
    get "name" (n_properties q) = Some (VStr "QEMU1") /\
    n_type q = VStr "QEMU" /\
    n_ports q = None /\
    (forall n ports,
        In n nodes -> n_ports n = Some ports ->
        find_port_by_name "e0" ports = None) /\
    convert_destination_to_id "QEMU9" "e0" nodes = Ok (None, None) /\
    convert_destination_to_id "QEMU1" "e0" nodes = Raise KeyError /\
    generate_links sample_catalog nodes self = Raise KeyError.
Proof.
  do 4 eexists. split; [vm_compute; reflexivity|].
  split; [reflexivity|]. split; [reflexivity|]. split; [reflexivity|].
  split; [reflexivity|]. split; [reflexivity|].
  split; [|split; [|split]]; try (vm_compute; reflexivity).
  intros n ports [<-|[<-|[]]]; cbn; intros [= <-]; reflexivity.
Qed.

(** The router whose interface names the missing device "R9": one Link,
    numbered 1, with null destination ids. *)
Example dangling_router_links :
  exists nodes',
    convert sample_catalog dangling_router hv_c7200
    = Ok ([mk_link None None 1 1 (Some 1%Z)], nodes').
Proof. eexists. vm_compute. reflexivity. Qed.

(** A destination on a node without a port list (here a QEMU host) is
    not a soft failure: reading its ports raises [KeyError]. *)
Example destination_without_ports :
  convert sample_catalog
          [("QEMU1", [("node_id", VInt 1); ("type", VStr "QEMU");
                      ("x", VStr "0.0"); ("y", VStr "0.0")]);
           ("R1", router_device "c7200" 2 "f0/0" "QEMU1 e0")]
          hv_c7200
  = Raise KeyError.
Proof. vm_compute. reflexivity. Qed.

(** ** C10: back-annotation of the ports *)

(** [generate_links] changes nothing of the nodes but the link
    back-references of their ports. *)
Lemma generate_links_frame cat nodes self ls nodes' :
  generate_links cat nodes self = Ok (ls, nodes') ->
  map node_without_link_ids nodes' = map node_without_link_ids nodes.
Proof.
  unfold generate_links. intros H. apply bind_ok in H as (rs & _ & H).
  eapply dedup_loop_frame; eauto.
Qed.

(** The source port of a Link receives its id. *)
Lemma add_node_connections_source l id nodes nodes' k n ports p :
  add_node_connections l id nodes = Ok nodes' ->
  nth_error nodes k = Some n ->
  n_id n = lk_source_node_id l ->
  n_ports n = Some ports ->
  port_by_id (lk_source_port_id l) ports = Some p ->
  exists n' ports' p',
    nth_error nodes' k = Some n' /\ n_ports n' = Some ports' /\
    port_by_id (lk_source_port_id l) ports' = Some p' /\
    p_link_id p' = Some id.
Proof.
  revert nodes' k; induction nodes as [|m nodes IH]; intros nodes' k H Hk Hid Hp Hf.
  - now destruct k.
  - cbn in H. apply bind_ok in H as (m' & Em & H).
    apply bind_ok in H as (rest' & Er & H). injection H as <-.
    destruct k as [|k]; cbn in Hk.
    + injection Hk as ->. rewrite Hid, Z.eqb_refl, Hp in Em. cbn in Em.
      injection Em as <-. eexists. eexists. eexists.
      split; [reflexivity|]. split; [reflexivity|].
      split; [apply mark_port_marks; exact Hf | reflexivity].
    + cbn. eapply IH; eauto.
Qed.

(** So does the destination port, on a node other than the source
    node. *)
Lemma add_node_connections_destination l id nodes nodes' k n ports dp p :
  add_node_connections l id nodes = Ok nodes' ->
  nth_error nodes k = Some n ->
  n_id n <> lk_source_node_id l ->
  destination_node_id l = Some (n_id n) ->
  destination_port_id l = Some dp ->
  n_ports n = Some ports ->
  port_by_id dp ports = Some p ->
  exists n' ports' p',
    nth_error nodes' k = Some n' /\ n_ports n' = Some ports' /\
    port_by_id dp ports' = Some p' /\
    p_link_id p' = Some id.
Proof.
  revert nodes' k; induction nodes as [|m nodes IH];
    intros nodes' k H Hk Hne Hdn Hdp Hp Hf.
  - now destruct k.
  - cbn in H. apply bind_ok in H as (m' & Em & H).
    apply bind_ok in H as (rest' & Er & H). injection H as <-.
    destruct k as [|k]; cbn in Hk.
    + injection Hk as ->. apply Z.eqb_neq in Hne.
      rewrite Hne, Hdn, Z.eqb_refl, Hp, Hdp in Em. cbn in Em.
      injection Em as <-. eexists. eexists. eexists.
      split; [reflexivity|]. split; [reflexivity|].
      split; [apply mark_port_marks; exact Hf | reflexivity].
    + cbn. eapply IH; eauto.
Qed.

(** C10: a cable between two ports of one switch.  Its Link (id 1) goes
    from port 1 to port 2 of node 1; port 1 receives the link id, port 2,
    the destination port, does not: the destination branch of
    [add_node_connections] is an [elif] of the source branch and is not
    taken on the source node. *)
Theorem looped_switch_destination_unmarked :
  exists nodes self ls n ports p1 p2,
    generate_nodes sample_catalog int_of_digits looped_switch [] init_conv
    = Ok (nodes, self) /\
    generate_links sample_catalog nodes self = Ok (ls, [n]) /\
    ls = [mk_link (Some 1%Z) (Some 2%Z) 1 1 (Some 1%Z)] /\
    n_id n = 1%Z /\
    n_ports n = Some ports /\
    port_by_id 1 ports = Some p1 /\ p_link_id p1 = Some 1%Z /\
    port_by_id 2 ports = Some p2 /\ p_link_id p2 = None.
Proof.
  do 7 eexists. split; [vm_compute; reflexivity|].
  split; [vm_compute; reflexivity|].
  repeat split.
Qed.

(** ** Consistent declarations *)

Lemma mirrors_points_at l x :
  mirrors (t_link l) x = true <-> points_at x l.
Proof.
  unfold mirrors, points_at, target, source_of.
  rewrite t_link_eq_d_link.
  destruct (destination_node_id x), (destination_port_id x);
    split; try intros [? ?]; try congruence; try discriminate.
  intros [= -> ->]. auto.
Qed.

Lemma points_at_ends a a' b b' :
  ends a = ends a' -> ends b = ends b' -> points_at a b -> points_at a' b'.
Proof.
  unfold ends, points_at, target, source_of, destination_of.
  intros [= E1 E2 E3 E4] [= F1 F2 F3 F4]. now rewrite <- E3, <- E4, <- F1, <- F2.
Qed.

Lemma NoDup_map_nth A B (f : A -> B) l j k x y :
  NoDup (map f l) ->
  nth_error l j = Some x -> nth_error l k = Some y -> f x = f y -> j = k.
Proof.
  intros Hnd Hj Hk E.
  apply (proj1 (NoDup_nth_error (map f l)) Hnd).
  - apply nth_error_Some. rewrite nth_error_map, Hj. discriminate.
  - rewrite !nth_error_map, Hj, Hk. cbn. now rewrite E.
Qed.

Lemma NoDup_map_In A B (f : A -> B) l x y :
  NoDup (map f l) -> In x l -> In y l -> f x = f y -> x = y.
Proof.
  intros Hnd Hx Hy E.
  apply In_nth_error in Hx as [j Hj]. apply In_nth_error in Hy as [k Hk].
  assert (j = k) by (eapply NoDup_map_nth; eauto). subst. congruence.
Qed.

Lemma In_remove_at_nth A (l : list A) r x :
  In x (remove_at r l) -> exists j, j <> r /\ nth_error l j = Some x.
Proof.
  revert r; induction l as [|y l IH]; intros r; [now destruct r|].
  destruct r as [|r]; cbn.
  - intros H. apply In_nth_error in H as [j Hj]. exists (S j). auto.
  - intros [<-|H].
    + exists 0%nat. auto.
    + destruct (IH _ H) as (j & Hj & E). exists (S j). auto.
Qed.

Lemma map_remove_at A B (f : A -> B) l r :
  map f (remove_at r l) = remove_at r (map f l).
Proof.
  revert r; induction l as [|y l IH]; intros r; [now destruct r|].
  destruct r; cbn; [reflexivity | now rewrite IH].
Qed.

Lemma NoDup_remove_at A (l : list A) r : NoDup l -> NoDup (remove_at r l).
Proof.
  intros H. revert r; induction H as [|y l Hy Hl IH]; intros r;
    [destruct r; constructor|].
  destruct r as [|r]; cbn; [assumption|].
  constructor; [|apply IH]. intros Hin. apply Hy. eapply In_remove_at; eauto.
Qed.

Lemma map_set_at_same A B (f : A -> B) l p x0 y :
  nth_error l p = Some x0 -> f y = f x0 -> map f (set_at p y l) = map f l.
Proof.
  revert p; induction l as [|z l IH]; intros p Hp E; [now destruct p|].
  destruct p as [|p]; cbn in *.
  - injection Hp as ->. now rewrite E.
  - f_equal. eauto.
Qed.

Lemma nth_error_set_at_same A (l : list A) p x0 y :
  nth_error l p = Some x0 -> nth_error (set_at p y l) p = Some y.
Proof.
  revert p; induction l as [|z l IH]; intros p Hp; [now destruct p|].
  destruct p as [|p]; cbn in *; eauto.
Qed.

Lemma nth_error_set_at_other A (l : list A) p k y :
  k <> p -> nth_error (set_at p y l) k = nth_error l k.
Proof.
  revert p k; induction l as [|z l IH]; intros p k H; [now destruct p|].
  destruct p as [|p], k as [|k]; cbn; try reflexivity; try lia.
  apply IH. lia.
Qed.

(** The shape of a round on consistent declarations: the mirror of
    [links[i]], if there is one, comes later in the list and is the only
    Link that points at it; it is taken out and [links[i]] is numbered in
    place. *)
Lemma dedup_step_shape i id l ls :
  consistent ls -> processed_clear i ls -> nth_error ls i = Some l ->
  exists ls1,
    dedup_step i id l ls = set_at i (set_id l id) ls1 /\
    nth_error ls1 i = Some l /\
    (forall k, (k < i)%nat -> nth_error ls1 k = nth_error ls k) /\
    (forall x, In x ls1 -> In x ls /\ ~ points_at x l) /\
    (forall x, In x ls -> points_at x l \/ In x ls1) /\
    NoDup (map source_of ls1) /\
    (List.length ls1 <= List.length ls)%nat.
Proof.
  intros (Hnd & Hsym & Hself) Hclear Hl.
  pose proof (nth_error_In _ _ Hl) as Hlin.
  rewrite dedup_step_cases.
  destruct (find_index (mirrors (t_link l)) ls) as [r|] eqn:Er.
  - destruct (find_index_Some _ _ _ _ Er) as (e & He & Hm).
    apply mirrors_points_at in Hm.
    pose proof (nth_error_In _ _ He) as Hein.
    assert (Hr : (i < r)%nat).
    { destruct (Nat.lt_trichotomy r i) as [Hlt|[->|Hgt]]; [| |exact Hgt].
      - exfalso. apply (Hclear r e l Hlt He Hlin). now apply Hsym.
      - rewrite Hl in He. injection He as <-. exfalso. now apply (Hself l). }
    assert (Honly : forall j x, nth_error ls j = Some x -> points_at x l ->
                                j = r).
    { intros j x Hj Hx.
      apply (NoDup_map_nth _ _ source_of ls j r x e Hnd Hj He).
      pose proof (nth_error_In _ _ Hj) as Hxin.
      pose proof (Hsym _ _ Hxin Hlin Hx) as H1.
      pose proof (Hsym _ _ Hein Hlin Hm) as H2.
      unfold points_at in H1, H2. congruence. }
    exists (remove_at r ls).
    replace (r <? i)%nat with false by (symmetry; apply Nat.ltb_ge; lia).
    replace (r =? i)%nat with false by (symmetry; apply Nat.eqb_neq; lia).
    split; [reflexivity|].
    split; [rewrite nth_error_remove_at_gt; auto|].
    split; [intros k Hk; apply nth_error_remove_at_gt; lia|].
    split; [|split].
    + intros x Hx. split; [eapply In_remove_at; eauto|].
      intros Hp. apply In_remove_at_nth in Hx as (j & Hj & Ex).
      apply Hj. eapply Honly; eauto.
    + intros x Hx. destruct (link_eqb x e) eqn:Ee.
      * apply link_eqb_eq in Ee as ->. now left.
      * right. eapply In_remove_at_other; eauto.
        intros ->. rewrite (proj2 (link_eqb_eq e e) eq_refl) in Ee.
        discriminate.
    + split; [|apply length_remove_at].
      rewrite map_remove_at. now apply NoDup_remove_at.
  - exists ls. split; [reflexivity|]. split; [exact Hl|].
    split; [reflexivity|]. split; [|split; [auto | split; [exact Hnd | lia]]].
    intros x Hx. split; [exact Hx|]. intros Hp.
    apply mirrors_points_at in Hp.
    now rewrite (find_index_None _ _ _ x Er Hx) in Hp.
Qed.

(** A round keeps the declarations consistent, leaves nothing that points
    at the Link it numbered, and loses no Link but the mirror of that
    one. *)
Lemma dedup_step_consistent i id l ls :
  consistent ls -> processed_clear i ls -> nth_error ls i = Some l ->
  consistent (dedup_step i id l ls) /\
  processed_clear (S i) (dedup_step i id l ls) /\
  (forall x0, covered i ls x0 -> covered (S i) (dedup_step i id l ls) x0) /\
  (List.length (dedup_step i id l ls) <= List.length ls)%nat.
Proof.
  intros Hcons Hclear Hl.
  destruct (dedup_step_shape i id l ls Hcons Hclear Hl)
    as (ls1 & -> & Hl1 & Hlow & Hsub & Hsplit & Hnd1 & Hlen).
  destruct Hcons as (Hnd & Hsym & Hself).
  pose proof (nth_error_In _ _ Hl) as Hlin.
  set (l' := set_id l id).
  assert (Horigin : forall x, In x (set_at i l' ls1) ->
                              exists y, In y ls /\ ends x = ends y /\
                                        (x = l' \/ In x ls1)).
  { intros x Hx. apply In_set_at in Hx as [->|Hx].
    - exists l. auto.
    - exists x. destruct (Hsub _ Hx). auto. }
  assert (Hnew : nth_error (set_at i l' ls1) i = Some l').
  { eapply nth_error_set_at_same; eauto. }
  assert (Hold : forall k, (k < i)%nat ->
                           nth_error (set_at i l' ls1) k = nth_error ls k).
  { intros k Hk. rewrite nth_error_set_at_other by lia. now apply Hlow. }
  repeat split.
  - rewrite (map_set_at_same _ _ source_of ls1 i l l' Hl1 eq_refl). exact Hnd1.
  - intros a b Ha Hb Hp.
    destruct (Horigin _ Ha) as (a0 & Ha0 & Ea & _).
    destruct (Horigin _ Hb) as (b0 & Hb0 & Eb & _).
    apply (points_at_ends b0 b a0 a); auto.
    apply Hsym; auto. apply (points_at_ends a a0 b b0); auto.
  - intros a Ha Hp.
    destruct (Horigin _ Ha) as (a0 & Ha0 & Ea & _).
    apply (Hself a0 Ha0). apply (points_at_ends a a0 a a0); auto.
  - intros k d x Hk Hd Hx Hp.
    destruct (Horigin _ Hx) as (x0 & Hx0 & Ex & Hwhere).
    destruct (Nat.eq_dec k i) as [->|Hne].
    + rewrite Hnew in Hd. injection Hd as <-.
      destruct Hwhere as [->|Hx1].
      * apply (Hself l Hlin). exact Hp.
      * destruct (Hsub _ Hx1) as [_ Hno]. apply Hno. exact Hp.
    + rewrite Hold in Hd by lia.
      apply (Hclear k d x0); [lia | exact Hd | exact Hx0|].
      apply (points_at_ends x x0 d d); auto.
  - intros x0 [(x & Hx & Ex)|(k & d & Hk & Hd & Hp)].
    + destruct (Hsplit _ Hx) as [Hp|Hx1].
      * right. exists i, l'. split; [lia|]. split; [exact Hnew|].
        apply (points_at_ends x x0 l l'); auto.
      * destruct (In_set_at_keep _ ls1 i l l' x Hl1 Hx1) as [->|Hx2].
        -- left. exists l'. split; [eapply In_set_at_new; eauto | exact Ex].
        -- left. eauto.
    + right. exists k, d. split; [lia|]. split; [|exact Hp].
      now rewrite Hold.
  - rewrite length_set_at. exact Hlen.
Qed.

(** After the loop on consistent declarations: the sources are pairwise
    different, no Link points at the source of another, and every Link of
    the resolved list is there or points at the source of one that is. *)
Lemma dedup_loop_consistent fuel i id ls nodes fin nodes' :
  (List.length ls - i <= fuel)%nat ->
  consistent ls -> processed_clear i ls ->
  dedup_loop fuel i id ls nodes = Ok (fin, nodes') ->
  consistent fin /\
  (forall d x, In d fin -> In x fin -> ~ points_at x d) /\
  (forall x0, covered i ls x0 ->
              exists d, In d fin /\ (ends d = ends x0 \/ points_at x0 d)).
Proof.
  revert i id ls nodes.
  assert (Done : forall i ls,
             (List.length ls <= i)%nat ->
             consistent ls -> processed_clear i ls ->
             consistent ls /\
             (forall d x, In d ls -> In x ls -> ~ points_at x d) /\
             (forall x0, covered i ls x0 ->
                         exists d, In d ls /\
                                   (ends d = ends x0 \/ points_at x0 d))).
  { intros i ls Hlen Hcons Hclear. split; [exact Hcons|]. split.
    - intros d x Hd Hx. apply In_nth_error in Hd as [k Hk].
      apply (Hclear k d x); auto.
      assert (k < List.length ls)%nat by (apply nth_error_Some; congruence).
      lia.
    - intros x0 [(x & Hx & Ex)|(k & d & Hk & Hd & Hp)].
      + exists x. auto.
      + exists d. split; [eapply nth_error_In; eauto | now right]. }
  induction fuel as [|fuel IH]; intros i id ls nodes Hfuel Hcons Hclear H;
    cbn in H.
  - injection H as <- <-. apply (Done i); auto. lia.
  - destruct (nth_error ls i) as [l|] eqn:El.
    + apply bind_ok in H as (nodes1 & _ & H).
      destruct (dedup_step_consistent i id l ls Hcons Hclear El)
        as (Hcons2 & Hclear2 & Hcov & Hlen).
      assert (Hfuel2 : (List.length (dedup_step i id l ls) - S i <= fuel)%nat)
        by lia.
      destruct (IH _ _ _ _ Hfuel2 Hcons2 Hclear2 H) as (F1 & F2 & F3).
      split; [exact F1|]. split; [exact F2|].
      intros x0 Hx0. apply F3. now apply Hcov.
    + injection H as <- <-. apply (Done i); auto.
      now apply nth_error_None.
Qed.

(** ** C1: mirrored declarations *)

Lemma pair_eqb_eq a b : pair_eqb a b = true <-> a = b.
Proof.
  unfold pair_eqb. rewrite andb_true_iff, !Z.eqb_eq.
  destruct a, b; cbn. split; [intros [-> ->]; auto | intros [= -> ->]; auto].
Qed.

Lemma connects_iff A B l :
  connects A B l = true <->
  (source_of l = A /\ target l = Some B) \/
  (source_of l = B /\ target l = Some A).
Proof.
  unfold connects. destruct (target l) as [T|].
  - rewrite orb_true_iff, !andb_true_iff, !pair_eqb_eq.
    split; (intros [[-> E]|[-> E]]; [left | right]); split; congruence.
  - split; [discriminate | intros [[_ [=]]|[_ [=]]]].
Qed.

Lemma filter_none A (f : A -> bool) l :
  (forall x, In x l -> f x = false) -> filter f l = [].
Proof.
  induction l as [|y l IH]; intros H; cbn; [reflexivity|].
  rewrite (H y (or_introl eq_refl)). apply IH. intros x Hx. apply H. now right.
Qed.

(** One element at least and one position at most satisfy [f]. *)
Lemma filter_length_one A (f : A -> bool) l :
  (exists x, In x l /\ f x = true) ->
  (forall j k x y, nth_error l j = Some x -> nth_error l k = Some y ->
                   f x = true -> f y = true -> j = k) ->
  List.length (filter f l) = 1%nat.
Proof.
  induction l as [|z l IH]; intros (x & Hx & Hf) Huniq; [destruct Hx|].
  cbn. destruct (f z) eqn:Ez.
  - cbn. f_equal. rewrite filter_none; [reflexivity|].
    intros y Hy. destruct (f y) eqn:Ey; [|reflexivity].
    apply In_nth_error in Hy as [k Hk].
    discriminate (Huniq 0%nat (S k) z y eq_refl Hk Ez Ey).
  - apply IH.
    + destruct Hx as [->|Hx]; [congruence | eauto].
    + intros j k a b Ha Hb Fa Fb.
      assert (E : S j = S k) by (apply (Huniq (S j) (S k) a b); auto).
      now injection E.
Qed.

(** When the resolved declarations are consistent with a cabling,
    [generate_links] returns, and for two Links that point at each
    other's source (the two declarations of one cable) exactly one Link
    of the finalized list connects the two ports. *)
Lemma mirrored_declarations_collapse cat nodes self rs :
  Forall (fun n => n_ports n <> None) nodes ->
  resolve_links cat nodes (links self) = Ok rs ->
  consistent rs ->
  exists ls nodes',
    generate_links cat nodes self = Ok (ls, nodes') /\
    forall a b,
      In a rs -> In b rs -> points_at a b -> points_at b a ->
      List.length (filter (connects (source_of a) (source_of b)) ls) = 1%nat.
Proof.
  intros Hports Hrs Hcons. unfold generate_links. rewrite Hrs. cbn [Py.bind].
  destruct (dedup_loop_total (List.length rs) 0 1 rs nodes Hports)
    as (fin & nodes' & Hloop).
  exists fin, nodes'. split; [exact Hloop|].
  assert (Hclear : processed_clear 0 rs) by (intros k d x Hk; lia).
  assert (Hfuel : (List.length rs - 0 <= List.length rs)%nat) by lia.
  destruct (dedup_loop_consistent _ _ _ _ _ _ _ Hfuel Hcons Hclear Hloop)
    as ((Hnd & _ & _) & Hnone & Hcov).
  intros a b Ha Hb Hab Hba.
  apply filter_length_one.
  - destruct (Hcov a) as (d & Hd & [E|Hp]).
    { left. exists a. auto. }
    + exists d. split; [exact Hd|]. apply connects_iff. left.
      unfold ends, destination_of in E. injection E as E1 E2 E3 E4.
      unfold source_of, points_at, target in *. rewrite E1, E2, E3, E4.
      auto.
    + destruct (dedup_loop_origin _ _ _ _ _ _ _ d Hloop Hd) as (d0 & Hd0 & E).
      assert (Hsrc : source_of d0 = source_of b).
      { unfold points_at in Hab, Hp. pose proof (f_equal fst E) as E1.
        cbn in E1. congruence. }
      destruct Hcons as (Hnd0 & _ & _).
      pose proof (NoDup_map_In _ _ source_of rs d0 b Hnd0 Hd0 Hb Hsrc) as ->.
      exists d. split; [exact Hd|]. apply connects_iff. right.
      unfold ends, destination_of in E. injection E as E1 E2 E3 E4.
      unfold source_of, points_at, target in *. rewrite E1, E2, E3, E4.
      auto.
  - intros j k x y Hj Hk Fx Fy.
    apply connects_iff in Fx, Fy.
    pose proof (nth_error_In _ _ Hj) as Hx.
    pose proof (nth_error_In _ _ Hk) as Hy.
    destruct Fx as [[Sx Tx]|[Sx Tx]], Fy as [[Sy Ty]|[Sy Ty]].
    + apply (NoDup_map_nth _ _ source_of fin j k x y Hnd Hj Hk). congruence.
    + exfalso. apply (Hnone x y Hx Hy). unfold points_at. congruence.
    + exfalso. apply (Hnone y x Hy Hx). unfold points_at. congruence.
    + apply (NoDup_map_nth _ _ source_of fin j k x y Hnd Hj Hk). congruence.
Qed.

Example mirrored_declarations_collapse_two_routers :
  exists nodes self rs,
    generate_nodes sample_catalog int_of_digits two_routers hv_c7200 init_conv
    = Ok (nodes, self) /\
    resolve_links sample_catalog nodes (links self) = Ok rs /\
    rs = [mk_link (Some 2%Z) (Some 3%Z) 1 1 None;
          mk_link (Some 1%Z) (Some 1%Z) 3 2 None] /\
    exists ls nodes',
      generate_links sample_catalog nodes self = Ok (ls, nodes') /\
      forall a b,
        In a rs -> In b rs -> points_at a b -> points_at b a ->
        List.length (filter (connects (source_of a) (source_of b)) ls) = 1%nat.
Proof.
  do 3 eexists. split; [vm_compute; reflexivity|].
  split; [vm_compute; reflexivity|]. split; [reflexivity|].
  apply (mirrored_declarations_collapse sample_catalog).
  - repeat constructor; discriminate.
  - vm_compute. reflexivity.
  - split; [|split].
    + repeat constructor; cbn; intuition discriminate.
    + intros a b [<-|[<-|[]]] [<-|[<-|[]]]; vm_compute; intros H;
        (discriminate H || reflexivity).
    + intros a [<-|[<-|[]]]; vm_compute; intros H; discriminate H.
Qed.

(** Scenario 2: the two routers "R1" and "R2" with one cable between
    their interfaces f0/0 yield one Link, not two. *)
Example two_routers_one_link :
  exists nodes',
    convert sample_catalog two_routers hv_c7200
    = Ok ([mk_link (Some 2%Z) (Some 3%Z) 1 1 (Some 1%Z)], nodes').
Proof. eexists. vm_compute. reflexivity. Qed.

(** C1: "R1" and "R2" declare one cable from both sides, and "R0" also
    claims the interface f0/0 of "R1".  The Link of "R0" is taken out in
    the round of the Link of "R1" (it is the first whose destination is
    that port); the list gets shorter under the loop, which ends before
    the Link of "R2" is looked at.  Both Links of the pair "R1", "R2"
    stay, the second without an id. *)
Theorem three_declarations_leave_both :
  exists nodes self rs a b ls nodes',
    generate_nodes sample_catalog int_of_digits three_routers hv_c7200
                   init_conv = Ok (nodes, self) /\
    resolve_links sample_catalog nodes (links self) = Ok rs /\
    In a rs /\ In b rs /\ points_at a b /\ points_at b a /\
    source_of a = (2%Z, 3%Z) /\ source_of b = (3%Z, 5%Z) /\
    generate_links sample_catalog nodes self = Ok (ls, nodes') /\
    ls = [mk_link (Some 3%Z) (Some 5%Z) 3 2 (Some 2%Z);
          mk_link (Some 2%Z) (Some 3%Z) 5 3 None] /\
    List.length (filter (connects (source_of a) (source_of b)) ls) = 2%nat.
Proof.
  do 3 eexists.
  exists (mk_link (Some 3%Z) (Some 5%Z) 3 2 None),
         (mk_link (Some 2%Z) (Some 3%Z) 5 3 None).
  do 2 eexists.
  split; [vm_compute; reflexivity|].
  split; [vm_compute; reflexivity|].
  split; [right; left; reflexivity|].
  split; [right; right; left; reflexivity|].
  split; [reflexivity|]. split; [reflexivity|].
  split; [reflexivity|]. split; [reflexivity|].
  split; [vm_compute; reflexivity|].
  split; reflexivity.
Qed.

(** ** The symbolic links of [generate_nodes] *)

Lemma keeps_links_ret A (a : A) : keeps_links (ret a).
Proof. intros s b s' H. now apply ret_ok in H as [_ ->]. Qed.

Lemma keeps_links_lift A (c : result A) : keeps_links (lift c).
Proof. intros s b s' H. now apply lift_ok in H as [_ ->]. Qed.

Lemma keeps_links_next_port_id : keeps_links next_port_id.
Proof. intros s b s'. unfold next_port_id. now intros [= _ <-]. Qed.

Lemma keeps_links_bind A B (m : M A) (k : A -> M B) :
  keeps_links m -> (forall a, keeps_links (k a)) -> keeps_links (mbind m k).
Proof.
  intros Hm Hk s b s' H. apply mbind_ok in H as (a & s1 & E & H).
  rewrite (Hk _ _ _ _ H). eapply Hm; eauto.
Qed.

Lemma keeps_links_for_each A S (xs : list A) (body : A -> S -> M S) acc :
  (forall x a, keeps_links (body x a)) -> keeps_links (for_each xs body acc).
Proof.
  intros Hbody. revert acc; induction xs as [|x xs IH]; intros acc; cbn.
  - apply keeps_links_ret.
  - apply keeps_links_bind; auto.
Qed.

(** Decomposes a goal [keeps_links m] along the structure of [m]. *)
Ltac keeps_links :=
  repeat first
    [ apply keeps_links_ret
    | apply keeps_links_lift
    | apply keeps_links_next_port_id
    | apply keeps_links_bind; [|intros ?]
    | apply keeps_links_for_each; intros ? ?
    | match goal with
      | |- keeps_links (if ?c then _ else _) => destruct c
      | |- keeps_links (match ?x with (_, _) => _ end) => destruct x
      | |- keeps_links (let _ := _ in _) => cbv zeta
      end ].

Lemma keeps_links_calc_slot_ports cat adapter slot :
  keeps_links (calc_slot_ports cat adapter slot).
Proof. unfold calc_slot_ports. keeps_links. Qed.

Lemma keeps_links_calc_mb_ports cat model chassis :
  keeps_links (calc_mb_ports cat model chassis).
Proof. unfold calc_mb_ports. keeps_links. Qed.

Lemma keeps_links_router_ports cat model t :
  keeps_links (router_ports cat model t).
Proof.
  unfold router_ports, slot_step, default_ports.
  keeps_links; try apply keeps_links_calc_slot_ports;
    try apply keeps_links_calc_mb_ports.
Qed.

Lemma keeps_links_calc_ethsw_port py_int port_num port_def :
  keeps_links (calc_ethsw_port py_int port_num port_def).
Proof. unfold calc_ethsw_port. keeps_links. Qed.

Lemma keeps_links_cloud_ports connections :
  keeps_links (cloud_ports connections).
Proof. unfold cloud_ports, calc_cloud_connection. keeps_links. Qed.

Lemma find_port_by_name_In name ports p :
  find_port_by_name name ports = Some p -> In p ports /\ p_name p = name.
Proof.
  induction ports as [|q ports IH]; cbn; [discriminate|].
  destruct (String.eqb name (p_name q)) eqn:E.
  - intros [= <-]. apply String.eqb_eq in E. auto.
  - intros H. destruct (IH H). auto.
Qed.

Section NodeLinks.

Variable cat : catalog.
Variable py_int : string -> option Z.
Variable hvs : hypervisors.

(** A round of the item loop leaves links and ports alone, or it is the
    round of a numbered switch port: one port and one link from it. *)
Lemma item_step_links dev node_id type model item t s t' s' :
  item_step py_int hvs dev node_id type model item t s = Ok (t', s') ->
  (links s' = links s /\ nt_ports t' = nt_ports t) \/
  (exists ports port_def destination,
      nt_ports t = Some ports /\
      nt_ports t' = Some (ports ++ [port_def]) /\
      links s' = links s ++ [calc_link node_id (p_id port_def) destination]).
Proof.
  intros H. unfold item_step in H.
  apply mbind_ok in H as (value & s0 & Evalue & H).
  apply lift_ok in Evalue as [Evalue ->].
  repeat match type of H with
         | (if ?c then _ else _) _ = Ok _ => destruct c eqn:?
         end;
    try (apply ret_ok in H as [-> ->]; left; now cbn).
  - apply lift_ok in H as [H ->]. left. split; [reflexivity|].
    unfold item_hv_id in H.
    apply bind_ok in H as (hv & _ & H).
    apply bind_ok in H as (image & _ & H).
    apply bind_ok in H as (image_text & _ & H).
    now injection H as <-.
  - apply mbind_ok in H as ([port_def destination] & s1 & Eport & H).
    apply mbind_ok in H as (ports & s2 & Eports & H).
    apply lift_ok in Eports as [Eports ->].
    apply mbind_ok in H as (u & s3 & Eapp & H).
    apply ret_ok in H as [-> ->].
    pose proof (keeps_links_calc_ethsw_port _ _ _ _ _ _ Eport) as Hl.
    right. exists ports, port_def, destination.
    destruct (nt_ports t); [|discriminate]. injection Eports as ->.
    split; [reflexivity|]. split; [reflexivity|].
    unfold append_link in Eapp. injection Eapp as _ <-. cbn. now rewrite Hl.
Qed.

(** The links of the item loop come from ports of the node. *)
Lemma item_loop_links dev node_id type model t0 s t s' :
  for_each (sorted (keys dev))
           (item_step py_int hvs dev node_id type model) t0 s = Ok (t, s') ->
  (nt_ports t0 = None \/ nt_ports t0 = Some []) ->
  exists new,
    links s' = links s ++ new /\
    (nt_ports t0 = None -> nt_ports t = None) /\
    match nt_ports t with
    | None => new = []
    | Some ports =>
        forall l, In l new ->
                  source_node_id l = node_id /\
                  exists p, In p ports /\ p_id p = source_port_id l
    end.
Proof.
  intros Hloop Hstart.
  refine (@for_each_invariant _ _
            (fun (t : node_temp) (s1 : conv) =>
               exists new,
                 links s1 = links s ++ new /\
                 (nt_ports t0 = None -> nt_ports t = None) /\
                 match nt_ports t with
                 | None => new = []
                 | Some ports =>
                     forall l, In l new ->
                               source_node_id l = node_id /\
                               exists p, In p ports /\
                                         p_id p = source_port_id l
                 end)
            _ _ _ _ _ _ _ _ Hloop).
  - intros item a s1 a' s1' _ (new & Hl & Hnone & Hnew) Hstep.
    destruct (item_step_links _ _ _ _ _ _ _ _ _ Hstep)
      as [[El Ep]|(ports & pd & dest & Ep & Ep' & El)].
    + exists new. rewrite El, Ep. auto.
    + exists (new ++ [calc_link node_id (p_id pd) dest]).
      rewrite El, Hl, Ep', app_assoc. split; [reflexivity|].
      split; [intros H0; rewrite (Hnone H0) in Ep; discriminate|].
      rewrite Ep in Hnew. intros l Hin. apply in_app_iff in Hin as [Hin|Hin].
      * destruct (Hnew _ Hin) as (Hs & p & Hp & E).
        split; [exact Hs|]. exists p. split; [|exact E].
        apply in_app_iff. now left.
      * destruct Hin as [<-|[]]. split; [reflexivity|].
        exists pd. split; [|reflexivity]. apply in_app_iff. right. now left.
  - exists []. rewrite app_nil_r. split; [reflexivity|]. split; [auto|].
    destruct Hstart as [->| ->]; [reflexivity|]. intros l [].
Qed.

(** The links of a router come from its ports, or carry the port id 0. *)
Lemma router_links_links node_id ports interfaces s u s' :
  router_links cat node_id ports interfaces s = Ok (u, s') ->
  exists new,
    links s' = links s ++ new /\
    forall l, In l new ->
              source_node_id l = node_id /\
              (source_port_id l = 0%Z \/
               exists p, In p ports /\ p_id p = source_port_id l).
Proof.
  unfold router_links. intros H.
  apply mbind_ok in H as (conns & s1 & E & H). apply lift_ok in E as [_ ->].
  refine (@for_each_invariant _ _
            (fun (_ : unit) (s1 : conv) =>
               exists new,
                 links s1 = links s ++ new /\
                 forall l, In l new ->
                           source_node_id l = node_id /\
                           (source_port_id l = 0%Z \/
                            exists p, In p ports /\ p_id p = source_port_id l))
            _ _ _ _ _ _ _ _ H).
  - intros c a s2 a' s2' _ (new & Hl & Hnew) Hstep.
    apply mbind_ok in Hstep as (l & s3 & El & Happ).
    apply lift_ok in El as [El ->].
    unfold append_link in Happ. injection Happ as _ <-.
    exists (new ++ [l]). cbn. rewrite Hl, app_assoc. split; [reflexivity|].
    intros l0 Hin. apply in_app_iff in Hin as [Hin|[<-|[]]]; [auto|].
    destruct (calc_router_links_source _ _ _ _ _ El) as (name & _ & Hn & Hp).
    split; [exact Hn|]. rewrite Hp.
    destruct (find_port_by_name name ports) as [p|] eqn:Ef; [|now left].
    right. exists p. split; [|reflexivity].
    now apply find_port_by_name_In in Ef.
  - exists []. rewrite app_nil_r. split; [reflexivity | intros l []].
Qed.

End NodeLinks.

Section NodesLinks.

Variable cat : catalog.
Variable py_int : string -> option Z.
Variable hvs : hypervisors.

(** The links one device adds have the new node as source. *)
Lemma generate_node_links device dev s n s' :
  generate_node cat py_int hvs device dev s = Ok (n, s') ->
  exists new,
    links s' = links s ++ new /\
    forall l, In l new ->
              source_known [n] (source_node_id l) (source_port_id l).
Proof.
  intros H. unfold generate_node in H.
  apply mbind_ok in H as (nid & s0 & E & H). apply lift_ok in E as [_ ->].
  apply mbind_ok in H as (node_id & s0 & E & H). apply lift_ok in E as [_ ->].
  apply mbind_ok in H as (x & s0 & E & H). apply lift_ok in E as [_ ->].
  apply mbind_ok in H as (y & s0 & E & H). apply lift_ok in E as [_ ->].
  apply mbind_ok in H as (type & s0 & E & H). apply lift_ok in E as [_ ->].
  cbv zeta in H.
  apply mbind_ok in H as (t & s1 & Eloop & H).
  assert (Hstart : is_str type "EthernetSwitch" = false ->
                   nt_ports t = None /\ links s1 = links s).
  { intros Hno.
    destruct (item_loop_links _ _ _ _ _ _ _ _ _ _ Eloop) as (new & Hl & Hn & Hm).
    - cbn. destruct (is_str type "EthernetSwitch"); auto.
    - cbn in Hn. rewrite Hno in Hn. specialize (Hn eq_refl).
      rewrite Hn in Hm. subst new. rewrite app_nil_r in Hl. auto. }
  destruct (is_str type "Router") eqn:Er; [|destruct (is_str type "Cloud") eqn:Ec].
  - apply is_str_eq in Er as ->. destruct (Hstart eq_refl) as [_ Hl1].
    apply mbind_ok in H as (model_text & s0 & E & H).
    apply lift_ok in E as [_ ->].
    apply mbind_ok in H as ([ports props] & s2 & Eports & H).
    apply mbind_ok in H as (u & s3 & Elinks & H).
    apply ret_ok in H as [-> ->].
    pose proof (keeps_links_router_ports _ _ _ _ _ _ Eports) as Hl2.
    destruct (router_links_links _ _ _ _ _ _ _ Elinks) as (new & Hl3 & Hnew).
    exists new. split; [congruence|].
    intros l Hin. destruct (Hnew _ Hin) as [Hs Hp].
    eexists. eexists. split; [now left|]. cbn.
    split; [now rewrite Hs|]. split; [reflexivity | exact Hp].
  - apply is_str_eq in Ec as ->. destruct (Hstart eq_refl) as [_ Hl1].
    apply mbind_ok in H as ([ports nios] & s2 & Eports & H).
    apply ret_ok in H as [-> ->].
    pose proof (keeps_links_cloud_ports _ _ _ _ Eports) as Hl2.
    exists []. rewrite app_nil_r. split; [congruence | intros l []].
  - apply ret_ok in H as [-> ->].
    destruct (item_loop_links _ _ _ _ _ _ _ _ _ _ Eloop) as (new & Hl & _ & Hm).
    { cbn. destruct (is_str type "EthernetSwitch"); auto. }
    exists new. split; [exact Hl|].
    intros l Hin. destruct (nt_ports t) as [ports|] eqn:Ep.
    + destruct (Hm _ Hin) as (Hs & p & Hp & E).
      eexists. exists ports. split; [now left|]. cbn.
      split; [now rewrite Hs|]. split; [reflexivity|]. right. eauto.
    + subst new. destruct Hin.
Qed.

Lemma source_known_more nodes more node_id port_id :
  source_known nodes node_id port_id \/ source_known more node_id port_id ->
  source_known (nodes ++ more) node_id port_id.
Proof.
  intros [(n & ports & Hn & R)|(n & ports & Hn & R)];
    exists n, ports; (split; [apply in_app_iff; auto | exact R]).
Qed.

(** Every symbolic link of [generate_nodes] has one of the generated
    nodes as source, and one of its ports or the port id 0. *)
Lemma generate_nodes_links devices nodes self :
  generate_nodes cat py_int devices hvs init_conv = Ok (nodes, self) ->
  forall l, In l (links self) ->
            source_known nodes (source_node_id l) (source_port_id l).
Proof.
  unfold generate_nodes. intros H.
  refine (@for_each_invariant _ _
            (fun (nodes : list node) (s : conv) =>
               forall l, In l (links s) ->
                         source_known nodes (source_node_id l)
                                      (source_port_id l))
            _ _ _ _ _ _ _ _ H).
  - intros device acc s acc' s' _ HI Hstep.
    apply mbind_ok in Hstep as (dev & s1 & E & Hstep).
    apply lift_ok in E as [_ ->].
    apply mbind_ok in Hstep as (n & s2 & En & Hstep).
    apply ret_ok in Hstep as [-> ->].
    destruct (generate_node_links _ _ _ _ _ En) as (new & Hl & Hnew).
    intros l Hin. rewrite Hl in Hin. apply source_known_more.
    apply in_app_iff in Hin as [Hin|Hin]; auto.
  - intros l [].
Qed.

End NodesLinks.

(** ** C3: the invariant of the finalized links *)

(** C3, as stated, fails: the Link of the router whose interface names
    the missing device "R9" is in the finalized list with null
    destination ids, which name no port. *)
Lemma dangling_link_breaks_invariant :
  exists ls nodes',
    convert sample_catalog dangling_router hv_c7200 = Ok (ls, nodes') /\
    ls = [mk_link None None 1 1 (Some 1%Z)] /\
    ~ link_invariant nodes' ls.
Proof.
  eexists. eexists. split; [vm_compute; reflexivity|].
  split; [reflexivity|].
  intros [H _]. destruct (H _ (or_introl eq_refl)) as [_ Hd].
  destruct Hd as (n & ports & p & _ & _ & _ & Hn & _). discriminate Hn.
Qed.

(** C3, amended: on the nodes and symbolic links of [generate_nodes],
    every finalized Link has as source one of the nodes and one of its
    ports, or the port id 0 of an interface that was not found; its
    destination is null, or one of the nodes with a null port id, or one
    of the nodes and one of its ports; the finalizer changes nothing of
    the nodes but the link back-references; and when the resolved
    declarations are consistent with a cabling, no two Links of the list
    have the same unordered pair of ends. *)
Theorem finalized_links_invariant cat py_int devices hvs nodes self ls nodes' :
  generate_nodes cat py_int devices hvs init_conv = Ok (nodes, self) ->
  generate_links cat nodes self = Ok (ls, nodes') ->
  map node_without_link_ids nodes' = map node_without_link_ids nodes /\
  (forall r, In r ls ->
     source_known nodes (lk_source_node_id r) (lk_source_port_id r) /\
     destination_known nodes (destination_node_id r)
                       (destination_port_id r)) /\
  (forall rs,
      resolve_links cat nodes (links self) = Ok rs -> consistent rs ->
      forall j k a b,
        j <> k -> nth_error ls j = Some a -> nth_error ls k = Some b ->
        ~ same_cable a b).
Proof.
  intros Hnodes Hlinks.
  split; [eapply generate_links_frame; eauto|].
  unfold generate_links in Hlinks.
  apply bind_ok in Hlinks as (rs & Hrs & Hloop).
  split.
  - intros r Hr.
    destruct (dedup_loop_origin _ _ _ _ _ _ _ r Hloop Hr) as (y & Hy & E).
    destruct (resolve_links_origin _ _ _ _ y Hrs Hy) as (l & Hl & Ey).
    unfold resolve_link in Ey.
    apply bind_ok in Ey as (port_name & _ & Ey).
    apply bind_ok in Ey as ([dn dp] & Ec & Ey). injection Ey as <-.
    unfold ends, source_of, destination_of in E. cbn in E.
    injection E as -> -> -> ->.
    split; [eapply generate_nodes_links; eauto|].
    destruct (convert_destination_exists _ _ _ _ _ Ec)
      as [[-> ->]|(n & ports & Hn & -> & Hp & Hdp)].
    + now left.
    + right. exists n, ports. repeat split; auto.
      destruct Hdp as [->|(p & Hin & _ & ->)]; [now left | right; eauto].
  - intros rs' Hrs' Hcons j k a b Hjk Hj Hk Hsame.
    rewrite Hrs in Hrs'. injection Hrs' as <-.
    assert (Hclear : processed_clear 0 rs) by (intros ? ? ? ?; lia).
    assert (Hfuel : (List.length rs - 0 <= List.length rs)%nat) by lia.
    destruct (dedup_loop_consistent _ _ _ _ _ _ _ Hfuel Hcons Hclear Hloop)
      as ((Hnd & _ & _) & Hnone & _).
    destruct Hsame as [[Hs _]|[Hp _]].
    + apply Hjk. eapply NoDup_map_nth; eauto.
    + apply (Hnone b a); eauto using nth_error_In.
Qed.

Lemma finalized_links_invariant_witness :
  exists nodes self ls nodes',
    generate_nodes sample_catalog int_of_digits two_clouds [] init_conv
    = Ok (nodes, self) /\
    generate_links sample_catalog nodes self = Ok (ls, nodes') /\
    (map node_without_link_ids nodes' = map node_without_link_ids nodes /\
     (forall r, In r ls ->
        source_known nodes (lk_source_node_id r) (lk_source_port_id r) /\
        destination_known nodes (destination_node_id r)
                          (destination_port_id r)) /\
     (forall rs,
         resolve_links sample_catalog nodes (links self) = Ok rs ->
         consistent rs ->
         forall j k a b,
           j <> k -> nth_error ls j = Some a -> nth_error ls k = Some b ->
           ~ same_cable a b)).
Proof.
  do 4 eexists. split; [vm_compute; reflexivity|].
  split; [vm_compute; reflexivity|].
  eapply (finalized_links_invariant sample_catalog int_of_digits two_clouds []).
  - vm_compute. reflexivity.
  - vm_compute. reflexivity.
Defined.
(* ================================================================= *)
(** ** The section processor *)

Lemma get_In V k (d : dict V) v : get k d = Some v -> In (k, v) d.
Proof.
  induction d as [|[k' v'] d IH]; cbn; [discriminate|].
  destruct (String.eqb k k') eqn:E.
  - intros [= ->]. apply String.eqb_eq in E as ->. now left.
  - intros H. right. auto.
Qed.

Lemma get_hv_set_hv k k' v h :
  get_hv k (set_hv k' v h) = if Z.eqb k k' then Some v else get_hv k h.
Proof.
  induction h as [|[k0 v0] h IH]; cbn.
  - destruct (Z.eqb k k'); reflexivity.
  - destruct (Z.eqb k' k0) eqn:E0; cbn.
    + apply Z.eqb_eq in E0 as <-. destruct (Z.eqb k k'); reflexivity.
    + destruct (Z.eqb k k0) eqn:E1.
      * apply Z.eqb_eq in E1 as ->. rewrite Z.eqb_sym, E0. reflexivity.
      * exact IH.
Qed.

Lemma for_each_r_invariant A S (I : S -> Prop) (xs : list A)
      (body : A -> S -> result S) :
  (forall x acc acc', In x xs -> I acc -> body x acc = Ok acc' -> I acc') ->
  forall acc acc', I acc -> for_each_r xs body acc = Ok acc' -> I acc'.
Proof.
  induction xs as [|x xs IH]; intros Hbody acc acc' HI H; cbn in H.
  - now injection H as <-.
  - apply bind_ok in H as (a & E & H).
    apply (IH (fun y p q Hy => Hbody y p q (or_intror Hy)) a acc'); [|exact H].
    apply (Hbody x acc a); [now left | exact HI | exact E].
Qed.

Lemma for_each_r_each A S (xs : list A) (body : A -> S -> result S) acc acc' x :
  for_each_r xs body acc = Ok acc' -> In x xs ->
  exists a a', body x a = Ok a'.
Proof.
  revert acc. induction xs as [|y xs IH]; intros acc H Hx; [destruct Hx|].
  cbn in H. apply bind_ok in H as (a & E & H).
  destruct Hx as [->|Hx]; [now exists acc, a | eauto].
Qed.

Lemma section_of_ok entry sec :
  section_of entry = Ok sec -> entry = TopSection sec \/ sec = [].
Proof.
  destruct entry as [[[z|s|l]|]|s]; cbn; try discriminate.
  - destruct s; [|discriminate]. intros [= <-]. now right.
  - destruct l; [|discriminate]. intros [= <-]. now right.
  - intros [= ->]. now left.
Qed.

(** What holds at the start and is kept by every round on an item holds
    of the state the instance loop ends in; the round of the [k]-th
    instance runs with [hv_id = k]. *)
Lemma process_instances_invariant (I : topology_state -> Prop) old_top all :
  (forall k instance sec item st st',
      nth_error all k = Some instance ->
      get instance old_top = Some (TopSection sec) ->
      In item (keys sec) -> I st ->
      process_item instance sec (Z.of_nat k) item st = Ok st' -> I st') ->
  forall rest done st st',
    all = done ++ rest -> I st ->
    process_instances old_top rest (Z.of_nat (List.length done)) st = Ok st' ->
    I st'.
Proof.
  intros Hstep. induction rest as [|instance rest IH];
    intros done st st' Hall HI H; cbn in H.
  - now injection H as <-.
  - apply bind_ok in H as (st1 & E & H).
    apply (IH (done ++ [instance]) st1 st').
    + rewrite <- app_assoc. exact Hall.
    + unfold process_instance in E.
      apply bind_ok in E as (entry & Eentry & E).
      apply bind_ok in E as (sec & Esec & E).
      apply section_of_ok in Esec as [-> | ->].
      * revert E. apply for_each_r_invariant; [|exact HI].
        intros item acc acc' Hitem Hacc Hrun.
        apply (Hstep (List.length done) instance sec item acc acc'); auto.
        -- rewrite Hall, nth_error_app2, Nat.sub_diag by lia. reflexivity.
        -- unfold getitem in Eentry. destruct (get instance old_top);
             [now injection Eentry as -> | discriminate].
        -- exact (proj1 (In_sorted _ _) Hitem).
      * cbn in E. now injection E as <-.
    + rewrite length_app. cbn. rewrite Nat.add_1_r, Nat2Z.inj_succ.
      unfold Z.succ. exact H.
Qed.

Lemma process_instances_each old_top rest hv_id st st' instance :
  process_instances old_top rest hv_id st = Ok st' -> In instance rest ->
  exists h a a', process_instance old_top instance h a = Ok a'.
Proof.
  revert hv_id st. induction rest as [|y rest IH]; intros hv_id st H Hin;
    [destruct Hin|].
  cbn in H. apply bind_ok in H as (a & E & H).
  destruct Hin as [->|Hin]; [now exists hv_id, st, a | eauto].
Qed.

(** The three ways a round on an item can end well. *)
Lemma process_item_ok instance sec hv_id item st st' :
  process_item instance sec hv_id item st = Ok st' ->
  (exists v, get item sec = Some (Scalar v) /\ st' = st) \/
  (exists b model c,
      get item sec = Some (Block b) /\
      get item model_transform = Some model /\
      copy_items (sorted (keys b)) b [("model", VStr model)] = Ok c /\
      st' = mk_topology_state (ts_devices st) (set_hv hv_id c (ts_conf st))
                              (ts_nid st)) \/
  (exists b name dt d0 d,
      get item sec = Some (Block b) /\
      mem item model_transform = false /\
      device_typename item = Ok (name, dt) /\
      copy_items (sorted (keys b)) b (new_device instance hv_id (ts_nid st) dt)
      = Ok d0 /\
      set_router_model instance hv_id (ts_conf st) d0 = Ok d /\
      st' = mk_topology_state (Py.set name d (ts_devices st)) (ts_conf st)
                              (ts_nid st + 1)).
Proof.
  unfold process_item. intros H.
  apply bind_ok in H as (value & E & H).
  unfold getitem in E. destruct (get item sec) as [v0|] eqn:G; [|discriminate].
  cbn in E. injection E as ->.
  destruct value as [v|b].
  - left. injection H as <-. now exists v.
  - destruct (mem item model_transform) eqn:Em.
    + right; left.
      apply bind_ok in H as (model & E1 & H).
      apply bind_ok in H as (c & E2 & H).
      injection H as <-. exists b, model, c. repeat split; auto.
      unfold getitem in E1. destruct (get item model_transform);
        [now injection E1 as -> | discriminate].
    + right; right.
      apply bind_ok in H as ([name dt] & E1 & H).
      apply bind_ok in H as (d0 & E2 & H).
      apply bind_ok in H as (d & E3 & H).
      injection H as <-. exists b, name, dt, d0, d. repeat split; auto.
Qed.

Lemma copy_items_cases s_items b target d k :
  copy_items s_items b target = Ok d ->
  get k d = get k target \/
  exists v, In k s_items /\ get k b = Some (Some v) /\ get k d = Some v.
Proof.
  revert target. induction s_items as [|s rest IH]; intros target H; cbn in H.
  - injection H as <-. now left.
  - apply bind_ok in H as (v & E & H).
    unfold getitem in E. destruct (get s b) as [v0|] eqn:G; [|discriminate].
    cbn in E. injection E as ->.
    destruct (IH _ H) as [Hk | (x & Hin & Hb & Hd)].
    + destruct v as [x|]; [|now left].
      rewrite get_set in Hk. destruct (String.eqb k s) eqn:Eks.
      * apply String.eqb_eq in Eks as ->. right. exists x.
        repeat split; auto. now left.
      * now left.
    + right. exists x. repeat split; auto. now right.
Qed.

Lemma copy_items_other s_items b target d k :
  copy_items s_items b target = Ok d ->
  has_value k b = false -> get k d = get k target.
Proof.
  intros H Hk. destruct (copy_items_cases _ _ _ _ k H) as [E | (v & _ & Hb & _)];
    [exact E|].
  unfold has_value in Hk. rewrite Hb in Hk. discriminate.
Qed.

Lemma copy_items_copied s_items b target d k v :
  copy_items s_items b target = Ok d ->
  In k s_items -> get k b = Some (Some v) -> get k d = Some v.
Proof.
  revert target. induction s_items as [|s rest IH]; intros target H Hin Hb;
    [destruct Hin|].
  cbn in H. apply bind_ok in H as (v0 & E & H).
  destruct (in_dec String.string_dec k rest) as [Hr|Hr]; [eauto|].
  destruct Hin as [->|Hin]; [|contradiction].
  unfold getitem in E. rewrite Hb in E. cbn in E. injection E as <-.
  destruct (copy_items_cases _ _ _ _ k H) as [E | (x & Hin & _)];
    [|contradiction].
  rewrite E, get_set, String.eqb_refl. reflexivity.
Qed.

Lemma set_router_model_other instance hv_id conf d d' k :
  set_router_model instance hv_id conf d = Ok d' ->
  k <> "model" -> get k d' = get k d.
Proof.
  unfold set_router_model. intros H Hk.
  assert (Hs : forall v, get k (Py.set "model" v d) = get k d).
  { intros v. rewrite get_set.
    destruct (String.eqb k "model") eqn:E; [|reflexivity].
    apply String.eqb_eq in E. contradiction. }
  destruct (negb (String.eqb instance "GNS3-DATA")); [|now injection H as <-].
  apply bind_ok in H as (type & _ & H).
  destruct (is_str type "Router"); [|now injection H as <-].
  destruct (negb (mem "model" d)).
  - apply bind_ok in H as (hv & _ & H). apply bind_ok in H as (m & _ & H).
    injection H as <-. apply Hs.
  - apply bind_ok in H as (m0 & _ & H). apply bind_ok in H as (m & _ & H).
    injection H as <-. apply Hs.
Qed.

Lemma blocks_of_In old_top instance sec item b :
  get instance old_top = Some (TopSection sec) ->
  get item sec = Some (Block b) ->
  In (item, b) (blocks_of old_top).
Proof.
  intros H1 H2. apply get_In in H1, H2. unfold blocks_of.
  apply in_flat_map. exists (instance, TopSection sec). split; [exact H1|].
  cbn. apply in_flat_map. exists (item, Block b). split; [exact H2|].
  now left.
Qed.

Lemma new_device_node_id instance hv_id nid dt :
  get "node_id" (new_device instance hv_id nid dt) = Some (VInt nid).
Proof.
  unfold new_device. destruct (negb (String.eqb instance "GNS3-DATA"));
    reflexivity.
Qed.

Lemma new_device_type instance hv_id nid dt :
  get "type" (new_device instance hv_id nid dt) = Some (VStr (dt_type dt)).
Proof.
  unfold new_device. destruct (negb (String.eqb instance "GNS3-DATA"));
    reflexivity.
Qed.

Lemma get_instances_not_data (ip_address : string -> bool) V (config : dict V) :
  ~ In "GNS3-DATA" (get_instances ip_address config).
Proof.
  unfold get_instances. intros H.
  apply In_get_instances_loop in H as [[]|[_ H]].
  discriminate H.
Qed.

Lemma get_range V k (d : dict V) v : get k d = Some v -> In v (map snd d).
Proof.
  intros H. apply get_In in H. now apply (in_map snd) in H.
Qed.

Lemma model_transform_canonical k m :
  get k model_transform = Some m -> In m canonical_models.
Proof.
  intros H. apply get_range in H. cbn in H. unfold canonical_models.
  repeat (destruct H as [<-|H]; [cbn; tauto|]). destruct H.
Qed.

Lemma set_router_model_router instance hv_id conf d0 d :
  instance <> "GNS3-DATA" ->
  set_router_model instance hv_id conf d0 = Ok d ->
  get "type" d0 = Some (VStr "Router") ->
  (exists hv m, get "model" d0 = None /\ get_hv hv_id conf = Some hv /\
                get "model" hv = Some m /\ get "model" d = Some m) \/
  (exists m0 m, get "model" d0 = Some (VStr m0) /\
                get m0 model_transform = Some m /\
                get "model" d = Some (VStr m)).
Proof.
  unfold set_router_model. intros Hi H Ht.
  apply String.eqb_neq in Hi. rewrite Hi in H. cbn in H.
  unfold getitem at 1 in H. rewrite Ht in H. cbn in H.
  unfold mem in H. destruct (get "model" d0) as [v|] eqn:Em; cbn in H.
  - right. unfold getitem in H. rewrite Em in H. cbn in H.
    apply bind_ok in H as (m & E & H). injection H as <-.
    destruct v as [z|m0|l]; try discriminate. cbn in E.
    unfold getitem in E. destruct (get m0 model_transform) eqn:G;
      [|discriminate].
    injection E as ->. exists m0, m. repeat split; auto.
    now rewrite get_set.
  - left. apply bind_ok in H as (hv & E1 & H).
    apply bind_ok in H as (m & E2 & H). injection H as <-.
    destruct (get_hv hv_id conf) eqn:G; [|discriminate].
    injection E1 as ->. unfold getitem in E2.
    destruct (get "model" hv) eqn:G2; [|discriminate]. injection E2 as ->.
    exists hv, m. repeat split; auto.
    now rewrite get_set.
Qed.

Lemma process_instances_node_ids old_top all :
  no_device_entry "node_id" old_top = true ->
  forall st st',
    node_ids_fresh st ->
    process_instances old_top all 0 st = Ok st' ->
    node_ids_fresh st'.
Proof.
  intros Hno st st' HI H.
  apply (process_instances_invariant node_ids_fresh old_top all)
    with (rest := all) (done := []) (st := st); auto.
  clear st st' HI H.
  intros k instance sec item st st' _ Hsec _ (Hn & Hid & Hinj) H.
  apply process_item_ok in H
    as [(v & _ & ->) | [(b & model & c & _ & _ & _ & ->) |
                        (b & name & dt & d0 & d & Hb & Hm & _ & Hc & Hr & ->)]];
    [now split | now split |].
  assert (Hd : get "node_id" d = Some (VInt (ts_nid st))).
  { rewrite (set_router_model_other _ _ _ _ _ "node_id" Hr) by discriminate.
    rewrite (copy_items_other _ _ _ _ "node_id" Hc).
    - apply new_device_node_id.
    - unfold no_device_entry in Hno. rewrite forallb_forall in Hno.
      specialize (Hno _ (blocks_of_In _ _ _ _ _ Hsec Hb)). cbn in Hno.
      rewrite Hm in Hno. cbn in Hno. now apply negb_true_iff in Hno. }
  unfold node_ids_fresh. cbn [ts_devices ts_conf ts_nid].
  split; [lia|]. split.
  - intros n x. rewrite get_set. destruct (String.eqb n name).
    + intros [= <-]. exists (ts_nid st). split; [exact Hd | lia].
    + intros G. destruct (Hid _ _ G) as (j & Hj & Hr'). exists j.
      split; [exact Hj | lia].
  - intros n1 n2 x1 x2. rewrite !get_set.
    destruct (String.eqb n1 name) eqn:E1, (String.eqb n2 name) eqn:E2.
    + apply String.eqb_eq in E1, E2. congruence.
    + intros [= <-] G. rewrite Hd. intros E.
      destruct (Hid _ _ G) as (j & Hj & Hr'). rewrite Hj in E.
      injection E as E. lia.
    + intros G [= <-]. rewrite Hd. intros E.
      destruct (Hid _ _ G) as (j & Hj & Hr'). rewrite Hj in E.
      injection E as E. lia.
    + apply Hinj.
Qed.

(** X1 ([process_topology]): when no device subsection has an entry
    ['node_id'] of its own, the devices returned carry node ids that are
    integers from 1 on and differ from device to device. *)
Theorem process_topology_node_ids_distinct sections old_top devices conf :
  no_device_entry "node_id" old_top = true ->
  process_topology sections old_top = Ok (devices, conf) ->
  forall name1 name2 d1 d2,
    get name1 devices = Some d1 -> get name2 devices = Some d2 ->
    name1 <> name2 ->
    exists k1 k2,
      get "node_id" d1 = Some (VInt k1) /\ get "node_id" d2 = Some (VInt k2) /\
      (1 <= k1)%Z /\ (1 <= k2)%Z /\ k1 <> k2.
Proof.
  intros Hno H name1 name2 d1 d2 G1 G2 Hne.
  unfold process_topology in H. apply bind_ok in H as (st & E & H).
  injection H as <- <-.
  apply (process_instances_node_ids _ _ Hno) in E as (_ & Hid & Hinj).
  - destruct (Hid _ _ G1) as (k1 & H1 & R1).
    destruct (Hid _ _ G2) as (k2 & H2 & R2).
    exists k1, k2. repeat split; try lia; auto.
    intros ->. apply Hne, (Hinj _ _ _ _ G1 G2). congruence.
  - repeat split; cbn; try lia; discriminate.
Qed.

Lemma process_topology_node_ids_distinct_witness :
  exists devices conf,
    process_topology ["127.0.0.1:7200"; "127.0.0.1:7201"; "GNS3-DATA"]
                     sample_topology = Ok (devices, conf) /\
    forall name1 name2 d1 d2,
      get name1 devices = Some d1 -> get name2 devices = Some d2 ->
      name1 <> name2 ->
      exists k1 k2,
        get "node_id" d1 = Some (VInt k1) /\ get "node_id" d2 = Some (VInt k2) /\
        (1 <= k1)%Z /\ (1 <= k2)%Z /\ k1 <> k2.
Proof.
  eexists. eexists. split; [vm_compute; reflexivity|].
  eapply (process_topology_node_ids_distinct
            ["127.0.0.1:7200"; "127.0.0.1:7201"; "GNS3-DATA"] sample_topology);
    vm_compute; reflexivity.
Defined.

Lemma no_chassis_entry_In key old_top instance sec item b :
  no_chassis_entry key old_top = true ->
  get instance old_top = Some (TopSection sec) ->
  get item sec = Some (Block b) ->
  mem item model_transform = true ->
  has_value key b = false.
Proof.
  intros Hno Hsec Hb Hm. unfold no_chassis_entry in Hno.
  rewrite forallb_forall in Hno.
  specialize (Hno _ (blocks_of_In _ _ _ _ _ Hsec Hb)). cbn in Hno.
  rewrite Hm in Hno. cbn in Hno. now apply negb_true_iff in Hno.
Qed.

Lemma mem_get V k (d : dict V) v : get k d = Some v -> mem k d = true.
Proof. unfold mem. now intros ->. Qed.

Lemma process_instances_models old_top all :
  no_chassis_entry "model" old_top = true ->
  ~ In "GNS3-DATA" all ->
  forall st st',
    models_canonical st ->
    process_instances old_top all 0 st = Ok st' ->
    models_canonical st'.
Proof.
  intros Hno Hdata st st' HI H.
  apply (process_instances_invariant models_canonical old_top all)
    with (rest := all) (done := []) (st := st); auto.
  clear st st' HI H.
  intros k instance sec item st st' Hk Hsec _ (Hconf & Hdev) H.
  assert (Hi : instance <> "GNS3-DATA").
  { intros ->. apply Hdata. eapply nth_error_In, Hk. }
  apply process_item_ok in H
    as [(v & _ & ->) | [(b & model & c & Hb & Hm & Hc & ->) |
                        (b & name & dt & d0 & d & Hb & Hm & _ & Hc & Hr & ->)]];
    [now split | |]; unfold models_canonical; cbn [ts_devices ts_conf ts_nid].
  - split; [|exact Hdev].
    intros h x. rewrite get_hv_set_hv. destruct (Z.eqb h (Z.of_nat k)); [|apply Hconf].
    intros [= <-]. exists model. split.
    + rewrite (copy_items_other _ _ _ _ "model" Hc); [reflexivity|].
      eapply no_chassis_entry_In; eauto using mem_get.
    + eapply model_transform_canonical, Hm.
  - split; [exact Hconf|].
    intros n x. rewrite get_set. destruct (String.eqb n name); [|apply Hdev].
    intros [= <-] Ht.
    rewrite (set_router_model_other _ _ _ _ _ "type" Hr) in Ht by discriminate.
    destruct (set_router_model_router _ _ _ _ _ Hi Hr Ht)
      as [(hv & m & _ & Hhv & Hmod & Hd) | (m0 & m & _ & Hmod & Hd)].
    + destruct (Hconf _ _ Hhv) as (m' & Hm' & Hin). exists m'.
      split; [congruence | exact Hin].
    + exists m. split; [exact Hd | eapply model_transform_canonical, Hmod].
Qed.

(** X2 ([process_topology] on the sections of [get_instances]): when no
    chassis subsection has a ['model'] entry of its own, every device of
    type Router that is returned has a model, and it is one of the codes
    of [model_transform]. *)
Theorem process_topology_router_models
        (ip_address : string -> bool) old_top devices conf :
  no_chassis_entry "model" old_top = true ->
  process_topology (get_instances ip_address old_top) old_top
  = Ok (devices, conf) ->
  forall name d,
    get name devices = Some d -> get "type" d = Some (VStr "Router") ->
    exists m, get "model" d = Some (VStr m) /\ In m canonical_models.
Proof.
  intros Hno H name d G Ht.
  unfold process_topology in H. apply bind_ok in H as (st & E & H).
  injection H as <- <-.
  apply (process_instances_models _ _ Hno) in E as (_ & Hdev).
  - exact (Hdev _ _ G Ht).
  - intros Hin.
    exact (get_instances_not_data _ _ _ (proj1 (In_sorted _ _) Hin)).
  - split; cbn; discriminate.
Qed.

Lemma process_topology_router_models_witness :
  exists devices conf,
    process_topology (get_instances dotted_quad sample_topology) sample_topology
    = Ok (devices, conf) /\
    forall name d,
      get name devices = Some d -> get "type" d = Some (VStr "Router") ->
      exists m, get "model" d = Some (VStr m) /\ In m canonical_models.
Proof.
  eexists. eexists. split; [vm_compute; reflexivity|].
  eapply (process_topology_router_models dotted_quad sample_topology);
    vm_compute; reflexivity.
Defined.

(** X3 ([process_topology]): a subsection of a listed section whose name
    is neither a chassis of [model_transform] nor starts with one of the
    nine device prefixes (a note or a shape, say) makes the method raise;
    it never returns on such a topology. *)
Theorem process_topology_unknown_block sections old_top instance sec item b :
  In instance sections ->
  get instance old_top = Some (TopSection sec) ->
  get item sec = Some (Block b) ->
  mem item model_transform = false ->
  (forall p, In p prefix_literals -> startswith p item = false) ->
  exists e, process_topology sections old_top = Raise e.
Proof.
  intros Hin Hsec Hb Hm Hp.
  destruct (process_topology sections old_top) as [r|e] eqn:H; [|now exists e].
  exfalso. unfold process_topology in H. apply bind_ok in H as (st & E & _).
  apply (process_instances_each _ _ _ _ _ instance) in E
    as (h & a & a' & E); [|exact (proj2 (In_sorted _ _) Hin)].
  unfold process_instance in E. unfold getitem at 1 in E. rewrite Hsec in E.
  cbn in E.
  apply (for_each_r_each _ _ _ _ _ _ item) in E as (x & x' & E).
  - unfold process_item in E. unfold getitem at 1 in E. rewrite Hb in E.
    cbn in E. rewrite Hm in E.
    apply bind_ok in E as ([name dt] & E & _).
    unfold device_typename in E. apply bind_ok in E as (dt' & E & _).
    destruct (device_typename_type item) eqn:G; [|discriminate].
    apply device_typename_type_closed in G as (_ & Hp' & Hs).
    rewrite (Hp _ Hp') in Hs. discriminate.
  - apply In_sorted, In_keys_get. eauto.
Qed.

Lemma process_topology_unknown_block_witness :
  exists e,
    process_topology ["GNS3-DATA"]
      [("GNS3-DATA",
        TopSection [("NOTE 1", Block [("text", Some (VStr "a note"))])])]
    = Raise e.
Proof.
  apply (process_topology_unknown_block
           ["GNS3-DATA"]
           [("GNS3-DATA",
             TopSection [("NOTE 1", Block [("text", Some (VStr "a note"))])])]
           "GNS3-DATA"
           [("NOTE 1", Block [("text", Some (VStr "a note"))])]
           "NOTE 1" [("text", Some (VStr "a note"))]);
    try reflexivity.
  - now left.
  - intros p Hp. cbn in Hp.
    repeat (destruct Hp as [<-|Hp]; [reflexivity|]). destruct Hp.
Defined.

Lemma process_instances_conf old_top all :
  forall st st',
    (forall h c, get_hv h (ts_conf st) = Some c -> from_chassis old_top all h c) ->
    process_instances old_top all 0 st = Ok st' ->
    forall h c, get_hv h (ts_conf st') = Some c -> from_chassis old_top all h c.
Proof.
  intros st st' HI H.
  apply (process_instances_invariant
           (fun st => forall h c, get_hv h (ts_conf st) = Some c ->
                                  from_chassis old_top all h c) old_top all)
    with (rest := all) (done := []) (st := st); auto.
  clear st st' HI H.
  intros k instance sec item st st' Hk Hsec _ Hconf H.
  apply process_item_ok in H
    as [(v & _ & ->) | [(b & model & c & Hb & Hm & Hc & ->) |
                        (b & name & dt & d0 & d & Hb & Hm & _ & Hc & Hr & ->)]];
    [exact Hconf | | exact Hconf]; cbn [ts_devices ts_conf ts_nid].
  intros h x. rewrite get_hv_set_hv. destruct (Z.eqb h (Z.of_nat k)) eqn:E;
    [|apply Hconf].
  apply Z.eqb_eq in E as ->. intros [= <-].
  exists instance, sec, item, b, model. rewrite Nat2Z.id.
  repeat split; auto; try lia.
  - intros key v G. apply (copy_items_copied _ _ _ _ _ _ Hc); [|exact G].
    apply In_sorted, In_keys_get. eauto.
  - intros Hv. now rewrite (copy_items_other _ _ _ _ "model" Hc Hv).
Qed.

(** X4 ([process_topology]): every hypervisor configuration returned is
    keyed by the position of a listed section in sorted order and stems
    from a chassis subsection of that section: it holds every value of the
    subsection, and the model code [model_transform] has for the chassis
    unless the subsection has a model of its own. *)
Theorem process_topology_conf_from_chassis sections old_top devices conf h c :
  process_topology sections old_top = Ok (devices, conf) ->
  get_hv h conf = Some c ->
  from_chassis old_top (sorted sections) h c.
Proof.
  intros H G. unfold process_topology in H. apply bind_ok in H as (st & E & H).
  injection H as <- <-.
  revert h c G.
  apply (process_instances_conf old_top (sorted sections)
           (mk_topology_state [] [] 1) st); [|exact E].
  cbn. discriminate.
Qed.

Lemma process_topology_conf_from_chassis_witness :
  exists devices conf c,
    process_topology (get_instances dotted_quad sample_topology) sample_topology
    = Ok (devices, conf) /\
    get_hv 1 conf = Some c /\
    from_chassis sample_topology
                 (sorted (get_instances dotted_quad sample_topology)) 1 c.
Proof.
  eexists. eexists. eexists. split; [vm_compute; reflexivity|].
  split; [vm_compute; reflexivity|].
  eapply (process_topology_conf_from_chassis
            (get_instances dotted_quad sample_topology) sample_topology);
    vm_compute; reflexivity.
Defined.

(* ================================================================= *)
(** ** The port id counter *)

Lemma map_seq_shift A (g : nat -> A) a b k :
  map g (seq (a + k) b) = map (fun i => g (a + i)%nat) (seq k b).
Proof.
  revert k. induction b as [|b IH]; intros k; cbn; [reflexivity|].
  f_equal. rewrite <- IH. f_equal. f_equal. lia.
Qed.

Lemma consecutive_app first a b :
  consecutive first (a + b) =
  consecutive first a ++ consecutive (first + Z.of_nat a) b.
Proof.
  unfold consecutive. rewrite seq_app, map_app. f_equal.
  rewrite <- (Nat.add_0_r a) at 1. rewrite Nat.add_0_l.
  rewrite (map_seq_shift _ _ a b 0). apply map_ext. intros i. lia.
Qed.

Lemma consecutive_length first k : List.length (consecutive first k) = k.
Proof. unfold consecutive. now rewrite length_map, length_seq. Qed.

Lemma In_consecutive first k x :
  In x (consecutive first k) <-> (first <= x < first + Z.of_nat k)%Z.
Proof.
  unfold consecutive. rewrite in_map_iff. split.
  - intros (i & <- & Hi). apply in_seq in Hi. lia.
  - intros H. exists (Z.to_nat (x - first)). split; [lia|].
    apply in_seq. lia.
Qed.

Lemma NoDup_consecutive first k : NoDup (consecutive first k).
Proof.
  unfold consecutive. generalize 0%nat as start.
  induction k as [|k IH]; intros start; cbn; constructor; [|apply IH].
  rewrite in_map_iff. intros (i & E & Hi). apply in_seq in Hi. lia.
Qed.

Lemma fresh_nil s : fresh_from (port_id s) [] s.
Proof. split; cbn; [reflexivity | lia]. Qed.

Lemma fresh_state first ports s s' :
  fresh_from first ports s -> port_id s' = port_id s ->
  fresh_from first ports s'.
Proof. intros [H1 H2] E. split; [exact H1 | congruence]. Qed.

Lemma fresh_app first ports more s s' :
  fresh_from first ports s -> fresh_from (port_id s) more s' ->
  fresh_from first (ports ++ more) s'.
Proof.
  intros [H1 H2] [H3 H4]. split.
  - rewrite map_app, length_app, consecutive_app, H1, H3, H2. reflexivity.
  - rewrite length_app, H4, H2. lia.
Qed.

Lemma fresh_snoc first ports p s s' :
  fresh_from first ports s -> p_id p = port_id s ->
  port_id s' = (port_id s + 1)%Z ->
  fresh_from first (ports ++ [p]) s'.
Proof.
  intros H Hp Hs. apply (fresh_app _ _ _ s); [exact H|].
  split; cbn; [|lia]. unfold consecutive. cbn. rewrite Hp. f_equal. lia.
Qed.

Lemma next_port_id_ok s id s' :
  next_port_id s = Ok (id, s') ->
  id = port_id s /\ port_id s' = (port_id s + 1)%Z.
Proof. unfold next_port_id. intros [= <- <-]. now cbn. Qed.

Section PortIds.

Variable cat : catalog.
Variable py_int : string -> option Z.
Variable hvs : hypervisors.

(** The ports of the motherboard take the next ids. *)
Lemma calc_mb_ports_fresh model chassis s ports s' :
  calc_mb_ports cat model chassis s = Ok (ports, s') ->
  fresh_from (port_id s) ports s'.
Proof.
  unfold calc_mb_ports. intros H.
  apply mbind_ok in H as (bc & s1 & E & H). apply lift_ok in E as [_ ->].
  apply mbind_ok in H as (e & s1 & E & H). apply lift_ok in E as [_ ->].
  cbv zeta in H. destruct (0 <? e_ports e)%Z.
  - apply mbind_ok in H as (ty & s1 & E & H). apply lift_ok in E as [_ ->].
    refine (@for_each_invariant _ _
              (fun (ports : list port) (s1 : conv) =>
                 fresh_from (port_id s) ports s1) _ _ _ _ _ _ _ _ H).
    + intros i acc s1 acc' s2 _ Hacc Hb.
      apply mbind_ok in Hb as (long & s3 & E & Hb). apply lift_ok in E as [_ ->].
      apply mbind_ok in Hb as (id & s3 & E & Hb).
      apply next_port_id_ok in E as [-> E]. apply ret_ok in Hb as [-> ->].
      now apply (fresh_snoc _ _ _ s1).
    + apply fresh_nil.
  - apply ret_ok in H as [-> ->]. apply fresh_nil.
Qed.

(** The ports of a card take the next ids. *)
Lemma calc_slot_ports_fresh adapter slot s ports s' :
  calc_slot_ports cat adapter slot s = Ok (ports, s') ->
  fresh_from (port_id s) ports s'.
Proof.
  unfold calc_slot_ports. intros H.
  apply mbind_ok in H as (e & s1 & E & H). apply lift_ok in E as [_ ->].
  cbv zeta in H.
  apply mbind_ok in H as (ty & s1 & E & H). apply lift_ok in E as [_ ->].
  refine (@for_each_invariant _ _
            (fun (ports : list port) (s1 : conv) =>
               fresh_from (port_id s) ports s1) _ _ _ _ _ _ _ _ H).
  - intros i acc s1 acc' s2 _ Hacc Hb.
    apply mbind_ok in Hb as (long & s3 & E & Hb). apply lift_ok in E as [_ ->].
    apply mbind_ok in Hb as (st & s3 & E & Hb). apply lift_ok in E as [_ ->].
    cbv zeta in Hb.
    apply mbind_ok in Hb as (id & s3 & E & Hb).
    apply next_port_id_ok in E as [-> E]. apply ret_ok in Hb as [-> ->].
    now apply (fresh_snoc _ _ _ s1).
  - apply fresh_nil.
Qed.

Lemma calc_cloud_connection_fresh connection s p nio s' :
  calc_cloud_connection connection s = Ok ((p, nio), s') ->
  p_id p = port_id s /\ port_id s' = (port_id s + 1)%Z.
Proof.
  unfold calc_cloud_connection. intros H. cbv zeta in H.
  apply mbind_ok in H as (f2 & s1 & E & H). apply lift_ok in E as [_ ->].
  apply mbind_ok in H as (f3 & s1 & E & H). apply lift_ok in E as [_ ->].
  apply mbind_ok in H as (id & s1 & E & H).
  apply next_port_id_ok in E as [-> E]. apply ret_ok in H as [[= -> ->] ->].
  now cbn.
Qed.

Lemma calc_ethsw_port_fresh port_num port_def s p destination s' :
  calc_ethsw_port py_int port_num port_def s = Ok ((p, destination), s') ->
  p_id p = port_id s /\ port_id s' = (port_id s + 1)%Z.
Proof.
  unfold calc_ethsw_port. intros H.
  apply mbind_ok in H as (text & s1 & E & H). apply lift_ok in E as [_ ->].
  cbv zeta in H.
  apply mbind_ok in H as (dest & s1 & E & H). apply lift_ok in E as [_ ->].
  apply mbind_ok in H as (number & s1 & E & H). apply lift_ok in E as [_ ->].
  apply mbind_ok in H as (type & s1 & E & H). apply lift_ok in E as [_ ->].
  apply mbind_ok in H as (vt & s1 & E & H). apply lift_ok in E as [_ ->].
  apply mbind_ok in H as (vlan & s1 & E & H). apply lift_ok in E as [_ ->].
  apply mbind_ok in H as (id & s1 & E & H).
  apply next_port_id_ok in E as [-> E]. apply ret_ok in H as [[= -> ->] ->].
  now cbn.
Qed.

Lemma router_ports_fresh model t s ports props s' :
  router_ports cat model t s = Ok ((ports, props), s') ->
  fresh_from (port_id s) ports s'.
Proof.
  unfold router_ports. intros H.
  apply mbind_ok in H as (mb & s1 & Emb & H).
  apply mbind_ok in H as (ps & s2 & Eslots & H).
  apply calc_mb_ports_fresh in Emb.
  assert (Hps : fresh_from (port_id s) ps s2).
  { refine (@for_each_invariant _ _
              (fun (ports : list port) (s1 : conv) =>
                 fresh_from (port_id s) ports s1) _ _ _ _ _ _ _ Emb Eslots).
    intros item acc s3 acc' s4 _ Hacc Hb. unfold slot_step in Hb.
    destruct (startswith "slot" item).
    - apply mbind_ok in Hb as (slot & s5 & E & Hb). apply lift_ok in E as [_ ->].
      apply mbind_ok in Hb as (ad & s5 & E & Hb). apply lift_ok in E as [_ ->].
      apply mbind_ok in Hb as (more & s5 & E & Hb).
      apply ret_ok in Hb as [-> ->].
      apply (fresh_app _ _ _ s3); [exact Hacc|].
      now apply calc_slot_ports_fresh in E.
    - now apply ret_ok in Hb as [-> ->]. }
  unfold default_ports in H.
  repeat match type of H with
         | (if ?c then _ else _) _ = Ok _ => destruct c
         end;
    try (apply ret_ok in H as [[= -> ->] ->]; exact Hps);
    apply mbind_ok in H as (more & s3 & E & H);
    apply ret_ok in H as [[= -> ->] ->];
    (apply (fresh_app _ _ _ s2); [exact Hps|]);
    now apply calc_slot_ports_fresh in E.
Qed.

Lemma cloud_ports_fresh connections s ports nios s' :
  cloud_ports connections s = Ok ((ports, nios), s') ->
  fresh_from (port_id s) ports s'.
Proof.
  unfold cloud_ports. intros H.
  apply mbind_ok in H as (c & s1 & E & H). apply lift_ok in E as [_ ->].
  apply mbind_ok in H as (text & s1 & E & H). apply lift_ok in E as [_ ->].
  refine (@for_each_invariant _ _
            (fun (acc : list port * list string) (s1 : conv) =>
               fresh_from (port_id s) (fst acc) s1) _ _ _ _ _ _ _ _ H).
  - intros conn acc s1 acc' s2 _ Hacc Hb.
    apply mbind_ok in Hb as ([p nio] & s3 & E & Hb).
    apply ret_ok in Hb as [-> ->]. cbn.
    apply calc_cloud_connection_fresh in E as [E1 E2].
    now apply (fresh_snoc _ _ _ s1).
  - apply fresh_nil.
Qed.

Lemma router_links_port_id node_id ports interfaces s u s' :
  router_links cat node_id ports interfaces s = Ok (u, s') ->
  port_id s' = port_id s.
Proof.
  unfold router_links. intros H.
  apply mbind_ok in H as (conns & s1 & E & H). apply lift_ok in E as [_ ->].
  refine (@for_each_invariant _ _
            (fun (_ : unit) (s1 : conv) => port_id s1 = port_id s)
            _ _ _ _ _ _ _ _ H); [|reflexivity].
  intros c a s2 a' s2' _ Hacc Hstep.
  apply mbind_ok in Hstep as (l & s3 & El & Happ).
  apply lift_ok in El as [El ->].
  unfold append_link in Happ. now injection Happ as _ <-.
Qed.

(** A round of the item loop leaves the counter and the port list alone,
    or appends one port with the next id. *)
Lemma item_step_port_id dev node_id type model item t s t' s' :
  item_step py_int hvs dev node_id type model item t s = Ok (t', s') ->
  (port_id s' = port_id s /\ nt_ports t' = nt_ports t) \/
  (exists ports p,
      nt_ports t = Some ports /\ nt_ports t' = Some (ports ++ [p]) /\
      p_id p = port_id s /\ port_id s' = (port_id s + 1)%Z).
Proof.
  intros H. unfold item_step in H.
  apply mbind_ok in H as (value & s0 & Evalue & H).
  apply lift_ok in Evalue as [Evalue ->].
  repeat match type of H with
         | (if ?c then _ else _) _ = Ok _ => destruct c eqn:?
         end;
    try (apply ret_ok in H as [-> ->]; left; now cbn).
  - apply lift_ok in H as [H ->]. left. split; [reflexivity|].
    unfold item_hv_id in H.
    apply bind_ok in H as (hv & _ & H).
    apply bind_ok in H as (image & _ & H).
    apply bind_ok in H as (image_text & _ & H).
    now injection H as <-.
  - apply mbind_ok in H as ([port_def destination] & s1 & Eport & H).
    apply mbind_ok in H as (ports & s2 & Eports & H).
    apply lift_ok in Eports as [Eports ->].
    apply mbind_ok in H as (u & s3 & Eapp & H).
    apply ret_ok in H as [-> ->].
    apply calc_ethsw_port_fresh in Eport as [E1 E2].
    right. exists ports, port_def.
    destruct (nt_ports t); [|discriminate]. injection Eports as ->.
    unfold append_link in Eapp. injection Eapp as _ <-. now cbn.
Qed.

Lemma item_loop_port_id dev node_id type model t0 s t s' :
  for_each (sorted (keys dev))
           (item_step py_int hvs dev node_id type model) t0 s = Ok (t, s') ->
  (nt_ports t0 = None \/ nt_ports t0 = Some []) ->
  (nt_ports t0 = None -> nt_ports t = None) /\
  match nt_ports t with
  | None => port_id s' = port_id s
  | Some ports => fresh_from (port_id s) ports s'
  end.
Proof.
  intros Hloop Hstart.
  refine (@for_each_invariant _ _
            (fun (t : node_temp) (s1 : conv) =>
               (nt_ports t0 = None -> nt_ports t = None) /\
               match nt_ports t with
               | None => port_id s1 = port_id s
               | Some ports => fresh_from (port_id s) ports s1
               end)
            _ _ _ _ _ _ _ _ Hloop).
  - intros item a s1 a' s1' _ (Hnone & Hinv) Hstep.
    destruct (item_step_port_id _ _ _ _ _ _ _ _ _ Hstep)
      as [[El Ep]|(ports & p & Ep & Ep' & E1 & E2)].
    + rewrite Ep. split; [exact Hnone|].
      destruct (nt_ports a); [now apply (fresh_state _ _ s1) | congruence].
    + rewrite Ep'. rewrite Ep in Hinv.
      split; [intros H0; rewrite (Hnone H0) in Ep; discriminate|].
      now apply (fresh_snoc _ _ _ s1).
  - split; [auto|]. destruct Hstart as [->| ->]; [reflexivity | apply fresh_nil].
Qed.

(** The ports of a node take the next ids. *)
Lemma generate_node_fresh device dev s n s' :
  generate_node cat py_int hvs device dev s = Ok (n, s') ->
  fresh_from (port_id s) (ports_of n) s'.
Proof.
  intros H. unfold generate_node in H.
  apply mbind_ok in H as (nid & s0 & E & H). apply lift_ok in E as [_ ->].
  apply mbind_ok in H as (node_id & s0 & E & H). apply lift_ok in E as [_ ->].
  apply mbind_ok in H as (x & s0 & E & H). apply lift_ok in E as [_ ->].
  apply mbind_ok in H as (y & s0 & E & H). apply lift_ok in E as [_ ->].
  apply mbind_ok in H as (type & s0 & E & H). apply lift_ok in E as [_ ->].
  cbv zeta in H.
  apply mbind_ok in H as (t & s1 & Eloop & H).
  apply item_loop_port_id in Eloop as [Hnone Hloop];
    [|cbn; destruct (is_str type "EthernetSwitch"); auto].
  cbn [nt_ports] in Hnone.
  assert (Hstart : is_str type "EthernetSwitch" = false ->
                   port_id s1 = port_id s).
  { intros Hno. rewrite Hno in Hnone. now rewrite (Hnone eq_refl) in Hloop. }
  destruct (is_str type "Router") eqn:Er; [|destruct (is_str type "Cloud") eqn:Ec].
  - apply is_str_eq in Er as ->. specialize (Hstart eq_refl).
    apply mbind_ok in H as (model_text & s0 & E & H).
    apply lift_ok in E as [_ ->].
    apply mbind_ok in H as ([ports props] & s2 & Eports & H).
    apply mbind_ok in H as (u & s3 & Elinks & H).
    apply ret_ok in H as [-> ->]. unfold ports_of. cbn.
    apply router_links_port_id in Elinks.
    apply router_ports_fresh in Eports. rewrite Hstart in Eports.
    now apply (fresh_state _ _ s2).
  - apply is_str_eq in Ec as ->. specialize (Hstart eq_refl).
    apply mbind_ok in H as ([ports nios] & s2 & Eports & H).
    apply ret_ok in H as [-> ->]. unfold ports_of. cbn.
    apply cloud_ports_fresh in Eports. now rewrite Hstart in Eports.
  - apply ret_ok in H as [-> ->]. unfold ports_of. cbn.
    destruct (nt_ports t); [exact Hloop|].
    rewrite <- Hloop. apply fresh_nil.
Qed.

End PortIds.

Lemma all_port_ids_app nodes more :
  all_port_ids (nodes ++ more) = all_port_ids nodes ++ all_port_ids more.
Proof. unfold all_port_ids. apply flat_map_app. Qed.

Lemma all_port_ids_single n : all_port_ids [n] = map p_id (ports_of n).
Proof. unfold all_port_ids. cbn. apply app_nil_r. Qed.

(** X5 ([generate_nodes], with [calc_mb_ports], [calc_slot_ports],
    [calc_cloud_connection] and [calc_ethsw_port]): the ids of the ports
    of the nodes, taken node by node in the order of the list, are the
    consecutive integers from the value of [self.port_id] at the call up
    to its value at the return; so no two ports of the topology share an
    id. *)
Theorem generate_nodes_port_ids cat py_int devices hvs s nodes s' :
  generate_nodes cat py_int devices hvs s = Ok (nodes, s') ->
  all_port_ids nodes =
    consecutive (port_id s) (List.length (all_port_ids nodes)) /\
  port_id s' = (port_id s + Z.of_nat (List.length (all_port_ids nodes)))%Z /\
  NoDup (all_port_ids nodes).
Proof.
  unfold generate_nodes. intros H.
  assert (Hinv : all_port_ids nodes =
                   consecutive (port_id s) (List.length (all_port_ids nodes)) /\
                 port_id s' =
                   (port_id s + Z.of_nat (List.length (all_port_ids nodes)))%Z).
  { refine (@for_each_invariant _ _
              (fun (nodes : list node) (s1 : conv) =>
                 all_port_ids nodes =
                   consecutive (port_id s)
                               (List.length (all_port_ids nodes)) /\
                 port_id s1 =
                   (port_id s + Z.of_nat (List.length (all_port_ids nodes)))%Z)
              _ _ _ _ _ _ _ _ H).
    - intros device acc s1 acc' s2 _ [H1 H2] Hb.
      apply mbind_ok in Hb as (dev & s3 & E & Hb). apply lift_ok in E as [_ ->].
      apply mbind_ok in Hb as (n & s3 & E & Hb). apply ret_ok in Hb as [-> ->].
      apply generate_node_fresh in E as [E1 E2].
      rewrite all_port_ids_app, all_port_ids_single.
      rewrite !length_app, length_map, consecutive_app.
      split.
      + rewrite <- H1, <- H2. f_equal. exact E1.
      + rewrite E2, H2. lia.
    - cbn. split; [reflexivity | lia]. }
  destruct Hinv as [H1 H2]. repeat split; auto.
  rewrite H1. apply NoDup_consecutive.
Qed.

Lemma generate_nodes_port_ids_witness :
  exists nodes s',
    generate_nodes sample_catalog int_of_digits two_clouds [] init_conv
    = Ok (nodes, s') /\
    all_port_ids nodes =
      consecutive (port_id init_conv) (List.length (all_port_ids nodes)) /\
    port_id s' =
      (port_id init_conv + Z.of_nat (List.length (all_port_ids nodes)))%Z /\
    NoDup (all_port_ids nodes).
Proof.
  eexists. eexists. split; [vm_compute; reflexivity|].
  apply (generate_nodes_port_ids sample_catalog int_of_digits two_clouds []).
  vm_compute. reflexivity.
Defined.

(* ================================================================= *)
(** ** One node per device *)

Lemma getitem_ok V k (d : dict V) v : getitem k d = Ok v -> get k d = Some v.
Proof.
  unfold getitem. destruct (get k d); [now intros [= ->] | discriminate].
Qed.

Lemma get_set_other V k k' (v : V) d :
  String.eqb k k' = false -> get k (Py.set k' v d) = get k d.
Proof. intros E. now rewrite get_set, E. Qed.

Lemma copy_if_present_other key hv props k :
  String.eqb k key = false ->
  get k (copy_if_present key hv props) = get k props.
Proof.
  intros E. unfold copy_if_present. destruct (get key hv); [|reflexivity].
  now apply get_set_other.
Qed.

Section NodeNames.

Variable cat : catalog.
Variable py_int : string -> option Z.
Variable hvs : hypervisors.

(** No round of the item loop writes the ['name'] property. *)
Lemma item_step_name dev node_id type model item t s t' s' :
  item_step py_int hvs dev node_id type model item t s = Ok (t', s') ->
  get "name" (nt_props t') = get "name" (nt_props t).
Proof.
  intros H. unfold item_step in H.
  apply mbind_ok in H as (value & s0 & Evalue & H).
  apply lift_ok in Evalue as [Evalue ->].
  repeat match type of H with
         | (if ?c then _ else _) _ = Ok _ => destruct c eqn:?
         end;
    try (apply ret_ok in H as [-> ->]; cbn;
         first [ reflexivity
               | apply get_set_other;
                 first [ reflexivity
                       | destruct (String.eqb "name" item) eqn:En;
                         [|reflexivity];
                         apply String.eqb_eq in En as <-; discriminate ] ]).
  - apply lift_ok in H as [H ->].
    unfold item_hv_id in H.
    apply bind_ok in H as (hv & _ & H).
    apply bind_ok in H as (image & _ & H).
    apply bind_ok in H as (image_text & _ & H).
    injection H as <-. cbn.
    now rewrite !copy_if_present_other, get_set_other.
  - apply mbind_ok in H as ([port_def destination] & s1 & Eport & H).
    apply mbind_ok in H as (ports & s2 & Eports & H).
    apply mbind_ok in H as (u & s3 & Eapp & H).
    now apply ret_ok in H as [-> ->].
Qed.

Lemma router_ports_name model t s ports props s' :
  router_ports cat model t s = Ok ((ports, props), s') ->
  get "name" props = get "name" (nt_props t).
Proof.
  unfold router_ports. intros H.
  apply mbind_ok in H as (mb & s1 & _ & H).
  apply mbind_ok in H as (ps & s2 & _ & H).
  unfold default_ports in H.
  repeat match type of H with
         | (if ?c then _ else _) _ = Ok _ => destruct c
         end;
    try (apply ret_ok in H as [[= -> ->] ->]; now rewrite ?get_set_other);
    apply mbind_ok in H as (more & s3 & E & H);
    now apply ret_ok in H as [[= -> ->] ->].
Qed.

Lemma generate_node_of_device devices device dev s n s' :
  get device devices = Some dev ->
  generate_node cat py_int hvs device dev s = Ok (n, s') ->
  node_of_device devices device n.
Proof.
  intros Hdev H. unfold generate_node in H.
  apply mbind_ok in H as (nid & s0 & E1 & H). apply lift_ok in E1 as [E1 ->].
  apply mbind_ok in H as (node_id & s0 & E2 & H). apply lift_ok in E2 as [E2 ->].
  apply mbind_ok in H as (x & s0 & E3 & H). apply lift_ok in E3 as [E3 ->].
  apply mbind_ok in H as (y & s0 & E4 & H). apply lift_ok in E4 as [E4 ->].
  apply mbind_ok in H as (type & s0 & E5 & H). apply lift_ok in E5 as [E5 ->].
  apply getitem_ok in E1, E3, E4, E5.
  destruct nid as [z| |]; try discriminate. injection E2 as ->.
  cbv zeta in H.
  apply mbind_ok in H as (t & s1 & Eloop & H).
  assert (Hname : get "name" (nt_props t) = Some (VStr device)).
  { refine (@for_each_invariant _ _
              (fun (t : node_temp) (_ : conv) =>
                 get "name" (nt_props t) = Some (VStr device))
              _ _ _ _ _ _ _ _ Eloop); [|reflexivity].
    intros item a s2 a' s2' _ Ha Hstep.
    now rewrite (item_step_name _ _ _ _ _ _ _ _ _ Hstep). }
  destruct (is_str type "Router") eqn:Er; [|destruct (is_str type "Cloud") eqn:Ec].
  - apply is_str_eq in Er as ->.
    apply mbind_ok in H as (model_text & s0 & E & H).
    apply lift_ok in E as [_ ->].
    apply mbind_ok in H as ([ports props] & s2 & Eports & H).
    apply mbind_ok in H as (u & s3 & Elinks & H).
    apply ret_ok in H as [-> ->]. unfold node_of_device. cbn.
    rewrite (router_ports_name _ _ _ _ _ _ Eports).
    split; [exact Hname|]. split; [reflexivity|]. exists dev. auto 6.
  - apply mbind_ok in H as ([ports nios] & s2 & Eports & H).
    apply ret_ok in H as [-> ->]. unfold node_of_device. cbn.
    rewrite get_set_other by reflexivity.
    split; [exact Hname|]. split; [reflexivity|]. exists dev. auto 6.
  - apply ret_ok in H as [-> ->]. unfold node_of_device. cbn.
    split; [exact Hname|]. split; [reflexivity|]. exists dev. auto 6.
Qed.

Lemma generate_nodes_loop devices xs :
  forall acc s nodes s',
    for_each xs
      (fun device nodes =>
         dev <~ lift (getitem device devices) ;;
         n <~ generate_node cat py_int hvs device dev ;;
         ret (nodes ++ [n]))
      acc s = Ok (nodes, s') ->
    exists new,
      nodes = acc ++ new /\ Forall2 (node_of_device devices) xs new.
Proof.
  induction xs as [|device xs IH]; intros acc s nodes s' H; cbn in H.
  - apply ret_ok in H as [-> _]. exists []. now rewrite app_nil_r.
  - apply mbind_ok in H as (acc1 & s1 & Hb & H).
    apply mbind_ok in Hb as (dev & s2 & E & Hb). apply lift_ok in E as [E ->].
    apply mbind_ok in Hb as (n & s3 & En & Hb). apply ret_ok in Hb as [-> ->].
    apply IH in H as (new & -> & Hnew).
    exists (n :: new). rewrite <- app_assoc. split; [reflexivity|].
    constructor; [|exact Hnew].
    eapply generate_node_of_device; eauto using getitem_ok.
Qed.

End NodeNames.

(** X6 ([generate_nodes]): the list returned has one node for each key of
    the device mapping, in sorted key order; the node carries the device's
    name as ['name'] property and label text, and its node id, position
    and (unless it is a router) type. *)
Theorem generate_nodes_one_per_device cat py_int devices hvs s nodes s' :
  generate_nodes cat py_int devices hvs s = Ok (nodes, s') ->
  Forall2 (node_of_device devices) (sorted (keys devices)) nodes.
Proof.
  unfold generate_nodes. intros H.
  apply generate_nodes_loop in H as (new & -> & H). exact H.
Qed.

Lemma generate_nodes_one_per_device_witness :
  exists nodes s',
    generate_nodes sample_catalog int_of_digits two_clouds [] init_conv
    = Ok (nodes, s') /\
    Forall2 (node_of_device two_clouds) (sorted (keys two_clouds)) nodes.
Proof.
  eexists. eexists. split; [vm_compute; reflexivity|].
  eapply (generate_nodes_one_per_device sample_catalog int_of_digits
                                        two_clouds [] init_conv).
  vm_compute. reflexivity.
Defined.

(* ================================================================= *)
(** ** Routers with several interfaces *)

(** A key that [interface_re] matches is none of the keys the item loop
    tests for before it. *)
Lemma interface_key_branch item :
  interface_re item = true ->
  String.eqb item "hv_id" = false /\ String.eqb item "type" = false /\
  String.eqb item "aux" = false /\ String.eqb item "console" = false /\
  startswith "slot" item = false /\ String.eqb item "connections" = false.
Proof.
  intros H.
  assert (Heq : forall k, interface_re k = false -> String.eqb item k = false).
  { intros k Hk. destruct (String.eqb item k) eqn:E; [|reflexivity].
    apply String.eqb_eq in E as ->. congruence. }
  repeat split; try (apply Heq; reflexivity).
  destruct (startswith "slot" item) eqn:E; [|reflexivity].
  unfold startswith in E.
  destruct item as [|c1 [|c2 [|c3 [|c4 rest]]]]; cbn in E; try discriminate;
    repeat match type of E with
           | (if ?d then _ else _) = true => destruct d; [subst|discriminate]
           end;
    try discriminate; vm_compute in H; discriminate.
Qed.

Section RouterInterfaces.

Variable cat : catalog.
Variable py_int : string -> option Z.
Variable hvs : hypervisors.

Lemma item_step_interfaces dev node_id type model item t s t' s' :
  item_step py_int hvs dev node_id type model item t s = Ok (t', s') ->
  (interface_re item = true ->
   exists value,
     nt_interfaces t' = nt_interfaces t ++ [mk_interface item value]) /\
  exists more, nt_interfaces t' = nt_interfaces t ++ more.
Proof.
  intros H. split.
  - intros Hre.
    destruct (interface_key_branch _ Hre) as (E1 & E2 & E3 & E4 & E5 & E6).
    unfold item_step in H.
    apply mbind_ok in H as (value & s0 & Evalue & H).
    apply lift_ok in Evalue as [Evalue ->].
    rewrite E1, E2, E3, E4, E5, E6, Hre in H. cbn in H.
    apply ret_ok in H as [-> ->]. now exists value.
  - unfold item_step in H.
    apply mbind_ok in H as (value & s0 & Evalue & H).
    apply lift_ok in Evalue as [Evalue ->].
    repeat match type of H with
           | (if ?c then _ else _) _ = Ok _ => destruct c eqn:?
           end;
      try (apply ret_ok in H as [-> ->]; cbn;
           first [ now exists []; rewrite app_nil_r | now eexists ]).
    + apply lift_ok in H as [H ->].
      unfold item_hv_id in H.
      apply bind_ok in H as (hv & _ & H).
      apply bind_ok in H as (image & _ & H).
      apply bind_ok in H as (image_text & _ & H).
      injection H as <-. cbn. exists []. now rewrite app_nil_r.
    + apply mbind_ok in H as ([port_def destination] & s1 & Eport & H).
      apply mbind_ok in H as (ports & s2 & Eports & H).
      apply mbind_ok in H as (u & s3 & Eapp & H).
      apply ret_ok in H as [-> ->]. cbn. exists []. now rewrite app_nil_r.
Qed.

(** After the item loop every interface key of the device is in
    [interfaces]. *)
Lemma item_loop_interfaces dev node_id type model xs :
  forall t0 s t s',
    for_each xs (item_step py_int hvs dev node_id type model) t0 s
    = Ok (t, s') ->
    (forall k, In k (map if_from (nt_interfaces t0)) ->
               In k (map if_from (nt_interfaces t))) /\
    (forall k, In k xs -> interface_re k = true ->
               In k (map if_from (nt_interfaces t))).
Proof.
  induction xs as [|x xs IH]; intros t0 s t s' H; cbn in H.
  - apply ret_ok in H as [-> _]. split; [auto | intros k []].
  - apply mbind_ok in H as (t1 & s1 & Hstep & H).
    apply IH in H as [Hmono Hall].
    apply item_step_interfaces in Hstep as [Hnew (more & Hmore)].
    split.
    + intros k Hk. apply Hmono. rewrite Hmore, map_app, in_app_iff. now left.
    + intros k [->|Hk] Hre; [|now apply Hall].
      apply Hmono. destruct (Hnew Hre) as (value & ->).
      rewrite map_app, in_app_iff. right. now left.
Qed.

End RouterInterfaces.

Lemma sorted_interfaces_two l k1 k2 :
  In k1 (map if_from l) -> In k2 (map if_from l) -> k1 <> k2 ->
  sorted_interfaces l = Raise TypeError.
Proof.
  intros H1 H2 Hne. destruct l as [|a [|b l]]; [destruct H1 | | reflexivity].
  cbn in H1, H2. destruct H1 as [<-|[]], H2 as [<-|[]]. contradiction.
Qed.

(** X7 ([generate_nodes], the round of one device): a device of type
    Router with two different keys that [interface_re] matches makes the
    method raise.  The interfaces are collected as dictionaries and
    [sorted(interfaces)] has to compare two of them, which Python 3
    refuses with a [TypeError]. *)
Theorem generate_node_two_interfaces cat py_int hvs device dev s k1 k2 :
  get "type" dev = Some (VStr "Router") ->
  In k1 (keys dev) -> In k2 (keys dev) -> k1 <> k2 ->
  interface_re k1 = true -> interface_re k2 = true ->
  exists e, generate_node cat py_int hvs device dev s = Raise e.
Proof.
  intros Ht Hk1 Hk2 Hne Hr1 Hr2.
  destruct (generate_node cat py_int hvs device dev s) as [[n s']|e] eqn:H;
    [|now exists e].
  exfalso. unfold generate_node in H.
  apply mbind_ok in H as (nid & s0 & E1 & H). apply lift_ok in E1 as [E1 ->].
  apply mbind_ok in H as (node_id & s0 & E2 & H). apply lift_ok in E2 as [E2 ->].
  apply mbind_ok in H as (x & s0 & E3 & H). apply lift_ok in E3 as [E3 ->].
  apply mbind_ok in H as (y & s0 & E4 & H). apply lift_ok in E4 as [E4 ->].
  apply mbind_ok in H as (type & s0 & E5 & H). apply lift_ok in E5 as [E5 ->].
  apply getitem_ok in E5. rewrite Ht in E5. injection E5 as <-.
  cbv zeta in H.
  apply mbind_ok in H as (t & s1 & Eloop & H).
  apply item_loop_interfaces in Eloop as [_ Hall].
  change (is_str (VStr "Router") "Router") with true in H. cbv iota in H.
  apply mbind_ok in H as (model_text & s0 & E & H).
  apply lift_ok in E as [_ ->].
  apply mbind_ok in H as ([ports props] & s2 & Eports & H).
  apply mbind_ok in H as (u & s3 & Elinks & H).
  unfold router_links in Elinks.
  apply mbind_ok in Elinks as (conns & s4 & E & _).
  apply lift_ok in E as [E _].
  rewrite (sorted_interfaces_two _ k1 k2) in E; [discriminate | | | exact Hne];
    apply Hall; auto; now apply In_sorted.
Qed.

Lemma generate_node_two_interfaces_witness :
  exists e,
    generate_node sample_catalog int_of_digits hv_c7200 "R1"
                  two_interface_router init_conv = Raise e.
Proof.
  apply (generate_node_two_interfaces sample_catalog int_of_digits hv_c7200
           "R1" two_interface_router init_conv "f0/0" "f0/1");
    try reflexivity; try discriminate; cbn; tauto.
Defined.

(* ================================================================= *)
(** ** Field splitting *)

Lemma contains_cons c d s :
  contains c (String d s) = Ascii.eqb d c || contains c s.
Proof.
  unfold contains. cbn. destruct (Ascii.eqb d c); [reflexivity|].
  now destruct (Py.index c s).
Qed.

Lemma split_plain sep a : contains sep a = false -> split sep a = [a].
Proof.
  induction a as [|d a IH]; [reflexivity|].
  rewrite contains_cons. intros H. apply orb_false_iff in H as [H1 H2].
  cbn. rewrite H1, (IH H2). reflexivity.
Qed.

Lemma split_field sep a rest :
  contains sep a = false ->
  split sep (a ++ String sep rest) = a :: split sep rest.
Proof.
  induction a as [|d a IH].
  - intros _. cbn. now rewrite Ascii.eqb_refl.
  - rewrite contains_cons. intros H. apply orb_false_iff in H as [H1 H2].
    cbn. rewrite H1, (IH H2). reflexivity.
Qed.

(* ================================================================= *)
(** ** Connection strings *)

Lemma append_empty_r s : (s ++ "")%string = s.
Proof. induction s as [|c s IH]; cbn; [reflexivity | now rewrite IH]. Qed.

(** X8 ([calc_cloud_connection]): of a connection string
    [device:port:kind:target], with or without further colon-separated
    fields, only [kind] and [target] are used: the stub port is named
    [kind:target], it takes the next port id, and the NIO is the same
    text. *)
Theorem calc_cloud_connection_fields dev prt kind target tail s :
  contains ":" dev = false -> contains ":" prt = false ->
  contains ":" kind = false -> contains ":" target = false ->
  tail = "" \/ (exists more, tail = (":" ++ more)%string) ->
  calc_cloud_connection
    (dev ++ ":" ++ prt ++ ":" ++ kind ++ ":" ++ target ++ tail)%string s
  = Ok ((stub_port (kind ++ ":" ++ target)%string (port_id s),
         (kind ++ ":" ++ target)%string),
        advance_port_id 1 s).
Proof.
  intros Hd Hp Hk Ht Htail. unfold calc_cloud_connection.
  cbn [append]. rewrite !split_field by assumption.
  assert (E : exists rest, split ":" (target ++ tail) = target :: rest).
  { destruct Htail as [->|(more & ->)].
    - rewrite append_empty_r, (split_plain _ _ Ht). now exists [].
    - cbn [append]. rewrite (split_field _ _ _ Ht). eauto. }
  destruct E as (rest & ->). reflexivity.
Qed.

Lemma calc_cloud_connection_fields_witness :
  calc_cloud_connection
    ("SW1" ++ ":" ++ "1" ++ ":" ++ "nio_udp" ++ ":" ++ "30000" ++
     ":127.0.0.1:20000")%string init_conv
  = Ok ((stub_port ("nio_udp" ++ ":" ++ "30000")%string (port_id init_conv),
         ("nio_udp" ++ ":" ++ "30000")%string),
        advance_port_id 1 init_conv).
Proof.
  apply (calc_cloud_connection_fields "SW1" "1" "nio_udp" "30000"
                                      ":127.0.0.1:20000" init_conv);
    try reflexivity.
  right. now exists "127.0.0.1:20000".
Defined.

(* ================================================================= *)
(** ** Cloud nodes *)

Section CloudNodes.

Variable cat : catalog.
Variable py_int : string -> option Z.
Variable hvs : hypervisors.

Lemma item_step_connections dev node_id type model item t s t' s' :
  item_step py_int hvs dev node_id type model item t s = Ok (t', s') ->
  (item = "connections" /\ nt_connections t' = get "connections" dev) \/
  (item <> "connections" /\ nt_connections t' = nt_connections t).
Proof.
  intros H. unfold item_step in H.
  apply mbind_ok in H as (value & s0 & Evalue & H).
  apply lift_ok in Evalue as [Evalue ->]. apply getitem_ok in Evalue.
  destruct (String.eqb item "connections") eqn:Ec.
  - apply String.eqb_eq in Ec as ->. left. split; [reflexivity|].
    cbn in H. apply ret_ok in H as [-> _]. cbn. now rewrite Evalue.
  - right. split; [intros ->; discriminate|].
    repeat match type of H with
           | (if ?c then _ else _) _ = Ok _ => destruct c eqn:?
           end;
      try discriminate;
      try (apply ret_ok in H as [-> ->]; reflexivity).
    + apply lift_ok in H as [H ->].
      unfold item_hv_id in H.
      apply bind_ok in H as (hv & _ & H).
      apply bind_ok in H as (image & _ & H).
      apply bind_ok in H as (image_text & _ & H).
      now injection H as <-.
    + apply mbind_ok in H as ([port_def destination] & s1 & Eport & H).
      apply mbind_ok in H as (ports & s2 & Eports & H).
      apply mbind_ok in H as (u & s3 & Eapp & H).
      now apply ret_ok in H as [-> ->].
Qed.

Lemma item_loop_connections dev node_id type model xs :
  forall t0 s t s',
    for_each xs (item_step py_int hvs dev node_id type model) t0 s
    = Ok (t, s') ->
    (In "connections" xs -> nt_connections t = get "connections" dev) /\
    (~ In "connections" xs -> nt_connections t = nt_connections t0).
Proof.
  induction xs as [|x xs IH]; intros t0 s t s' H; cbn in H.
  - apply ret_ok in H as [-> _]. split; [intros [] | reflexivity].
  - apply mbind_ok in H as (t1 & s1 & Hstep & H).
    apply IH in H as [Hin Hout].
    apply item_step_connections in Hstep as [[-> E]|[Hne E]].
    + split; [|intros Hn; exfalso; apply Hn; now left].
      intros _. destruct (in_dec String.string_dec "connections" xs) as [Hi|Hi];
        [auto | now rewrite (Hout Hi)].
    + split.
      * intros [->|Hi]; [contradiction | auto].
      * intros Hn. rewrite Hout, E; [reflexivity|]. intros Hi. apply Hn.
        now right.
Qed.

Lemma cloud_loop_tokens tokens :
  forall acc s ports nios s',
    for_each tokens
      (fun connection acc =>
         '(port, nio) <~ calc_cloud_connection connection ;;
         ret (fst acc ++ [port], snd acc ++ [nio]))
      acc s = Ok ((ports, nios), s') ->
    exists new,
      ports = fst acc ++ map (fun nio_id => stub_port (fst nio_id) (snd nio_id))
                             new /\
      nios = snd acc ++ map fst new /\
      Forall2 nio_of tokens (map fst new).
Proof.
  induction tokens as [|tok tokens IH]; intros acc s ports nios s' H; cbn in H.
  - destruct acc as [a1 a2]. apply ret_ok in H as [[= -> ->] _]. exists [].
    cbn. rewrite !app_nil_r. auto.
  - apply mbind_ok in H as (acc1 & s1 & Hb & H).
    apply mbind_ok in Hb as ([p nio] & s2 & E & Hb).
    apply ret_ok in Hb as [-> ->].
    apply IH in H as (new & -> & -> & Hnew). cbn [fst snd].
    unfold calc_cloud_connection in E. cbv zeta in E.
    apply mbind_ok in E as (f2 & s3 & E2 & E). apply lift_ok in E2 as [E2 ->].
    apply mbind_ok in E as (f3 & s3 & E3 & E). apply lift_ok in E3 as [E3 ->].
    apply mbind_ok in E as (id & s3 & Eid & E).
    apply ret_ok in E as [[= -> ->] ->].
    exists (((f2 ++ ":" ++ f3)%string, id) :: new). cbn.
    rewrite <- !app_assoc. repeat split; auto.
    constructor; [|exact Hnew]. exists f2, f3.
    destruct (nth_error (split ":" tok) 2); [|discriminate].
    destruct (nth_error (split ":" tok) 3); [|discriminate].
    injection E2 as ->. injection E3 as ->. auto.
Qed.

(** X9 ([generate_nodes], the round of a Cloud device): when a node is
    returned for a device of type Cloud, the device has a ['connections']
    text; the node has one stub port for each blank-separated token of it,
    in sorted token order, named by the third and fourth colon-separated
    fields of the token joined by a colon; and the ['nios'] property is
    the list of these names. *)
Theorem generate_node_cloud device dev s n s' :
  get "type" dev = Some (VStr "Cloud") ->
  generate_node cat py_int hvs device dev s = Ok (n, s') ->
  exists text nios,
    get "connections" dev = Some (VStr text) /\
    Forall2 nio_of (sorted (split " " text)) nios /\
    map p_name (ports_of n) = nios /\
    Forall (fun p => p_stub p = true) (ports_of n) /\
    get "nios" (n_properties n) = Some (VStrs nios).
Proof.
  intros Ht H. unfold generate_node in H.
  apply mbind_ok in H as (nid & s0 & E1 & H). apply lift_ok in E1 as [E1 ->].
  apply mbind_ok in H as (node_id & s0 & E2 & H). apply lift_ok in E2 as [E2 ->].
  apply mbind_ok in H as (x & s0 & E3 & H). apply lift_ok in E3 as [E3 ->].
  apply mbind_ok in H as (y & s0 & E4 & H). apply lift_ok in E4 as [E4 ->].
  apply mbind_ok in H as (type & s0 & E5 & H). apply lift_ok in E5 as [E5 ->].
  apply getitem_ok in E5. rewrite Ht in E5. injection E5 as <-.
  cbv zeta in H.
  apply mbind_ok in H as (t & s1 & Eloop & H).
  apply item_loop_connections in Eloop as [Hin Hout].
  assert (Hconn : nt_connections t = get "connections" dev).
  { destruct (in_dec String.string_dec "connections" (sorted (keys dev)))
      as [Hi|Hi]; [auto|].
    rewrite (Hout Hi). cbn. destruct (get "connections" dev) eqn:G;
      [|reflexivity].
    exfalso. apply Hi, In_sorted, In_keys_get. eauto. }
  change (is_str (VStr "Cloud") "Router") with false in H.
  change (is_str (VStr "Cloud") "Cloud") with true in H. cbv iota in H.
  apply mbind_ok in H as ([ports nios] & s2 & Eports & H).
  apply ret_ok in H as [-> ->].
  unfold cloud_ports in Eports.
  apply mbind_ok in Eports as (c & s3 & Ec & Eports).
  apply lift_ok in Ec as [Ec ->].
  apply mbind_ok in Eports as (text & s3 & Etext & Eports).
  apply lift_ok in Etext as [Etext ->].
  rewrite Hconn in Ec. destruct (get "connections" dev) as [v|]; [|discriminate].
  injection Ec as ->. destruct c as [z|text'|l]; try discriminate.
  injection Etext as ->.
  apply cloud_loop_tokens in Eports as (new & -> & -> & Hnew).
  exists text, (map fst new). unfold ports_of. cbn.
  repeat split; auto.
  - now rewrite map_map.
  - apply Forall_forall. intros p Hp. apply in_map_iff in Hp as (x0 & <- & _).
    reflexivity.
  - now rewrite get_set, String.eqb_refl.
Qed.

End CloudNodes.

Lemma generate_node_cloud_witness :
  exists n s',
    generate_node sample_catalog int_of_digits [] "C1"
      (cloud_device 1 "SW1:2:nio_gen_eth:eth1 SW1:1:nio_gen_eth:eth0")
      init_conv = Ok (n, s') /\
    exists text nios,
      get "connections"
          (cloud_device 1 "SW1:2:nio_gen_eth:eth1 SW1:1:nio_gen_eth:eth0")
      = Some (VStr text) /\
      Forall2 nio_of (sorted (split " " text)) nios /\
      map p_name (ports_of n) = nios /\
      Forall (fun p => p_stub p = true) (ports_of n) /\
      get "nios" (n_properties n) = Some (VStrs nios).
Proof.
  eexists. eexists. split; [vm_compute; reflexivity|].
  eapply (generate_node_cloud sample_catalog int_of_digits [] "C1"
            (cloud_device 1 "SW1:2:nio_gen_eth:eth1 SW1:1:nio_gen_eth:eth0")
            init_conv).
  - reflexivity.
  - vm_compute. reflexivity.
Defined.

Lemma split_tail_fields dev tail :
  contains " " dev = false ->
  (tail = "" -> split " " (dev ++ tail) = [dev]) /\
  (forall prt, contains " " prt = false -> tail = (" " ++ prt)%string ->
               split " " (dev ++ tail) = [dev; prt]) /\
  (forall f1 more, contains " " f1 = false ->
                   tail = (" " ++ f1 ++ " " ++ more)%string ->
                   exists f2 rest, split " " (dev ++ tail)
                                   = dev :: f1 :: f2 :: rest).
Proof.
  intros Hd. repeat split.
  - intros ->. now rewrite append_empty_r, split_plain.
  - intros prt Hp ->. cbn [append].
    now rewrite (split_field _ _ _ Hd), (split_plain _ _ Hp).
  - intros f1 more Hf ->. cbn [append].
    rewrite (split_field _ _ _ Hd), (split_field _ _ _ Hf).
    destruct (split_nonempty " " more) as (h & t & ->). eauto.
Qed.

(** X10 ([calc_ethsw_port]): a port definition [type vlan device port] of
    four blank-separated fields gives the destination (device, port); a
    definition of three fields, or of five and more, gives the
    destination ["NIO"] with the third field as its port.  The port is
    named by its number and takes the next port id. *)
Theorem calc_ethsw_port_fields py_int port_num type vlan dev tail s number v :
  contains " " type = false -> contains " " vlan = false ->
  contains " " dev = false ->
  py_int port_num = Some number -> py_int vlan = Some v ->
  (forall prt,
      contains " " prt = false -> tail = (" " ++ prt)%string ->
      calc_ethsw_port py_int port_num
        (VStr (type ++ " " ++ vlan ++ " " ++ dev ++ tail)) s
      = Ok ((ethsw_port port_num (port_id s) number type v, (dev, prt)),
            advance_port_id 1 s)) /\
  (tail = "" \/
   (exists f3 more, contains " " f3 = false /\
                    tail = (" " ++ f3 ++ " " ++ more)%string) ->
   calc_ethsw_port py_int port_num
     (VStr (type ++ " " ++ vlan ++ " " ++ dev ++ tail)) s
   = Ok ((ethsw_port port_num (port_id s) number type v, ("NIO", dev)),
         advance_port_id 1 s)).
Proof.
  intros Ht Hv Hd Hn Hvl.
  destruct (split_tail_fields dev tail Hd) as (T0 & T1 & T2).
  assert (Hrun : forall fields dest,
             split " " (dev ++ tail) = dev :: fields ->
             dest = match fields with
                    | [prt] => (dev, prt)
                    | _ => ("NIO", dev)
                    end ->
             calc_ethsw_port py_int port_num
               (VStr (type ++ " " ++ vlan ++ " " ++ dev ++ tail)) s
             = Ok ((ethsw_port port_num (port_id s) number type v, dest),
                   advance_port_id 1 s)).
  { intros fields dest Hs ->. unfold calc_ethsw_port.
    cbn [as_str lift mbind append].
    rewrite (split_field _ _ _ Ht), (split_field _ _ _ Hv), Hs.
    destruct fields as [|f3 [|f4 rest]];
      cbn [nth_error of_option Py.bind List.length Nat.eqb];
      unfold mbind, lift; rewrite Hn; cbn [of_option]; rewrite Hvl;
      reflexivity. }
  split.
  - intros prt Hp E. now apply (Hrun [prt]); [apply T1|].
  - intros [E|(f3 & more & Hf & E)].
    + now apply (Hrun []); [apply T0|].
    + destruct (T2 f3 more Hf E) as (f2 & rest & Hs).
      now apply (Hrun (f3 :: f2 :: rest)).
Qed.

Lemma calc_ethsw_port_fields_witness :
  (forall prt,
      contains " " prt = false -> " SW2 1" = (" " ++ prt)%string ->
      calc_ethsw_port int_of_digits "1"
        (VStr ("access" ++ " " ++ "1" ++ " " ++ "my" ++ " SW2 1")) init_conv
      = Ok ((ethsw_port "1" (port_id init_conv) 1 "access" 1, ("my", prt)),
            advance_port_id 1 init_conv)) /\
  (" SW2 1" = "" \/
   (exists f3 more, contains " " f3 = false /\
                    " SW2 1" = (" " ++ f3 ++ " " ++ more)%string) ->
   calc_ethsw_port int_of_digits "1"
     (VStr ("access" ++ " " ++ "1" ++ " " ++ "my" ++ " SW2 1")) init_conv
   = Ok ((ethsw_port "1" (port_id init_conv) 1 "access" 1, ("NIO", "my")),
         advance_port_id 1 init_conv)).
Proof.
  apply (calc_ethsw_port_fields int_of_digits "1" "access" "1" "my" " SW2 1"
                                init_conv 1 1); reflexivity.
Defined.

(** X11 ([calc_router_links]): the destination text of an interface is
    split at blanks; two words are the destination device and port, and
    one word, or three and more (a device whose name has a blank), is
    taken for the destination ["NIO"] with the first word as its port.
    The source is the node and its port named by the expanded interface
    name, 0 if there is none. *)
Theorem calc_router_links_destination
        cat c rest long node_id ports dev tail :
  get (upper (String c EmptyString)) (PORT_TYPES cat) = Some long ->
  contains " " dev = false ->
  let src :=
    source_port_of (replace (String c EmptyString) long (String c rest)) ports
  in
  (forall prt,
      contains " " prt = false -> tail = (" " ++ prt)%string ->
      calc_router_links cat (mk_interface (String c rest) (VStr (dev ++ tail)))
                        node_id ports
      = Ok (mk_symlink node_id src dev prt)) /\
  (tail = "" \/
   (exists f1 more, contains " " f1 = false /\
                    tail = (" " ++ f1 ++ " " ++ more)%string) ->
   calc_router_links cat (mk_interface (String c rest) (VStr (dev ++ tail)))
                     node_id ports
   = Ok (mk_symlink node_id src "NIO" dev)).
Proof.
  intros Hl Hd src.
  destruct (split_tail_fields dev tail Hd) as (T0 & T1 & T2).
  assert (Hrun : forall fields dest,
             split " " (dev ++ tail) = dev :: fields ->
             dest = match fields with
                    | [prt] => (dev, prt)
                    | _ => ("NIO", dev)
                    end ->
             calc_router_links cat
               (mk_interface (String c rest) (VStr (dev ++ tail))) node_id ports
             = Ok (mk_symlink node_id src (fst dest) (snd dest))).
  { intros fields dest Hs ->. unfold calc_router_links, expand_interface.
    cbn [if_from if_to item String.get of_option Py.bind as_str].
    unfold getitem. rewrite Hl. cbn [of_option Py.bind]. rewrite Hs.
    destruct fields as [|f3 [|f4 more]]; reflexivity. }
  split.
  - intros prt Hp E. now apply (Hrun [prt] (dev, prt)); [apply T1|].
  - intros [E|(f3 & more & Hf & E)].
    + now apply (Hrun [] ("NIO", dev)); [apply T0|].
    + destruct (T2 f3 more Hf E) as (f2 & rest' & Hs).
      now apply (Hrun (f3 :: f2 :: rest') ("NIO", dev)).
Qed.

Lemma calc_router_links_destination_witness :
  let src :=
    source_port_of (replace "f" "FastEthernet" "f0/0")
                   [plain_port "FastEthernet0/0" 7 0 (VInt 0)] in
  (forall prt,
      contains " " prt = false ->
      " border router f0/0" = (" " ++ prt)%string ->
      calc_router_links sample_catalog
        (mk_interface "f0/0" (VStr ("my" ++ " border router f0/0")))
        1 [plain_port "FastEthernet0/0" 7 0 (VInt 0)]
      = Ok (mk_symlink 1 src "my" prt)) /\
  (" border router f0/0" = "" \/
   (exists f1 more, contains " " f1 = false /\
                    " border router f0/0"
                    = (" " ++ f1 ++ " " ++ more)%string) ->
   calc_router_links sample_catalog
     (mk_interface "f0/0" (VStr ("my" ++ " border router f0/0")))
     1 [plain_port "FastEthernet0/0" 7 0 (VInt 0)]
   = Ok (mk_symlink 1 src "NIO" "my")).
Proof.
  apply (calc_router_links_destination sample_catalog "f" "0/0" "FastEthernet"
           1 [plain_port "FastEthernet0/0" 7 0 (VInt 0)] "my"
           " border router f0/0"); reflexivity.
Defined.

(* ================================================================= *)
(** ** Motherboard ports *)

Lemma mbind_lift A B (a : A) (k : A -> M B) s :
  mbind (lift (Ok a)) k s = k a s.
Proof. reflexivity. Qed.

Lemma mb_loop_run cat ty long k :
  get ty (PORT_TYPES cat) = Some long ->
  forall a acc s,
    for_each (map Z.of_nat (seq a k))
      (fun i ports =>
         long <~ lift (getitem ty (PORT_TYPES cat)) ;;
         id <~ next_port_id ;;
         ret (ports ++
              [mk_port (long ++ "0/" ++ str_int i) id (Some i)
                       (Some (VInt 0)) false None None None]))
      acc s
    = Ok (acc ++ map (slot_port long "0" (VInt 0) (port_id s - Z.of_nat a))
                     (map Z.of_nat (seq a k)),
          advance_port_id (Z.of_nat k) s).
Proof.
  intros Hlong.
  match goal with
  | |- forall a acc s, for_each _ ?b acc s = _ => set (body := b)
  end.
  assert (Hbody : forall i ports s,
             body i ports s =
             Ok (ports ++ [slot_port long "0" (VInt 0) (port_id s - i) i],
                 advance_port_id 1 s)).
  { intros i ports s. unfold body, mbind, lift, getitem, next_port_id, ret.
    rewrite Hlong. cbn [of_option]. unfold slot_port, advance_port_id.
    replace (port_id s - i + i)%Z with (port_id s) by lia. reflexivity. }
  induction k as [|k IH]; intros a acc s.
  - cbn. unfold ret, advance_port_id. rewrite app_nil_r, Z.add_0_r.
    now destruct s.
  - cbn [seq map for_each]. unfold mbind. rewrite Hbody, IH.
    cbn [advance_port_id port_id links configs]. f_equal. f_equal.
    + rewrite <- app_assoc. cbn [app].
      replace (port_id s + 1 - Z.of_nat (S a))%Z
        with (port_id s - Z.of_nat a)%Z by lia.
      reflexivity.
    + unfold advance_port_id. cbn [port_id links configs]. f_equal. lia.
Qed.

(** X12 ([calc_mb_ports]): for a model and chassis of [MODEL_MATRIX]
    without motherboard ports the result is empty, the counter is left
    alone and neither the port type nor [PORT_TYPES] is consulted; with n
    ports the result is the n ports of slot 0 named by the long form of
    the port type, ["0/"] and the position, with the next n ids. *)
Theorem calc_mb_ports_run cat m ch by_chassis e s :
  get m (MODEL_MATRIX cat) = Some by_chassis ->
  get ch by_chassis = Some e ->
  ((e_ports e <= 0)%Z ->
   calc_mb_ports cat (VStr m) (VStr ch) s = Ok ([], s)) /\
  (forall ty long,
      (0 < e_ports e)%Z ->
      e_type e = Some ty -> get ty (PORT_TYPES cat) = Some long ->
      calc_mb_ports cat (VStr m) (VStr ch) s
      = Ok (map (slot_port long "0" (VInt 0) (port_id s)) (range (e_ports e)),
            advance_port_id (e_ports e) s) /\
      forall i, In i (range (e_ports e)) ->
                p_name (slot_port long "0" (VInt 0) (port_id s) i)
                = (long ++ "0/" ++ str_int i)%string).
Proof.
  intros Hm Hc. unfold calc_mb_ports.
  cbn [getitem_val]. unfold getitem. rewrite Hm. cbn [of_option].
  rewrite mbind_lift, Hc. cbn [of_option]. rewrite mbind_lift. cbv zeta.
  split.
  - intros Hle. apply Z.ltb_ge in Hle. now rewrite Hle.
  - intros ty long Hlt Hty Hlong. split; [|reflexivity].
    pose proof Hlt as Hlt'. apply Z.ltb_lt in Hlt'. rewrite Hlt', Hty.
    cbn [of_option]. rewrite mbind_lift. unfold range.
    pose proof (mb_loop_run cat ty long (Z.to_nat (e_ports e)) Hlong 0 [] s)
      as R.
    cbv zeta in R. unfold getitem in R. rewrite R.
    cbn [app]. rewrite Z.sub_0_r, Z2Nat.id by lia. reflexivity.
Qed.

Lemma calc_mb_ports_run_witness :
  ((e_ports (mk_entry 2 (Some "F")) <= 0)%Z ->
   calc_mb_ports sample_catalog (VStr "c3600") (VStr "3660") init_conv
   = Ok ([], init_conv)) /\
  (forall ty long,
      (0 < e_ports (mk_entry 2 (Some "F")))%Z ->
      e_type (mk_entry 2 (Some "F")) = Some ty ->
      get ty (PORT_TYPES sample_catalog) = Some long ->
      calc_mb_ports sample_catalog (VStr "c3600") (VStr "3660") init_conv
      = Ok (map (slot_port long "0" (VInt 0) (port_id init_conv))
                (range (e_ports (mk_entry 2 (Some "F")))),
            advance_port_id (e_ports (mk_entry 2 (Some "F"))) init_conv) /\
      forall i, In i (range (e_ports (mk_entry 2 (Some "F")))) ->
                p_name (slot_port long "0" (VInt 0) (port_id init_conv) i)
                = (long ++ "0/" ++ str_int i)%string).
Proof.
  apply (calc_mb_ports_run sample_catalog "c3600" "3660"
           [("3620", mk_entry 0 (Some ""));
            ("3640", mk_entry 0 (Some ""));
            ("3660", mk_entry 2 (Some "F"))]
           (mk_entry 2 (Some "F")) init_conv); reflexivity.
Defined.

(* ================================================================= *)
(** ** Link ids *)

Lemma resolve_links_unnumbered cat nodes ls rs :
  resolve_links cat nodes ls = Ok rs -> numbered 0 rs.
Proof.
  intros H k d Hk. apply nth_error_In in Hk.
  destruct (resolve_links_origin cat nodes ls rs d H Hk) as (l & _ & Hl).
  unfold resolve_link in Hl.
  apply bind_ok in Hl as (p & _ & Hl).
  apply bind_ok in Hl as ([dn dp] & _ & Hl).
  now injection Hl as <-.
Qed.

Lemma dedup_step_numbered i l ls :
  consistent ls -> processed_clear i ls -> nth_error ls i = Some l ->
  numbered i ls ->
  numbered (S i) (dedup_step i (Z.of_nat i + 1) l ls).
Proof.
  intros Hcons Hclear Hi Hnum.
  destruct (dedup_step_shape i (Z.of_nat i + 1) l ls Hcons Hclear Hi)
    as (ls1 & -> & Hi1 & Hlow & Hin & _ & Hnd & _).
  intros k d Hk.
  destruct (Nat.eq_dec k i) as [->|Hne].
  - rewrite (nth_error_set_at_same _ ls1 i l _ Hi1) in Hk. injection Hk as <-.
    unfold set_id. cbn [lk_id].
    replace (i <? S i)%nat with true by (symmetry; apply Nat.ltb_lt; lia).
    reflexivity.
  - rewrite nth_error_set_at_other in Hk by exact Hne.
    destruct (Nat.ltb_spec k i) as [Hlt|Hge].
    + rewrite Hlow in Hk by exact Hlt. rewrite (Hnum _ _ Hk).
      replace (k <? i)%nat with true by (symmetry; apply Nat.ltb_lt; lia).
      replace (k <? S i)%nat with true by (symmetry; apply Nat.ltb_lt; lia).
      reflexivity.
    + replace (k <? S i)%nat with false by (symmetry; apply Nat.ltb_ge; lia).
      destruct (Hin d (nth_error_In _ _ Hk)) as [Hd _].
      apply In_nth_error in Hd as [j Hj].
      destruct (Nat.ltb_spec j i) as [Hjlt|Hjge].
      * exfalso. rewrite <- Hlow in Hj by exact Hjlt.
        pose proof (NoDup_map_nth _ _ source_of ls1 j k d d Hnd Hj Hk eq_refl).
        lia.
      * rewrite (Hnum _ _ Hj).
        now replace (j <? i)%nat with false by (symmetry; apply Nat.ltb_ge; lia).
Qed.

Lemma dedup_loop_numbered fuel :
  forall i ls nodes fin nodes',
    (List.length ls - i <= fuel)%nat ->
    consistent ls -> processed_clear i ls -> numbered i ls ->
    dedup_loop fuel i (Z.of_nat i + 1) ls nodes = Ok (fin, nodes') ->
    forall k d, nth_error fin k = Some d -> lk_id d = Some (Z.of_nat k + 1)%Z.
Proof.
  assert (Done : forall i ls,
             (List.length ls <= i)%nat -> numbered i ls ->
             forall k d, nth_error ls k = Some d ->
                         lk_id d = Some (Z.of_nat k + 1)%Z).
  { intros i ls Hlen Hnum k d Hk. rewrite (Hnum _ _ Hk).
    assert (k < List.length ls)%nat by (apply nth_error_Some; congruence).
    now replace (k <? i)%nat with true by (symmetry; apply Nat.ltb_lt; lia). }
  induction fuel as [|fuel IH]; intros i ls nodes fin nodes' Hfuel Hcons Hclear
                                       Hnum H; cbn in H.
  - injection H as <- <-. apply (Done i); auto. lia.
  - destruct (nth_error ls i) as [l|] eqn:El.
    + apply bind_ok in H as (nodes1 & _ & H).
      destruct (dedup_step_consistent i (Z.of_nat i + 1) l ls Hcons Hclear El)
        as (Hcons2 & Hclear2 & _ & Hlen).
      pose proof (dedup_step_numbered i l ls Hcons Hclear El Hnum) as Hnum2.
      replace (Z.of_nat i + 1 + 1)%Z with (Z.of_nat (S i) + 1)%Z in H by lia.
      assert (Hfuel2 : (List.length (dedup_step i (Z.of_nat i + 1) l ls) - S i
                        <= fuel)%nat) by lia.
      apply (IH _ _ _ _ _ Hfuel2 Hcons2 Hclear2 Hnum2 H).
    + injection H as <- <-. apply (Done i); auto. now apply nth_error_None.
Qed.

(** X13 ([generate_links]): when the resolved declarations are consistent
    with a cabling (each source port declares at most one link, a link
    that points at another link's source is pointed at by it in turn,
    none points at its own source), the finalized links carry the ids 1,
    2, 3, ... in the order of the list. *)
Theorem generate_links_ids_in_order cat nodes self rs ls nodes' :
  resolve_links cat nodes (links self) = Ok rs ->
  consistent rs ->
  generate_links cat nodes self = Ok (ls, nodes') ->
  forall k l, nth_error ls k = Some l -> lk_id l = Some (Z.of_nat k + 1)%Z.
Proof.
  intros Hrs Hcons H. unfold generate_links in H. rewrite Hrs in H.
  cbn [Py.bind] in H.
  apply (dedup_loop_numbered (List.length rs) 0 rs nodes ls nodes'); auto.
  - lia.
  - intros k d x Hk. lia.
  - eapply resolve_links_unnumbered, Hrs.
Qed.

Lemma generate_links_ids_in_order_witness :
  exists nodes self rs ls nodes',
    generate_nodes sample_catalog int_of_digits two_routers hv_c7200 init_conv
    = Ok (nodes, self) /\
    resolve_links sample_catalog nodes (links self) = Ok rs /\
    generate_links sample_catalog nodes self = Ok (ls, nodes') /\
    forall k l, nth_error ls k = Some l -> lk_id l = Some (Z.of_nat k + 1)%Z.
Proof.
  do 5 eexists. split; [vm_compute; reflexivity|].
  match goal with
  | |- ?A /\ _ => assert (H1 : A) by (vm_compute; reflexivity)
  end.
  split; [exact H1|].
  match goal with
  | |- ?A /\ _ => assert (H3 : A) by (vm_compute; reflexivity)
  end.
  split; [exact H3|].
  apply (fun Hc => generate_links_ids_in_order _ _ _ _ _ _ H1 Hc H3).
  split; [|split].
  - repeat constructor; cbn; intuition discriminate.
  - intros a b [<-|[<-|[]]] [<-|[<-|[]]]; vm_compute; intros H;
      (discriminate H || reflexivity).
  - intros a [<-|[<-|[]]]; vm_compute; intros H; discriminate H.
Defined.

(* ================================================================= *)
(** ** The lookups by name *)

Lemma device_id_from_name_In name nodes d :
  device_id_from_name name nodes = Ok (Some d) -> In d (map n_id nodes).
Proof.
  induction nodes as [|node rest IH]; cbn; [discriminate|].
  intros H. apply bind_ok in H as (v & _ & H).
  destruct (is_str v name); [injection H as <-; now left | right; auto].
Qed.

(** X14 ([device_id_from_name], [port_id_from_name] and
    [convert_destination_to_id]): for a destination other than ["NIO"],
    on nodes with pairwise different ids, the two lookups one after the
    other give the ids that [convert_destination_to_id] gives. *)
Theorem lookups_agree_with_conversion
        destination_node destination_port nodes dn dp :
  destination_node <> "NIO" ->
  NoDup (map n_id nodes) ->
  convert_destination_to_id destination_node destination_port nodes
  = Ok (dn, dp) ->
  device_id_from_name destination_node nodes = Ok dn /\
  port_id_from_name destination_port dn nodes = Ok dp.
Proof.
  intros Hne Hnd H. unfold convert_destination_to_id in H.
  apply String.eqb_neq in Hne. rewrite Hne in H. cbn [negb] in H.
  induction nodes as [|node rest IH]; cbn in H |- *.
  - injection H as <- <-. auto.
  - inversion Hnd as [|? ? Hnotin Hnd']; subst.
    apply bind_ok in H as (v & Ev & H). rewrite Ev. cbn [Py.bind].
    destruct (is_str v destination_node).
    + apply bind_ok in H as (ports & Ep & H). injection H as <- <-.
      split; [reflexivity|]. rewrite Z.eqb_refl, Ep. reflexivity.
    + destruct (IH Hnd' H) as [Hd Hp]. split; [exact Hd|].
      destruct dn as [d|]; [|exact Hp].
      destruct (Z.eqb d (n_id node)) eqn:E; [|exact Hp].
      apply Z.eqb_eq in E as ->. exfalso. apply Hnotin.
      eapply device_id_from_name_In, Hd.
Qed.

Lemma lookups_agree_with_conversion_witness :
  exists nodes self,
    generate_nodes sample_catalog int_of_digits two_routers hv_c7200 init_conv
    = Ok (nodes, self) /\
    device_id_from_name "R2" nodes = Ok (Some 2%Z) /\
    port_id_from_name "FastEthernet0/0" (Some 2%Z) nodes = Ok (Some 3%Z).
Proof.
  do 2 eexists. split; [vm_compute; reflexivity|].
  apply (lookups_agree_with_conversion "R2" "FastEthernet0/0").
  - discriminate.
  - repeat constructor; cbn; intuition discriminate.
  - vm_compute. reflexivity.
Defined.

(* ================================================================= *)
(** ** Nodes without a port list *)

Lemma convert_named_portless dev port_name pre n rest :
  Forall (fun m => exists v, get "name" (n_properties m) = Some v /\
                             v <> VStr dev) pre ->
  get "name" (n_properties n) = Some (VStr dev) ->
  n_ports n = None ->
  convert_named dev port_name (pre ++ n :: rest) = Raise KeyError.
Proof.
  intros Hpre Hn Hp. induction Hpre as [|m pre (v & Hv & Hne) _ IH]; cbn.
  - unfold getitem. rewrite Hn. cbn [of_option Py.bind].
    rewrite (proj2 (is_str_eq _ _) eq_refl), Hp. reflexivity.
  - unfold getitem. rewrite Hv. cbn [of_option Py.bind].
    destruct (is_str v dev) eqn:E; [|exact IH].
    apply is_str_eq in E. contradiction.
Qed.

Lemma resolve_links_raise cat nodes ls l e :
  In l ls -> resolve_link cat nodes l = Raise e ->
  exists e', resolve_links cat nodes ls = Raise e'.
Proof.
  induction ls as [|x ls IH]; intros Hin He; [destruct Hin|].
  destruct Hin as [->|Hin]; cbn.
  - rewrite He. cbn. eauto.
  - destruct (resolve_link cat nodes x) as [r|e1]; cbn; [|eauto].
    destruct (IH Hin He) as (e' & ->). cbn. eauto.
Qed.

(** X15 ([generate_links] with [convert_destination_to_id]): a symbolic
    link whose destination device is a node without a port list makes
    the method raise; it never returns a link list for such a topology. *)
Theorem generate_links_portless_destination cat pre n rest self l :
  In l (links self) ->
  dest_dev l <> "NIO" ->
  Forall (fun m => exists v, get "name" (n_properties m) = Some v /\
                             v <> VStr (dest_dev l)) pre ->
  get "name" (n_properties n) = Some (VStr (dest_dev l)) ->
  n_ports n = None ->
  exists e, generate_links cat (pre ++ n :: rest) self = Raise e.
Proof.
  intros Hin Hne Hpre Hn Hp.
  assert (E : exists e, resolve_link cat (pre ++ n :: rest) l = Raise e).
  { unfold resolve_link. destruct (expanded_dest_port cat l) as [p|e]; cbn;
      [|eauto].
    unfold convert_destination_to_id. apply String.eqb_neq in Hne.
    rewrite Hne. cbn [negb].
    rewrite (convert_named_portless _ p _ _ _ Hpre Hn Hp). cbn. eauto. }
  destruct E as (e & E).
  destruct (resolve_links_raise _ _ _ _ _ Hin E) as (e' & E').
  exists e'. unfold generate_links. now rewrite E'.
Qed.

Section PortlessNodes.

Variable cat : catalog.
Variable py_int : string -> option Z.
Variable hvs : hypervisors.

(** X16 ([generate_nodes], the round of one device): a node of a type
    other than Router, Cloud and EthernetSwitch (a hub, a frame relay or
    ATM switch, a QEMU or VirtualBox machine) gets no port list, and no
    port id is spent on it. *)
Theorem generate_node_without_ports device dev s n s' type :
  get "type" dev = Some type ->
  is_str type "Router" = false -> is_str type "Cloud" = false ->
  is_str type "EthernetSwitch" = false ->
  generate_node cat py_int hvs device dev s = Ok (n, s') ->
  n_ports n = None /\ port_id s' = port_id s /\
  n_type n = type /\ n_description n = type.
Proof.
  intros Ht Hr Hc He H. unfold generate_node in H.
  apply mbind_ok in H as (nid & s0 & E1 & H). apply lift_ok in E1 as [E1 ->].
  apply mbind_ok in H as (node_id & s0 & E2 & H). apply lift_ok in E2 as [E2 ->].
  apply mbind_ok in H as (x & s0 & E3 & H). apply lift_ok in E3 as [E3 ->].
  apply mbind_ok in H as (y & s0 & E4 & H). apply lift_ok in E4 as [E4 ->].
  apply mbind_ok in H as (type' & s0 & E5 & H). apply lift_ok in E5 as [E5 ->].
  apply getitem_ok in E5. rewrite Ht in E5. injection E5 as <-.
  cbv zeta in H. rewrite He, Hr, Hc in H.
  apply mbind_ok in H as (t & s1 & Eloop & H).
  apply ret_ok in H as [-> ->]. cbn.
  apply item_loop_port_id in Eloop as [Hnone Hloop]; [|now left].
  rewrite (Hnone eq_refl) in Hloop |- *. auto.
Qed.

End PortlessNodes.

Lemma generate_node_without_ports_witness :
  exists n s',
    generate_node sample_catalog int_of_digits [] "HUB1"
      [("node_id", VInt 1); ("type", VStr "EthernetHub");
       ("x", VStr "0.0"); ("y", VStr "0.0")] init_conv = Ok (n, s') /\
    n_ports n = None /\ port_id s' = port_id init_conv /\
    n_type n = VStr "EthernetHub" /\ n_description n = VStr "EthernetHub".
Proof.
  do 2 eexists. split; [vm_compute; reflexivity|].
  eapply (generate_node_without_ports sample_catalog int_of_digits [] "HUB1"
            [("node_id", VInt 1); ("type", VStr "EthernetHub");
             ("x", VStr "0.0"); ("y", VStr "0.0")] init_conv);
    vm_compute; reflexivity.
Defined.

Lemma generate_links_portless_destination_witness :
  exists nodes self,
    generate_nodes sample_catalog int_of_digits
      [("HUB1", [("node_id", VInt 1); ("type", VStr "EthernetHub");
                 ("x", VStr "0.0"); ("y", VStr "0.0")]);
       ("R1", router_device "c7200" 2 "f0/0" "HUB1 1")]
      hv_c7200 init_conv = Ok (nodes, self) /\
    exists e, generate_links sample_catalog nodes self = Raise e.
Proof.
  do 2 eexists. split; [vm_compute; reflexivity|].
  apply (generate_links_portless_destination sample_catalog [] _ _ _
           (mk_symlink 2 1 "HUB1" "1")).
  - now left.
  - discriminate.
  - constructor.
  - reflexivity.
  - reflexivity.
Defined.

(* ================================================================= *)
(** ** Device names and types *)

(** X17 ([device_typename]): the method raises a [TypeError] exactly on
    the items that start with none of the nine prefix literals, compared
    with regard to case; on every other item it returns. *)
Theorem device_typename_raises_iff item :
  (device_typename item = Raise TypeError <->
   forall p, In p prefix_literals -> startswith p item = false) /\
  ((exists name dt, device_typename item = Ok (name, dt)) <->
   exists p, In p prefix_literals /\ startswith p item = true).
Proof.
  assert (Hnone : device_typename_type item = None <->
                  forall p, In p prefix_literals -> startswith p item = false).
  { split.
    - intros E p Hp. unfold device_typename_type in E.
      repeat match type of E with
             | (if startswith ?q item then _ else _) = None =>
                 destruct (startswith q item) eqn:?; [discriminate|]
             end.
      cbn in Hp. intuition (subst; assumption).
    - intros H. unfold device_typename_type.
      rewrite !H by (cbn; tauto). reflexivity. }
  split; split.
  - intros E. apply Hnone. unfold device_typename in E.
    destruct (device_typename_type item); [discriminate | reflexivity].
  - intros H. apply Hnone in H. unfold device_typename. now rewrite H.
  - intros (name & dt & E). unfold device_typename in E.
    destruct (device_typename_type item) as [dt'|] eqn:G; [|discriminate].
    apply device_typename_type_closed in G as (_ & Hp & Hs). eauto.
  - apply device_typename_defined.
Qed.

(** X18 ([device_typename]): for an item made of a prefix literal, a
    blank and a name in which the prefix and blank do not occur, the
    method returns the name and the dictionary of the prefix. *)
Theorem device_typename_strips_prefix dt name :
  In dt device_types ->
  occurs_nowhere (dt_from dt ++ " ") name = true ->
  device_typename (dt_from dt ++ " " ++ name) = Ok (name, dt).
Proof.
  intros Hin Hno. apply device_typename_name; [|reflexivity | exact Hno].
  cbn in Hin.
  repeat (destruct Hin as [<-|Hin]; [reflexivity|]). destruct Hin.
Qed.

Lemma device_typename_strips_prefix_witness :
  device_typename ("FRSW" ++ " " ++ "FR 1")
  = Ok ("FR 1", mk_dev_type "FRSW" "Frame Relay switch" "FrameRelaySwitch").
Proof.
  apply (device_typename_strips_prefix
           (mk_dev_type "FRSW" "Frame Relay switch" "FrameRelaySwitch") "FR 1").
  - cbn. tauto.
  - reflexivity.
Defined.

(* ================================================================= *)
(** ** From the sections to the nodes *)

Lemma set_keys_NoDup V k (v : V) d :
  NoDup (keys d) -> NoDup (keys (Py.set k v d)).
Proof.
  induction d as [|[k' v'] d IH]; cbn; intros H.
  - constructor; [intros [] | constructor].
  - inversion H as [|? ? Hnotin Hnd]; subst.
    destruct (String.eqb k k') eqn:E; cbn.
    + apply String.eqb_eq in E as ->. now constructor.
    + constructor; [|now apply IH].
      intros Hin. apply (In_keys_set V k' k v d) in Hin as [->|Hin];
        [|contradiction].
      now rewrite String.eqb_refl in E.
Qed.

Lemma insert_sorted_NoDup x l :
  ~ In x l -> NoDup l -> NoDup (insert_sorted x l).
Proof.
  induction l as [|y l IH]; cbn; intros Hx Hnd.
  - constructor; [intros [] | constructor].
  - destruct (String.leb x y); [now constructor|].
    inversion Hnd as [|? ? Hy Hnd']; subst.
    constructor; [|apply IH; tauto].
    intros Hin. apply In_insert_sorted in Hin as [->|Hin]; tauto.
Qed.

Lemma sorted_NoDup l : NoDup l -> NoDup (sorted l).
Proof.
  induction l as [|x l IH]; cbn; intros H; [constructor|].
  inversion H as [|? ? Hx Hnd]; subst.
  apply insert_sorted_NoDup; [|auto]. intros Hin.
  exact (Hx (proj1 (In_sorted _ _) Hin)).
Qed.

Lemma Forall2_right_In A B (R : A -> B -> Prop) xs ys y :
  Forall2 R xs ys -> In y ys -> exists x, In x xs /\ R x y.
Proof.
  induction 1 as [|x y0 xs ys Hxy HF IH]; intros Hin; [destruct Hin|].
  destruct Hin as [->|Hin].
  - exists x. split; [now left | exact Hxy].
  - destruct (IH Hin) as (x' & Hx' & Hr). exists x'. split; [now right | auto].
Qed.

Lemma Forall2_NoDup_map A B C (R : A -> B -> Prop) (f : B -> C) xs ys :
  Forall2 R xs ys -> NoDup xs ->
  (forall x x' y y', R x y -> R x' y' -> f y = f y' -> x = x') ->
  NoDup (map f ys).
Proof.
  induction 1 as [|x y xs ys Hxy HF IH]; intros Hnd Hinj; cbn; [constructor|].
  inversion Hnd as [|? ? Hx Hnd']; subst. constructor; [|auto].
  intros Hin. apply in_map_iff in Hin as (y' & E & Hy').
  destruct (Forall2_right_In _ _ _ _ _ _ HF Hy') as (x' & Hx' & Hr).
  apply Hx. now rewrite (Hinj x x' y y' Hxy Hr (eq_sym E)).
Qed.

Lemma process_instances_keys old_top all :
  forall st st',
    NoDup (keys (ts_devices st)) ->
    process_instances old_top all 0 st = Ok st' ->
    NoDup (keys (ts_devices st')).
Proof.
  intros st st' HI H.
  apply (process_instances_invariant
           (fun st => NoDup (keys (ts_devices st))) old_top all)
    with (rest := all) (done := []) (st := st); auto.
  clear st st' HI H.
  intros k instance sec item st st' _ _ _ Hnd H.
  apply process_item_ok in H
    as [(v & _ & ->) | [(b & model & c & _ & _ & _ & ->) |
                        (b & name & dt & d0 & d & _ & _ & _ & _ & _ & ->)]];
    auto.
  cbn. now apply set_keys_NoDup.
Qed.

(** X19 ([process_topology], then [generate_nodes]): when no device
    subsection has an entry ['node_id'] of its own, the nodes generated
    from the devices of the section processor have pairwise different
    ids. *)
Theorem processed_nodes_ids_distinct
        cat py_int sections old_top devices conf s nodes s' :
  no_device_entry "node_id" old_top = true ->
  process_topology sections old_top = Ok (devices, conf) ->
  generate_nodes cat py_int devices conf s = Ok (nodes, s') ->
  NoDup (map n_id nodes).
Proof.
  intros Hno Htop Hnodes.
  unfold generate_nodes in Hnodes.
  apply generate_nodes_loop in Hnodes as (new & -> & Hnodes).
  unfold process_topology in Htop. apply bind_ok in Htop as (st & E & Htop).
  injection Htop as <- <-.
  pose proof (process_instances_keys
                old_top (sorted sections) (mk_topology_state [] [] 1) st
                (NoDup_nil _) E) as Hkeys.
  apply (process_instances_node_ids _ _ Hno) in E as (_ & Hid & Hinj);
    [|repeat split; cbn; try lia; discriminate].
  apply (Forall2_NoDup_map _ _ _ _ n_id _ _ Hnodes).
  - now apply sorted_NoDup.
  - intros x x' n n' (_ & _ & dev & G & Hn & _) (_ & _ & dev' & G' & Hn' & _) En.
    apply (Hinj _ _ _ _ G G'). congruence.
Qed.

Lemma processed_nodes_ids_distinct_witness :
  exists devices conf nodes s',
    process_topology (get_instances dotted_quad sample_topology) sample_topology
    = Ok (devices, conf) /\
    generate_nodes sample_catalog int_of_digits devices conf init_conv
    = Ok (nodes, s') /\
    NoDup (map n_id nodes).
Proof.
  do 4 eexists.
  match goal with
  | |- ?A /\ _ => assert (H1 : A) by (vm_compute; reflexivity)
  end.
  split; [exact H1|].
  match goal with
  | |- ?A /\ _ => assert (H2 : A) by (vm_compute; reflexivity)
  end.
  split; [exact H2|].
  apply (fun H0 => processed_nodes_ids_distinct _ _ _ _ _ _ _ _ _ H0 H1 H2).
  reflexivity.
Defined.

(* ================================================================= *)
(** ** Back-references of the ports *)

Lemma port_by_id_mark_other pid q id ports :
  pid <> q -> port_by_id pid (mark_port q id ports) = port_by_id pid ports.
Proof.
  intros Hne. unfold port_by_id.
  induction ports as [|p ports IH]; cbn; [reflexivity|].
  destruct (Z.eqb (p_id p) q) eqn:Eq; cbn.
  - apply Z.eqb_eq in Eq.
    assert (E : Z.eqb (p_id p) pid = false) by (apply Z.eqb_neq; congruence).
    now rewrite E.
  - destruct (Z.eqb (p_id p) pid); [reflexivity | exact IH].
Qed.

Lemma port_by_id_mark_same pid id ports p :
  port_by_id pid (mark_port pid id ports) = Some p -> p_link_id p = Some id.
Proof.
  unfold port_by_id.
  induction ports as [|q ports IH]; cbn; [discriminate|].
  destruct (Z.eqb (p_id q) pid) eqn:Eq; cbn; rewrite Eq.
  - now intros [= <-].
  - exact IH.
Qed.

(** What [add_node_connections] does to a node. *)
Lemma add_node_connections_node l id nodes nodes' n' :
  add_node_connections l id nodes = Ok nodes' -> In n' nodes' ->
  exists n,
    In n nodes /\ n_id n' = n_id n /\
    ((n_id n = lk_source_node_id l /\
      exists ports, n_ports n = Some ports /\
                    n_ports n' = Some (mark_port (lk_source_port_id l) id ports)) \/
     (n_id n <> lk_source_node_id l /\
      destination_node_id l = Some (n_id n) /\
      exists ports, n_ports n = Some ports /\
                    n_ports n' =
                      Some (mark_port_opt (destination_port_id l) id ports)) \/
     (n_id n <> lk_source_node_id l /\ n' = n)).
Proof.
  revert nodes'. induction nodes as [|n nodes IH]; intros nodes' H Hin;
    cbn in H.
  - injection H as <-. destruct Hin.
  - apply bind_ok in H as (n1 & E1 & H).
    apply bind_ok in H as (rest' & E2 & H). injection H as <-.
    destruct Hin as [<-|Hin].
    + exists n. split; [now left|].
      destruct (Z.eqb (n_id n) (lk_source_node_id l)) eqn:Es.
      * apply Z.eqb_eq in Es.
        apply bind_ok in E1 as (ports & Ep & E1). injection E1 as <-.
        destruct (n_ports n) as [ps|]; [|discriminate]. injection Ep as ->.
        split; [reflexivity|]. left. split; [exact Es|]. now exists ports.
      * apply Z.eqb_neq in Es.
        destruct (destination_node_id l) as [d|] eqn:Ed.
        -- destruct (Z.eqb (n_id n) d) eqn:Edn.
           ++ apply Z.eqb_eq in Edn as <-.
              apply bind_ok in E1 as (ports & Ep & E1). injection E1 as <-.
              destruct (n_ports n) as [ps|]; [|discriminate].
              injection Ep as ->.
              split; [reflexivity|]. right; left. repeat split; auto.
              now exists ports.
           ++ injection E1 as <-. split; [reflexivity|]. right; right. auto.
        -- injection E1 as <-. split; [reflexivity|]. right; right. auto.
    + destruct (IH _ E2 Hin) as (n0 & Hn0 & R). exists n0.
      split; [now right | exact R].
Qed.

Lemma back_reference_kept l id nodes nodes' d :
  add_node_connections l id nodes = Ok nodes' ->
  back_reference nodes d ->
  source_of d <> source_of l -> ~ points_at l d ->
  back_reference nodes' d.
Proof.
  intros H Hd Hsrc Hpt n' ports' p' Hin Hid Hports Hp.
  destruct (add_node_connections_node _ _ _ _ _ H Hin)
    as (n & Hn & En & [(Es & ps & Eps & Eps')|
                       [(Es & Ed & ps & Eps & Eps')|(Es & ->)]]).
  - rewrite Hports in Eps'. injection Eps' as ->.
    rewrite port_by_id_mark_other in Hp.
    + apply (Hd n ps p'); auto. congruence.
    + intros E. apply Hsrc. unfold source_of. congruence.
  - rewrite Hports in Eps'. injection Eps' as ->.
    destruct (destination_port_id l) as [q|] eqn:Eq; cbn [mark_port_opt] in Hp.
    + rewrite port_by_id_mark_other in Hp.
      * apply (Hd n ps p'); auto. congruence.
      * intros E. apply Hpt. unfold points_at, target, source_of.
        rewrite Ed, Eq. congruence.
    + apply (Hd n ps p'); auto. congruence.
  - apply (Hd n ports' p'); auto.
Qed.

Lemma back_reference_new l id nodes nodes' :
  add_node_connections (set_id l id) id nodes = Ok nodes' ->
  back_reference nodes' (set_id l id).
Proof.
  intros H n' ports' p' Hin Hid Hports Hp. cbn in Hid, Hp |- *.
  destruct (add_node_connections_node _ _ _ _ _ H Hin)
    as (n & Hn & En & [(Es & ps & Eps & Eps')|
                       [(Es & _)|(Es & _)]]); cbn in *;
    try congruence.
  rewrite Hports in Eps'. injection Eps' as ->.
  now apply port_by_id_mark_same in Hp.
Qed.

Lemma dedup_loop_back_references fuel :
  forall i id ls nodes fin nodes',
    (List.length ls - i <= fuel)%nat ->
    consistent ls -> processed_clear i ls ->
    (forall k d, (k < i)%nat -> nth_error ls k = Some d ->
                 back_reference nodes d) ->
    dedup_loop fuel i id ls nodes = Ok (fin, nodes') ->
    forall d, In d fin -> back_reference nodes' d.
Proof.
  assert (Done : forall i ls nodes,
             (List.length ls <= i)%nat ->
             (forall k d, (k < i)%nat -> nth_error ls k = Some d ->
                          back_reference nodes d) ->
             forall d, In d ls -> back_reference nodes d).
  { intros i ls nodes Hlen Hrefs d Hd. apply In_nth_error in Hd as [k Hk].
    apply (Hrefs k); [|exact Hk].
    assert (k < List.length ls)%nat by (apply nth_error_Some; congruence).
    lia. }
  induction fuel as [|fuel IH];
    intros i id ls nodes fin nodes' Hfuel Hcons Hclear Hrefs H; cbn in H.
  - injection H as <- <-. apply (Done i); auto. lia.
  - destruct (nth_error ls i) as [l|] eqn:El.
    + apply bind_ok in H as (nodes1 & Eadd & H).
      destruct (dedup_step_consistent i id l ls Hcons Hclear El)
        as (Hcons2 & Hclear2 & _ & Hlen).
      assert (Hfuel2 : (List.length (dedup_step i id l ls) - S i <= fuel)%nat)
        by lia.
      apply (IH (S i) (id + 1)%Z (dedup_step i id l ls) nodes1 fin nodes'
                Hfuel2 Hcons2 Hclear2); [|exact H].
      destruct (dedup_step_shape i id l ls Hcons Hclear El)
        as (ls1 & -> & Hi1 & Hlow & _).
      intros k d Hk Hd.
      destruct (Nat.eq_dec k i) as [->|Hne].
      * rewrite (nth_error_set_at_same _ ls1 i l _ Hi1) in Hd.
        injection Hd as <-. now apply (back_reference_new _ _ nodes).
      * rewrite nth_error_set_at_other in Hd by exact Hne.
        rewrite Hlow in Hd by lia.
        apply (back_reference_kept (set_id l id) id nodes); auto.
        -- apply (Hrefs k); [lia | exact Hd].
        -- destruct Hcons as (Hnd & _ & _). intros E.
           apply Hne.
           apply (NoDup_map_nth _ _ source_of ls k i d l Hnd Hd El E).
        -- intros Hp. apply (Hclear k d l); [lia | exact Hd | |].
           ++ eapply nth_error_In, El.
           ++ exact Hp.
    + injection H as <- <-. apply (Done i); auto. now apply nth_error_None.
Qed.

(** X20 ([generate_links] with [add_node_connections]): when the resolved
    declarations are consistent with a cabling, every finalized link is
    written back on its source port: in the nodes returned, the port with
    the link's source port id, in a node with its source node id, carries
    the id of the link. *)
Theorem generate_links_back_references cat nodes self rs ls nodes' :
  resolve_links cat nodes (links self) = Ok rs ->
  consistent rs ->
  generate_links cat nodes self = Ok (ls, nodes') ->
  forall l, In l ls -> back_reference nodes' l.
Proof.
  intros Hrs Hcons H. unfold generate_links in H. rewrite Hrs in H.
  cbn [Py.bind] in H.
  apply (dedup_loop_back_references (List.length rs) 0 1 rs nodes ls nodes');
    auto.
  - lia.
  - intros k d x Hk. lia.
  - intros k d Hk. lia.
Qed.

Lemma generate_links_back_references_witness :
  exists nodes self rs ls nodes',
    generate_nodes sample_catalog int_of_digits two_routers hv_c7200 init_conv
    = Ok (nodes, self) /\
    resolve_links sample_catalog nodes (links self) = Ok rs /\
    generate_links sample_catalog nodes self = Ok (ls, nodes') /\
    forall l, In l ls -> back_reference nodes' l.
Proof.
  do 5 eexists. split; [vm_compute; reflexivity|].
  match goal with
  | |- ?A /\ _ => assert (H1 : A) by (vm_compute; reflexivity)
  end.
  split; [exact H1|].
  match goal with
  | |- ?A /\ _ => assert (H3 : A) by (vm_compute; reflexivity)
  end.
  split; [exact H3|].
  apply (fun Hc => generate_links_back_references _ _ _ _ _ _ H1 Hc H3).
  split; [|split].
  - repeat constructor; cbn; intuition discriminate.
  - intros a b [<-|[<-|[]]] [<-|[<-|[]]]; vm_compute; intros H;
      (discriminate H || reflexivity).
  - intros a [<-|[<-|[]]]; vm_compute; intros H; discriminate H.
Defined.

(* ================================================================= *)
(** ** Destinations that name no device *)

Lemma convert_named_unknown devices xs nodes dev port_name :
  Forall2 (node_of_device devices) xs nodes -> ~ In dev xs ->
  convert_named dev port_name nodes = Ok (None, None).
Proof.
  induction 1 as [|x n xs nodes (Hname & _) _ IH]; intros Hnot; cbn;
    [reflexivity|].
  unfold getitem. rewrite Hname. cbn [of_option Py.bind].
  destruct (is_str (VStr x) dev) eqn:E.
  - apply is_str_eq in E. injection E as ->. exfalso. apply Hnot. now left.
  - apply IH. intros Hin. apply Hnot. now right.
Qed.

(** X21 ([convert_destination_to_id] and [generate_links] on the nodes of
    [generate_nodes]): a destination device, other than ["NIO"], that is
    not a key of the device mapping resolves to null ids without an
    exception, whatever the types of the nodes; and when [generate_links]
    returns, the Link of a SymbolicLink with such a destination is in the
    finalized list, with its source and null destination ids. *)
Theorem unknown_device_is_soft_failure
        cat py_int devices hvs s nodes self dev port_name :
  generate_nodes cat py_int devices hvs s = Ok (nodes, self) ->
  dev <> "NIO" -> ~ In dev (keys devices) ->
  convert_destination_to_id dev port_name nodes = Ok (None, None) /\
  forall l ls nodes',
    In l (links self) -> dest_dev l = dev ->
    generate_links cat nodes self = Ok (ls, nodes') ->
    exists r,
      In r ls /\
      lk_source_node_id r = source_node_id l /\
      lk_source_port_id r = source_port_id l /\
      destination_node_id r = None /\
      destination_port_id r = None.
Proof.
  intros Hnodes Hnio Hdev. unfold generate_nodes in Hnodes.
  apply generate_nodes_loop in Hnodes as (new & -> & Hnodes).
  cbn [app] in *.
  assert (Hconv : forall p, convert_destination_to_id dev p new
                            = Ok (None, None)).
  { intros p. unfold convert_destination_to_id.
    apply String.eqb_neq in Hnio. rewrite Hnio. cbn [negb].
    apply (convert_named_unknown devices (sorted (keys devices))); auto.
    intros Hin. apply Hdev. exact (proj1 (In_sorted _ _) Hin). }
  split; [apply Hconv|].
  intros l ls nodes' Hl Hd H.
  pose proof H as H0. unfold generate_links in H0.
  apply bind_ok in H0 as (rs & Hrs & _).
  destruct (resolve_links_In cat new _ _ l Hrs Hl) as (r0 & _ & Er0).
  pose proof Er0 as Er1. unfold resolve_link in Er1.
  apply bind_ok in Er1 as (p & _ & Er1).
  rewrite Hd, Hconv in Er1. cbn in Er1. injection Er1 as <-.
  destruct (null_port_link_is_kept cat new self ls nodes' l _ H Hl Er0 eq_refl)
    as (r & Hr & E).
  exists r. split; [exact Hr|].
  unfold ends, source_of, destination_of in E. cbn in E.
  injection E as -> -> -> ->. auto.
Qed.

Lemma unknown_device_is_soft_failure_witness :
  exists nodes self,
    generate_nodes sample_catalog int_of_digits dangling_router hv_c7200
                   init_conv = Ok (nodes, self) /\
    convert_destination_to_id "R9" "FastEthernet0/0" nodes = Ok (None, None) /\
    forall l ls nodes',
      In l (links self) -> dest_dev l = "R9" ->
      generate_links sample_catalog nodes self = Ok (ls, nodes') ->
      exists r,
        In r ls /\
        lk_source_node_id r = source_node_id l /\
        lk_source_port_id r = source_port_id l /\
        destination_node_id r = None /\
        destination_port_id r = None.
Proof.
  do 2 eexists.
  match goal with
  | |- ?A /\ _ => assert (H1 : A) by (vm_compute; reflexivity)
  end.
  split; [exact H1|].
  apply (unknown_device_is_soft_failure _ _ _ _ _ _ _ "R9" "FastEthernet0/0"
                                        H1).
  - discriminate.
  - cbn. intros [H|[]]. discriminate H.
Defined.
